(** * Website automation: marker engine and converters

    A shallow embedding of the text engine of
    [Website Creating Automation/website_automation.py]:

    - [find_nth_occurrence]            (Marker Locator),
    - [replace_segment_in_html],
      [get_segment_in_html]            (Segment Engine),
    - [replace_all_markers_in_html]    (Bulk Marker Replacer),
    - [docx_to_html_with_docx2python]  (Nested List Converter),
    - [markdown_to_html]               (Markdown Converter).

    Python strings are lists of characters; a character is a code point in
    0..255.  Python integers that can be negative (the [-1] sentinel of
    [str.find], slice bounds) are [Z].  [while True] loops take a fuel
    argument and answer [OutOfFuel] when it is exhausted; the log file
    written by [log_message] is a list of messages threaded through the
    calls.  The document read by [docx2python] is given as its body, and
    the regular expressions of the source are written out as the matchers
    they denote. *)

From Stdlib Require Import String Ascii List ZArith Lia Bool Arith.
From Stdlib Require Import Numbers.DecimalString Sorting.Sorted.
Import ListNotations.

Open Scope string_scope.
Open Scope list_scope.
Open Scope Z_scope.

(** ** Python strings *)

Definition str := list ascii.

(** String literals are read as character lists. *)
Coercion list_ascii_of_string : string >-> list.

Module Py.

Definition TAB : ascii := "009"%char.
Definition LF : ascii := "010"%char.
Definition CR : ascii := "013"%char.
Definition DQUOTE : ascii := "034"%char.

(** [len(s)] *)
Definition len (s : str) : Z := Z.of_nat (List.length s).

(** [len(l)] for a list. *)
Definition len_list {A : Type} (l : list A) : Z := Z.of_nat (List.length l).

(** A slice bound [i] of a sequence of length [L], as Python normalises
    it: a negative bound counts from the end, and the result is clamped
    to [0..L]. *)
Definition slice_bound (L i : Z) : nat :=
  Z.to_nat (if i <? 0 then Z.max (i + L) 0 else Z.min i L).

(** [s[i:]] *)
Definition slice_from (s : str) (i : Z) : str :=
  skipn (slice_bound (len s) i) s.

(** [s[:j]] *)
Definition slice_to (s : str) (j : Z) : str :=
  firstn (slice_bound (len s) j) s.

(** [s[i:j]] *)
Definition slice (s : str) (i j : Z) : str :=
  let a := slice_bound (len s) i in
  let b := slice_bound (len s) j in
  firstn (b - a) (skipn a s).

(** [s.startswith(p)] *)
Fixpoint startswith (s p : str) {struct p} : bool :=
  match p, s with
  | [], _ => true
  | _ :: _, [] => false
  | c :: p', d :: s' => Ascii.eqb c d && startswith s' p'
  end.

(** Lowest position at which [sub] occurs in [s], counted from [pos]. *)
Fixpoint find_from (s sub : str) (pos : nat) : option nat :=
  if startswith s sub then Some pos
  else match s with
       | [] => None
       | _ :: s' => find_from s' sub (S pos)
       end.

(** [s.find(sub, start)]: the lowest index [>= start] where [sub] occurs,
    or [-1]. *)
Definition find (s sub : str) (start : Z) : Z :=
  let st := if start <? 0 then Z.max (start + len s) 0 else start in
  if len s <? st then -1
  else match find_from (skipn (Z.to_nat st) s) sub (Z.to_nat st) with
       | Some i => Z.of_nat i
       | None => -1
       end.

(** [s.replace(old, new)]: every non-overlapping occurrence of [old],
    left to right.  [skip] counts the characters of a matched [old] still
    to be passed over. *)
Fixpoint replace_scan (s old new : str) (skip : nat) : str :=
  match s with
  | [] => []
  | c :: r =>
      match skip with
      | S k => replace_scan r old new k
      | O => if startswith s old
             then new ++ replace_scan r old new (List.length old - 1)
             else c :: replace_scan r old new 0
      end
  end.

Definition replace (s old new : str) : str :=
  match old with
  | [] => new ++ flat_map (fun c => c :: new) s
  | _ :: _ => replace_scan s old new 0
  end.

(** [c.isspace()] on the code points 0..255. *)
Definition isspace (c : ascii) : bool :=
  let n := nat_of_ascii c in
  ((9 <=? n) && (n <=? 13) || (28 <=? n) && (n <=? 32)
   || (n =? 133) || (n =? 160))%nat.

(** [c] is a decimal digit ([\d], [[0-9]]). *)
Definition isdigit (c : ascii) : bool :=
  let n := nat_of_ascii c in ((48 <=? n) && (n <=? 57))%nat.

Fixpoint dropwhile (p : ascii -> bool) (s : str) : str :=
  match s with
  | [] => []
  | c :: r => if p c then dropwhile p r else s
  end.

Fixpoint takewhile (p : ascii -> bool) (s : str) : str :=
  match s with
  | [] => []
  | c :: r => if p c then c :: takewhile p r else []
  end.

Definition lstrip (s : str) : str := dropwhile isspace s.
Definition rstrip (s : str) : str := rev (dropwhile isspace (rev s)).

(** [s.strip()] *)
Definition strip (s : str) : str := rstrip (lstrip s).

(** Line boundaries of [str.splitlines] among the code points 0..255. *)
Definition is_linebreak (c : ascii) : bool :=
  let n := nat_of_ascii c in
  ((10 <=? n) && (n <=? 13) || (28 <=? n) && (n <=? 30) || (n =? 133))%nat.

Fixpoint splitlines_from (cur s : str) : list str :=
  match s with
  | [] => match cur with [] => [] | _ :: _ => [cur] end
  | c :: r =>
      if is_linebreak c then
        match r with
        | d :: r' =>
            if Ascii.eqb c CR && Ascii.eqb d LF
            then cur :: splitlines_from [] r'
            else cur :: splitlines_from [] r
        | [] => cur :: splitlines_from [] r
        end
      else splitlines_from (cur ++ [c]) r
  end.

(** [s.splitlines()] *)
Definition splitlines (s : str) : list str := splitlines_from [] s.

(** [s.split(c)] for a one-character separator. *)
Fixpoint split_char_from (c : ascii) (cur s : str) : list str :=
  match s with
  | [] => [cur]
  | x :: r => if Ascii.eqb x c then cur :: split_char_from c [] r
              else split_char_from c (cur ++ [x]) r
  end.

Definition split_char (s : str) (c : ascii) : list str :=
  split_char_from c [] s.

(** [s.split(sep, 1)] for a non-empty separator. *)
Definition split_once (s sep : str) : list str :=
  let i := find s sep 0 in
  if i =? -1 then [s]
  else [slice_to s i; slice_from s (i + len sep)].

(** [sep.join(parts)] *)
Fixpoint join (sep : str) (parts : list str) : str :=
  match parts with
  | [] => []
  | [p] => p
  | p :: rest => p ++ sep ++ join sep rest
  end.

(** [str(n)] for an integer. *)
Definition str_of_int (n : Z) : str :=
  list_ascii_of_string (NilZero.string_of_int (Z.to_int n)).

End Py.

(** ** Outcomes of a call *)

Inductive exn : Type :=
| SystemExit (code : Z)
| IndexError.

Inductive outcome (A : Type) : Type :=
| Return (a : A)
| Raise (e : exn)
| OutOfFuel.

Arguments Return {A} a.
Arguments Raise {A} e.
Arguments OutOfFuel {A}.

(** ** Marker Locator *)

(** The [while True] loop of [find_nth_occurrence], with the loop variables
    [start] and [count]. *)
Fixpoint find_nth_loop (fuel : nat) (content substring : str) (n : Z)
    (start count : Z) : outcome Z :=
  match fuel with
  | O => OutOfFuel
  | S fuel' =>
      let index := Py.find content substring start in
      if index =? -1 then Return (-1)
      else
        let count := count + 1 in
        if count =? n then Return index
        else find_nth_loop fuel' content substring n
               (index + Py.len substring) count
  end.

Definition find_nth_occurrence (fuel : nat) (content substring : str)
    (n : Z) : outcome Z :=
  find_nth_loop fuel content substring n 0 0.


(** ** The log file

    [log_message] appends a line to the log file; the file is the list of
    the messages written so far.  A logging call maps the log to an outcome
    and the log it leaves behind (what was written stays written when the
    call raises). *)

Definition Log := list str.

Definition Logged (A : Type) : Type := Log -> outcome A * Log.

Definition ret {A : Type} (a : A) : Logged A := fun l => (Return a, l).

Definition bind {A B : Type} (m : Logged A) (k : A -> Logged B) : Logged B :=
  fun l =>
    match m l with
    | (Return a, l') => k a l'
    | (Raise e, l') => (Raise e, l')
    | (OutOfFuel, l') => (OutOfFuel, l')
    end.

Definition lift {A : Type} (o : outcome A) : Logged A := fun l => (o, l).

Notation "x <- m ;; k" := (bind m (fun x => k))
  (at level 61, m at next level, right associativity).
Notation "m ;;; k" := (bind m (fun _ => k))
  (at level 61, right associativity).

Definition log_message (message : str) : Logged unit :=
  fun l => (Return tt, l ++ [message]).

(** [sys.exit(1)] raises [SystemExit]. *)
Definition log_and_terminate {A : Type} (message : str) : Logged A :=
  log_message ("ERROR: " ++ message) ;;; lift (Raise (SystemExit 1)).

Definition when (b : bool) (m : Logged unit) : Logged unit :=
  if b then m else ret tt.

(** ** Segment Engine *)

Definition start_not_found_msg (search_start_marker : str)
    (start_occurrence : Z) : str :=
  "Search start marker '" ++ search_start_marker ++ "' (occurrence "
    ++ Py.str_of_int start_occurrence ++ ") not found in HTML.".

Definition end_not_found_msg (search_start_marker search_end_marker : str)
    (end_occurrence : Z) : str :=
  "Search end marker '" ++ search_end_marker ++ "' (occurrence "
    ++ Py.str_of_int end_occurrence
    ++ ") not found in HTML after start marker '" ++ search_start_marker
    ++ "'.".

Definition replace_segment_in_html (fuel : nat) (html_content : str)
    (search_start_marker search_end_marker replacement_text : str)
    (start_occurrence end_occurrence : Z) : Logged str :=
  start_index <- lift (find_nth_occurrence fuel html_content
                         search_start_marker start_occurrence) ;;
  when (start_index =? -1)
    (log_message ("Error: " ++ start_not_found_msg search_start_marker
                                 start_occurrence)) ;;;
  end_index <- lift (find_nth_occurrence fuel
                       (Py.slice_from html_content
                          (start_index + Py.len search_start_marker))
                       search_end_marker end_occurrence) ;;
  when (end_index =? -1)
    (log_message ("Error: " ++ end_not_found_msg search_start_marker
                                 search_end_marker end_occurrence)) ;;;
  let end_index := start_index + Py.len search_start_marker + end_index in
  let before := Py.slice_to html_content start_index in
  let after := Py.slice_from html_content
                 (end_index + Py.len search_end_marker) in
  ret (before ++ replacement_text ++ after).

Definition get_segment_in_html (fuel : nat) (html_content : str)
    (search_start_marker search_end_marker : str)
    (start_occurrence end_occurrence : Z) : Logged str :=
  start_index <- lift (find_nth_occurrence fuel html_content
                         search_start_marker start_occurrence) ;;
  (if start_index =? -1
   then log_and_terminate (start_not_found_msg search_start_marker
                             start_occurrence)
   else ret tt) ;;;
  end_index <- lift (find_nth_occurrence fuel
                       (Py.slice_from html_content
                          (start_index + Py.len search_start_marker))
                       search_end_marker end_occurrence) ;;
  (if end_index =? -1
   then log_and_terminate (end_not_found_msg search_start_marker
                             search_end_marker end_occurrence)
   else ret tt) ;;;
  let end_index := start_index + Py.len search_start_marker + end_index in
  ret (Py.slice html_content start_index
         (end_index + Py.len search_end_marker)).

(** ** Bulk Marker Replacer *)

Definition unmatched_msg (start_marker end_marker : str) : str :=
  "Unmatched start marker '" ++ start_marker
    ++ "' found without corresponding end marker '" ++ end_marker ++ "'.".

(** The [while True] loop run for one marker pair. *)
Fixpoint replace_pair_loop (fuel : nat) (updated_html : str)
    (start_marker end_marker start_tag end_tag : str) : Logged str :=
  match fuel with
  | O => lift OutOfFuel
  | S fuel' =>
      let start_idx := Py.find updated_html start_marker 0 in
      if start_idx =? -1 then ret updated_html
      else
        let end_idx := Py.find updated_html end_marker
                         (start_idx + Py.len start_marker) in
        if end_idx =? -1 then
          log_message (unmatched_msg start_marker end_marker) ;;;
          ret updated_html
        else
          let inner_content :=
            Py.slice updated_html (start_idx + Py.len start_marker) end_idx in
          let replacement := start_tag ++ inner_content ++ end_tag in
          let updated_html :=
            Py.slice_to updated_html start_idx ++ replacement
              ++ Py.slice_from updated_html (end_idx + Py.len end_marker) in
          replace_pair_loop fuel' updated_html
            start_marker end_marker start_tag end_tag
  end.

(** [markers] is the dictionary in iteration order. *)
Definition marker_map := list ((str * str) * (str * str)).

Fixpoint replace_all_markers_in_html (fuel : nat) (html_content : str)
    (markers : marker_map) : Logged str :=
  match markers with
  | [] => ret html_content
  | ((start_marker, end_marker), (start_tag, end_tag)) :: rest =>
      updated_html <- replace_pair_loop fuel html_content
                        start_marker end_marker start_tag end_tag ;;
      replace_all_markers_in_html fuel updated_html rest
  end.

(** ** Nested List Converter *)

Module ListConverter.

(** The two values stored on [list_stack]. *)
Inductive list_type : Type := ul | ol.

Definition list_type_eqb (a b : list_type) : bool :=
  match a, b with
  | ul, ul | ol, ol => true
  | _, _ => false
  end.

Definition tag_name (t : list_type) : str :=
  match t with ul => "ul" | ol => "ol" end.

(** What the converter appends to [html_fragments], kept apart by the
    statement that appends it; [render] gives the appended string. *)
Inductive fragment : Type :=
| Wrapper (s : str)
| ListOpen (t : list_type)
| ListClose (t : list_type)
| ListItem (item_content : str)
| Paragraph (p_start paragraph_content p_end : str).

Definition render (f : fragment) : str :=
  match f with
  | Wrapper s => s
  | ListOpen t => "<" ++ tag_name t ++ ">"
  | ListClose t => "</" ++ tag_name t ++ ">"
  | ListItem item_content => "<li>" ++ item_content ++ "</li>"
  | Paragraph p_start paragraph_content p_end =>
      p_start ++ paragraph_content ++ p_end
  end.

(** The state shared by the nested helpers: [list_stack] is outermost
    first, its last element is the innermost open list. *)
Record state : Type := {
  list_stack : list list_type;
  html_fragments : list fragment
}.

Definition append_fragment (f : fragment) (st : state) : state :=
  {| list_stack := list_stack st;
     html_fragments := html_fragments st ++ [f] |}.

(** [tag = list_stack.pop(); html_fragments.append(f"</{tag}>")] *)
Definition pop_and_close (st : state) : state :=
  match rev (list_stack st) with
  | [] => st
  | tag :: _ =>
      {| list_stack := removelast (list_stack st);
         html_fragments := html_fragments st ++ [ListClose tag] |}
  end.

Fixpoint close_all_lists_loop (fuel : nat) (st : state) : state :=
  match fuel with
  | O => st
  | S fuel' =>
      match list_stack st with
      | [] => st
      | _ :: _ => close_all_lists_loop fuel' (pop_and_close st)
      end
  end.

(** [while list_stack: ...]; each round pops one element, so the length of
    the stack is enough fuel. *)
Definition close_all_lists (st : state) : state :=
  close_all_lists_loop (List.length (list_stack st)) st.

Fixpoint close_to_level_loop (fuel : nat) (level : Z) (st : state) : state :=
  match fuel with
  | O => st
  | S fuel' =>
      if Py.len_list (list_stack st) >? level
      then close_to_level_loop fuel' level (pop_and_close st)
      else st
  end.

(** [while len(list_stack) > level: ...] *)
Definition close_to_level (level : Z) (st : state) : state :=
  close_to_level_loop (List.length (list_stack st)) level st.

Definition open_list (t : list_type) (st : state) : state :=
  {| list_stack := list_stack st ++ [t];
     html_fragments := html_fragments st ++ [ListOpen t] |}.

Fixpoint open_lists_loop (fuel : nat) (desired_depth : Z) (t : list_type)
    (st : state) : state :=
  match fuel with
  | O => st
  | S fuel' =>
      if Py.len_list (list_stack st) <? desired_depth
      then open_lists_loop fuel' desired_depth t (open_list t st)
      else st
  end.

(** [while len(list_stack) < desired_depth: open_list(current_type)];
    each round adds one element, so [desired_depth] rounds are enough. *)
Definition open_lists (desired_depth : Z) (t : list_type) (st : state)
    : state :=
  open_lists_loop (Z.to_nat desired_depth) desired_depth t st.

(** [re.match(r"^(\t+)", paragraph)]: the length of group 1, or 0. *)
Definition indent_of (paragraph : str) : Z :=
  Py.len (Py.takewhile (Ascii.eqb Py.TAB) paragraph).

Definition bullet_marker : str := "--" ++ [Py.TAB].

(** [re.match(r"^--\t", s)] *)
Definition bullet_match (s : str) : bool := Py.startswith s bullet_marker.

(** [re.sub(r"^--\t", "", s)] *)
Definition strip_bullet (s : str) : str :=
  if bullet_match s then skipn 3 s else s.

(** The pattern [r"^[0-9]+[\.)]\\s?"]: one or more digits, then [.] or
    [)], then a backslash (the raw string holds two backslashes, that is
    an escaped backslash), then an optional letter [s].  The result is
    what follows the match. *)
Definition number_pattern (s : str) : option str :=
  match Py.takewhile Py.isdigit s with
  | [] => None
  | _ :: _ =>
      match Py.dropwhile Py.isdigit s with
      | c :: b :: rest =>
          if (Ascii.eqb c "."%char || Ascii.eqb c ")"%char)
             && Ascii.eqb b "\"%char
          then match rest with
               | x :: rest' =>
                   if Ascii.eqb x "s"%char then Some rest' else Some rest
               | [] => Some rest
               end
          else None
      | _ => None
      end
  end.

(** [re.match(r"^[0-9]+[\.)]\\s?", s)] *)
Definition number_match (s : str) : bool :=
  match number_pattern s with Some _ => true | None => false end.

(** [re.sub(r"^[0-9]+[\.)]\\s?", "", s)] *)
Definition strip_number (s : str) : str :=
  match number_pattern s with Some rest => rest | None => s end.

(** [.replace("&", "&amp;").replace("<", "&lt;").replace(">", "&gt;")] *)
Definition escape_html (s : str) : str :=
  Py.replace (Py.replace (Py.replace s "&" "&amp;") "<" "&lt;") ">" "&gt;".

Definition current_type_of (line_stripped : str) : option list_type :=
  if bullet_match line_stripped then Some ul
  else if number_match line_stripped then Some ol
  else None.

Section Conversion.

Variables entire_start entire_end p_start p_end : str.

(** The body of [for paragraph in paragraphs]; [list_stack[-1]] is the head
    of the reversed stack. *)
Definition process_paragraph (st : state) (paragraph : str) : state :=
  let indent_level := indent_of paragraph in
  let line_stripped := Py.slice_from paragraph indent_level in
  match current_type_of line_stripped with
  | Some current_type =>
      let desired_depth := indent_level + 1 in
      let st :=
        if Py.len_list (list_stack st) >? desired_depth then
          close_to_level desired_depth st
        else if Py.len_list (list_stack st) <? desired_depth then
          open_lists desired_depth current_type st
        else
          match rev (list_stack st) with
          | top :: _ =>
              if negb (list_type_eqb top current_type)
              then open_list current_type
                     (close_to_level (desired_depth - 1) st)
              else st
          | [] => st (* not reached: the depth is desired_depth >= 1 *)
          end in
      let item_content :=
        if bullet_match line_stripped then strip_bullet line_stripped
        else strip_number line_stripped in
      let item_content := escape_html item_content in
      append_fragment (ListItem item_content) st
  | None =>
      let st := close_all_lists st in
      let paragraph_content := escape_html paragraph in
      append_fragment (Paragraph p_start paragraph_content p_end) st
  end.

Definition scan_paragraphs (st : state) (paragraphs : list str) : state :=
  fold_left process_paragraph paragraphs st.

Definition initial_state : state :=
  {| list_stack := [];
     html_fragments :=
       match entire_start with [] => [] | _ :: _ => [Wrapper entire_start] end
  |}.

(** The fragments appended by a whole run over the extracted
    paragraphs. *)
Definition convert_paragraphs (paragraphs : list str) : state :=
  let st := scan_paragraphs initial_state paragraphs in
  let st := close_all_lists st in
  match entire_end with
  | [] => st
  | _ :: _ => append_fragment (Wrapper entire_end) st
  end.

(** [doc_content.body] is a list of sections, of pages, of columns, of
    paragraphs; the paragraphs kept are those that are not blank. *)
Definition extract_paragraphs (body : list (list (list (list str))))
    : list str :=
  filter (fun paragraph =>
            match Py.strip paragraph with [] => false | _ :: _ => true end)
         (concat (concat (concat body))).

Definition docx_to_html_with_docx2python
    (body : list (list (list (list str)))) : str :=
  let st := convert_paragraphs (extract_paragraphs body) in
  Py.join [Py.LF] (map render (html_fragments st)).

End Conversion.

End ListConverter.

(** ** Markdown Converter *)

Module Markdown.

(** The local variables of [markdown_to_html] that the nested helpers
    share. *)
Record state : Type := {
  html_lines : list str;
  in_list : bool;
  in_ordered_list : bool;
  in_paragraph : bool
}.

Definition initial_state : state :=
  {| html_lines := []; in_list := false; in_ordered_list := false;
     in_paragraph := false |}.

Definition append_line (l : str) (st : state) : state :=
  {| html_lines := html_lines st ++ [l];
     in_list := in_list st;
     in_ordered_list := in_ordered_list st;
     in_paragraph := in_paragraph st |}.

Definition set_in_list (b : bool) (st : state) : state :=
  {| html_lines := html_lines st; in_list := b;
     in_ordered_list := in_ordered_list st;
     in_paragraph := in_paragraph st |}.

Definition set_in_ordered_list (b : bool) (st : state) : state :=
  {| html_lines := html_lines st; in_list := in_list st;
     in_ordered_list := b; in_paragraph := in_paragraph st |}.

Definition set_in_paragraph (b : bool) (st : state) : state :=
  {| html_lines := html_lines st; in_list := in_list st;
     in_ordered_list := in_ordered_list st; in_paragraph := b |}.

Definition close_paragraph (st : state) : state :=
  if in_paragraph st
  then set_in_paragraph false (append_line "</p>" st)
  else st.

Definition close_list (st : state) : state :=
  let st := if in_list st
            then set_in_list false (append_line "</ul>" st) else st in
  if in_ordered_list st
  then set_in_ordered_list false (append_line "</ol>" st) else st.

(** [re.match] of the heading pattern: group 1 is one or more [#]; then
    come optional white space, an optional [H] and digit (group 2), an
    optional [:] and white space (group 3); group 4 is the rest of the
    line.  The result is the length of group 1, and group 4.  Every part
    after group 1 can match the empty string, so the greedy choices are
    never undone. *)
Definition heading_match (line : str) : option (Z * str) :=
  match Py.takewhile (Ascii.eqb "#"%char) line with
  | [] => None
  | (_ :: _) as hashes =>
      let rest := Py.dropwhile (Ascii.eqb "#"%char) line in
      let rest := Py.dropwhile Py.isspace rest in
      let rest :=
        match rest with
        | h :: d :: rest' =>
            if Ascii.eqb h "H"%char && Py.isdigit d then rest' else rest
        | _ => rest
        end in
      let rest :=
        match rest with
        | c :: rest' =>
            if Ascii.eqb c ":"%char then Py.dropwhile Py.isspace rest'
            else rest
        | [] => rest
        end in
      Some (Py.len hashes,
            Py.takewhile (fun c => negb (Ascii.eqb c Py.LF)) rest)
  end.

(** After an opening [**]: the shortest run of characters other than a
    newline that is followed by [**], and what follows that [**]. *)
Fixpoint bold_close (s : str) : option (str * str) :=
  match s with
  | [] => None
  | c :: r =>
      if Py.startswith s "**" then Some ([], skipn 2 s)
      else if Ascii.eqb c Py.LF then None
      else match bold_close r with
           | Some (inner, rest) => Some (c :: inner, rest)
           | None => None
           end
  end.

(** [re.sub] of the bold pattern (two stars, a lazy group, two stars) by
    [<strong>], the group, [</strong>]; [skip] counts the characters of
    the current match still to be passed over. *)
Fixpoint bold_scan (s : str) (skip : nat) : str :=
  match s with
  | [] => []
  | c :: r =>
      match skip with
      | S k => bold_scan r k
      | O =>
          match (if Py.startswith s "**" then bold_close (skipn 2 s)
                 else None) with
          | Some (inner, _) =>
              "<strong>" ++ inner ++ "</strong>"
                ++ bold_scan r (List.length inner + 3)
          | None => c :: bold_scan r 0
          end
      end
  end.

Definition bold (s : str) : str := bold_scan s 0.

(** [re.match(r"\d+\.\s", line)] *)
Definition numbered_match (line : str) : bool :=
  match Py.takewhile Py.isdigit line with
  | [] => false
  | _ :: _ =>
      match Py.dropwhile Py.isdigit line with
      | c :: w :: _ => Ascii.eqb c "."%char && Py.isspace w
      | _ => false
      end
  end.

Definition ul_open : str :=
  "<ul class=" ++ [Py.DQUOTE] ++ "list" ++ [Py.DQUOTE]
    ++ " role=" ++ [Py.DQUOTE] ++ "list" ++ [Py.DQUOTE] ++ ">".

Definition ol_open : str :=
  "<ol class=" ++ [Py.DQUOTE] ++ "list" ++ [Py.DQUOTE]
    ++ " role=" ++ [Py.DQUOTE] ++ "list" ++ [Py.DQUOTE] ++ ">".

(** The body of [for subline in sublines]. *)
Definition process_subline (sublines : list str) (st : state)
    (subline : str) : state :=
  let subline := Py.strip subline in
  match subline with
  | [] => st
  | _ :: _ =>
      let subline := bold subline in
      let st := append_line subline st in
      let st := close_paragraph st in
      if list_eq_dec ascii_dec subline (last sublines [])
      then st
      else set_in_paragraph true (append_line "<p>" st)
  end.

(** The body of [for line in markdown_text.splitlines()]. *)
Definition process_line (st : state) (line : str) : outcome state :=
  let line := Py.strip line in
  if Py.startswith line "#" then
    let st := close_list (close_paragraph st) in
    match heading_match line with
    | Some (level, group4) =>
        let text := Py.strip group4 in
        if (1 <=? level) && (level <=? 6)
        then Return (append_line
                       ("<h" ++ Py.str_of_int level ++ ">" ++ text
                          ++ "</h" ++ Py.str_of_int level ++ ">") st)
        else Return st
    | None => Return st
    end
  else if Py.startswith line "- " then
    let st := close_paragraph st in
    let st := if negb (in_list st)
              then set_in_list true (append_line ul_open st) else st in
    let text := Py.strip (Py.slice_from line 2) in
    let text := bold text in
    Return (append_line ("  <li>" ++ text ++ "</li>") st)
  else
    let st := if in_list st
              then set_in_list false (append_line "</ul>" st) else st in
    if numbered_match line then
      let st := close_paragraph st in
      let st := if negb (in_ordered_list st)
                then set_in_ordered_list true (append_line ol_open st)
                else st in
      match nth_error (Py.split_once line ". ") 1 with
      | None => Raise IndexError
      | Some item =>
          let text := Py.strip item in
          let text := bold text in
          Return (append_line ("<li>" ++ text ++ "</li>") st)
      end
    else
      let st := if in_ordered_list st
                then set_in_ordered_list false (append_line "</ol>" st)
                else st in
      let st := if negb (in_paragraph st)
                then set_in_paragraph true (append_line "<p>" st)
                else st in
      let sublines := Py.split_char line Py.LF in
      Return (fold_left (process_subline sublines) sublines st).

(** The [for] loop over the lines; an exception ends it. *)
Fixpoint scan_lines (st : state) (lines : list str) : outcome state :=
  match lines with
  | [] => Return st
  | line :: rest =>
      match process_line st line with
      | Return st' => scan_lines st' rest
      | Raise e => Raise e
      | OutOfFuel => OutOfFuel
      end
  end.

(** The state when the function reaches its [return]. *)
Definition final_state (markdown_text : str) : outcome state :=
  match scan_lines initial_state (Py.splitlines markdown_text) with
  | Return st => Return (close_list (close_paragraph st))
  | Raise e => Raise e
  | OutOfFuel => OutOfFuel
  end.

Definition markdown_to_html (markdown_text : str) : outcome str :=
  match final_state markdown_text with
  | Return st => Return (Py.join [Py.LF] (html_lines st))
  | Raise e => Raise e
  | OutOfFuel => OutOfFuel
  end.

End Markdown.

(** * The callers of the engine

    The functions around the engine: the update of a template from the
    cells of a sheet, the name of the file it is written to, the clean-up
    of the meta tags, and the reading of the cells.  What they take from
    the outside (the sheet read by [pandas], the document decoded by
    [json.loads]) is an argument. *)

(** ** Exceptions of the callers *)

(** The callers can raise what the engine raises, and the exceptions of a
    dictionary or an attribute that is missing. *)
Inductive error : Type :=
| Engine (e : exn)
| KeyError (key : str)
| TypeError
| AttributeError.

Inductive result (A : Type) : Type :=
| Done (a : A)
| Raised (e : error)
| Unfinished.

Arguments Done {A} a.
Arguments Raised {A} e.
Arguments Unfinished {A}.

(** ** Dictionaries with string keys, in insertion order *)

Module Dict.

Definition key_eqb (a b : str) : bool :=
  if list_eq_dec ascii_dec a b then true else false.

(** [d.get(key)] *)
Fixpoint lookup {V : Type} (d : list (str * V)) (key : str) : option V :=
  match d with
  | [] => None
  | (k, v) :: rest => if key_eqb k key then Some v else lookup rest key
  end.

(** [d.get(key, default)] *)
Definition get {V : Type} (d : list (str * V)) (key : str) (default : V) : V :=
  match lookup d key with Some v => v | None => default end.

(** [d[key] = v]: a key that is present keeps its place. *)
Fixpoint set {V : Type} (d : list (str * V)) (key : str) (v : V)
    : list (str * V) :=
  match d with
  | [] => [(key, v)]
  | (k, w) :: rest =>
      if key_eqb k key then (k, v) :: rest else (k, w) :: set rest key v
  end.

End Dict.

(** ** Template update *)

Module Template.

(** One value of [replacements_config]: a dictionary with the two markers
    and four optional keys. *)
Record replacement : Type := {
  search_start_marker : option str;
  search_end_marker : option str;
  search_start_occurrence : option Z;
  search_end_occurrence : option Z;
  replacement_start : option str;
  replacement_end : option str
}.

Definition replaced_msg (key replacement_text : str) : str :=
  "Successfully replaced segment for '" ++ key ++ "' with '"
    ++ replacement_text ++ "'.".

Definition or_default {A : Type} (o : option A) (default : A) : A :=
  match o with Some a => a | None => default end.

(** The [for] loop of [update_html_content] over the items of
    [replacements_config]. *)
Fixpoint update_html_content (fuel : nat) (html_content : str)
    (data : list (str * str)) (replacements_config : list (str * replacement))
    (log : Log) : result str * Log :=
  match replacements_config with
  | [] => (Done html_content, log)
  | (key, config) :: rest =>
      let cell_value := Dict.get data key [] in
      match search_start_marker config with
      | None => (Raised (KeyError "search_start_marker"), log)
      | Some start_marker =>
          match search_end_marker config with
          | None => (Raised (KeyError "search_end_marker"), log)
          | Some end_marker =>
              let start_occ := or_default (search_start_occurrence config) 1 in
              let end_occ := or_default (search_end_occurrence config) 1 in
              let replacement_text :=
                or_default (replacement_start config) [] ++ cell_value
                  ++ or_default (replacement_end config) [] in
              match replace_segment_in_html fuel html_content start_marker
                      end_marker replacement_text start_occ end_occ log with
              | (Return updated_content, log') =>
                  update_html_content fuel updated_content data rest
                    (log' ++ [replaced_msg key replacement_text])
              | (Raise e, log') => (Raised (Engine e), log')
              | (OutOfFuel, log') => (Unfinished, log')
              end
          end
      end
  end.

(** [p.rfind(c)] for one character: [last] is the answer so far. *)
Fixpoint rfind_char_from (p : str) (c : ascii) (pos : nat) (last : Z) : Z :=
  match p with
  | [] => last
  | x :: r =>
      rfind_char_from r c (S pos)
        (if Ascii.eqb x c then Z.of_nat pos else last)
  end.

Definition rfind_char (p : str) (c : ascii) : Z := rfind_char_from p c 0 (-1).

(** The [while] loop of [splitext]: whether a character other than a dot
    is met among the characters of the file name that come before the last
    dot. *)
Fixpoint other_than_dot (name : str) : bool :=
  match name with
  | [] => false
  | c :: r => if negb (Ascii.eqb c "."%char) then true else other_than_dot r
  end.

(** [os.path.splitext(p)], with [/] as the separator. *)
Definition splitext (p : str) : str * str :=
  let sepIndex := rfind_char p "/"%char in
  let dotIndex := rfind_char p "."%char in
  if dotIndex >? sepIndex then
    if other_than_dot (Py.slice p (sepIndex + 1) dotIndex)
    then (Py.slice_to p dotIndex, Py.slice_from p dotIndex)
    else (p, [])
  else (p, []).

(** The file [process_html_template] saves to. *)
Definition output_file (html_file : str) (in_place : bool) : str :=
  if in_place then html_file
  else let (base, ext) := splitext html_file in base ++ "-new" ++ ext.

End Template.

(** ** Meta tags *)

Module MetaTags.

(** A JSON document as [json.loads] returns it; the value of a number is
    not looked at. *)
#[warnings="-register-all"]
Inductive json : Type :=
| JNull
| JBool (b : bool)
| JNumber
| JString (s : str)
| JArray (items : list json)
| JObject (members : list (str * json)).

(** What [json.loads(meta_tags_str)] does: it raises [JSONDecodeError]
    with a message, or returns the document. *)
Inductive loaded : Type :=
| DecodeError (message : str)
| Loaded (value : json).

Definition fence : str := "```".

Definition html_fence : str := "```html" ++ [Py.LF].

Definition remove_fences (html_code : str) : str :=
  Py.replace (Py.replace html_code html_fence []) fence [].

(** [format_meta_tags]: the two caught exceptions give an ["Error: ..."]
    text; indexing a document that is not an object raises [TypeError] and
    a [raw_schema] that is not a string has no [replace]. *)
Definition format_meta_tags (meta_tags : loaded) : result str :=
  match meta_tags with
  | DecodeError message => Done ("Error: " ++ message)
  | Loaded (JObject meta_tags_dict) =>
      match Dict.lookup meta_tags_dict "raw_schema" with
      | None => Done ("Error: " ++ "'raw_schema'")
      | Some (JString html_code) => Done (remove_fences html_code)
      | Some _ => Raised AttributeError
      end
  | Loaded _ => Raised TypeError
  end.

End MetaTags.

(** ** Reading the cells *)

Module Excel.

Section Sheet.

(** A cell of the data frame, with [pd.isna(val)] and [str(val)]. *)
Variable cell : Type.
Variable isna : cell -> bool.
Variable to_str : cell -> str.

(** The data frame read with [header=None]: [df.shape] and the cells by
    position. *)
Record dataframe : Type := {
  nrows : nat;
  ncols : nat;
  iat : nat -> nat -> cell
}.

(** A position given to [iloc] along an axis of size [n]: a negative one
    counts from the end; outside the axis there is none. *)
Definition position (n : nat) (i : Z) : option nat :=
  if i <? 0 then
    if i + Z.of_nat n <? 0 then None else Some (Z.to_nat (i + Z.of_nat n))
  else if i <? Z.of_nat n then Some (Z.to_nat i) else None.

(** [df.iloc[row_idx, col_idx]] *)
Definition iloc (df : dataframe) (row_idx col_idx : Z) : outcome cell :=
  match position (nrows df) row_idx, position (ncols df) col_idx with
  | Some r, Some c => Return (iat df r c)
  | _, _ => Raise IndexError
  end.

Definition out_of_range_msg (key : str) : str :=
  "Cell for '" ++ key ++ "' is out of range in Excel file.".

Definition empty_cell_msg (key : str) (r c : Z) : str :=
  "Cell for '" ++ key ++ "' at row " ++ Py.str_of_int r ++ ", col "
    ++ Py.str_of_int c ++ " is empty. Cannot proceed.".

(** The [for] loop over the items of [cell_mapping]. *)
Fixpoint read_cells (df : dataframe) (cell_mapping : list (str * (Z * Z)))
    (data : list (str * str)) : Logged (list (str * str)) :=
  match cell_mapping with
  | [] => ret data
  | (key, (r, c)) :: rest =>
      let row_idx := r - 1 in
      let col_idx := c - 1 in
      if (row_idx >=? Z.of_nat (nrows df)) || (col_idx >=? Z.of_nat (ncols df))
      then log_and_terminate (out_of_range_msg key)
      else
        val <- lift (iloc df row_idx col_idx) ;;
        match (if isna val then [] else Py.strip (to_str val)) with
        | [] => log_and_terminate (empty_cell_msg key r c)
        | (_ :: _) as text => read_cells df rest (Dict.set data key text)
        end
  end.

(** What [pd.read_excel] does: it raises an exception with a text, or
    returns the data frame. *)
Inductive read_result : Type :=
| ReadFailed (e : str)
| Sheet (df : dataframe).

Definition read_excel_data (excel_file sheet_name : str) (read : read_result)
    (cell_mapping : list (str * (Z * Z))) : Logged (list (str * str)) :=
  match read with
  | ReadFailed e =>
      log_and_terminate
        ("Failed to open Excel file '" ++ excel_file ++ "' or sheet '"
           ++ sheet_name ++ "': " ++ e)
  | Sheet df =>
      data <- read_cells df cell_mapping [] ;;
      log_message
        ("Successfully read data from Excel file '" ++ excel_file
           ++ "', sheet '" ++ sheet_name ++ "'.") ;;;
      ret data
  end.

End Sheet.

End Excel.

(** * Vocabulary of the properties

    The definitions below belong to the statements, not to the program:
    the scan of the specification for the Marker Locator, the replacements
    made for a pair of the Bulk Marker Replacer, the reading of the emitted
    fragments for the Nested List Converter, and the invariants of the
    Markdown Converter. *)

(** ** Marker Locator: the scan of the specification *)

(** The matches of [marker] met by a scan from left to right that resumes
    after the end of each match; [skip] counts the characters of the last
    match still to be passed over, [pos] is the offset of the scan. *)
Fixpoint occurrences_scan (s marker : str) (pos skip : nat) : list nat :=
  match s with
  | [] => []
  | _ :: r =>
      match skip with
      | S k => occurrences_scan r marker (S pos) k
      | O =>
          if Py.startswith s marker
          then pos :: occurrences_scan r marker (S pos)
                        (List.length marker - 1)
          else occurrences_scan r marker (S pos) 0
      end
  end.

Definition nonoverlapping_occurrences (content marker : str) : list nat :=
  occurrences_scan content marker 0 0.

(** [locate] as the specification words it: the offset of the [n]th
    match, [-1] when there are fewer than [n]. *)
Definition locate_spec (content marker : str) (n : Z) : Z :=
  match nth_error (nonoverlapping_occurrences content marker)
          (Z.to_nat (n - 1)) with
  | Some i => Z.of_nat i
  | None => -1
  end.

(** ** Bulk Marker Replacer: the replacements made for a pair *)

(** [rewritten sm em st_tag en_tag k html html']: [html'] is [html] after
    [k] replacements, each of the leftmost start marker [sm] and the first
    end marker [em] after it by the two tags, the text between the markers
    and the text around them kept. *)
Inductive rewritten (sm em st_tag en_tag : str) : nat -> str -> str -> Prop :=
| rewritten_none (html : str) : rewritten sm em st_tag en_tag 0 html html
| rewritten_pair (k : nat) (pre inner post html' : str) :
    Py.find (pre ++ sm) sm 0 = Py.len pre ->
    Py.find (inner ++ em) em 0 = Py.len inner ->
    rewritten sm em st_tag en_tag k
      (pre ++ st_tag ++ inner ++ en_tag ++ post) html' ->
    rewritten sm em st_tag en_tag (S k)
      (pre ++ sm ++ inner ++ em ++ post) html'.

(** ** Nested List Converter *)

Module ListConverterSpec.

Import ListConverter.

(** The lists left open after the fragments [fs], starting from the open
    lists [opened] (outermost first); [None] when a closing tag meets no
    open list or one of the other type. *)
Fixpoint open_after (opened : list list_type) (fs : list fragment)
    : option (list list_type) :=
  match fs with
  | [] => Some opened
  | ListOpen t :: r => open_after (opened ++ [t]) r
  | ListClose t :: r =>
      match rev opened with
      | top :: _ =>
          if list_type_eqb t top then open_after (removelast opened) r
          else None
      | [] => None
      end
  | _ :: r => open_after opened r
  end.

(** Every list tag that is opened is closed by a tag of its type, in
    nesting order, and nothing stays open. *)
Definition well_nested (fs : list fragment) : Prop :=
  open_after [] fs = Some [].

(** The fragments so far leave open exactly the lists on the stack. *)
Definition stack_tracks_fragments (st : state) : Prop :=
  open_after [] (html_fragments st) = Some (list_stack st).

Definition escape_char (c : ascii) : str :=
  if Ascii.eqb c "&"%char then "&amp;"
  else if Ascii.eqb c "<"%char then "&lt;"
  else if Ascii.eqb c ">"%char then "&gt;"
  else [c].

(** Each character escaped on its own, once. *)
Definition escape_once (s : str) : str := flat_map escape_char s.

(** The text a fragment carries, if it carries one. *)
Definition text_of (f : fragment) : list str :=
  match f with
  | ListItem item_content => [item_content]
  | Paragraph _ paragraph_content _ => [paragraph_content]
  | _ => []
  end.

Definition emitted_texts (fs : list fragment) : list str :=
  flat_map text_of fs.

(** The unit of text of a paragraph before escaping: what follows the
    marker of a list item, the whole paragraph otherwise. *)
Definition unit_text (paragraph : str) : str :=
  let line_stripped := Py.slice_from paragraph (indent_of paragraph) in
  match current_type_of line_stripped with
  | Some _ =>
      if bullet_match line_stripped then strip_bullet line_stripped
      else strip_number line_stripped
  | None => paragraph
  end.

(** The largest indentation level among the paragraphs, 0 for none. *)
Definition max_indent (paragraphs : list str) : Z :=
  fold_right (fun p m => Z.max (indent_of p) m) 0 paragraphs.

End ListConverterSpec.

(** ** Markdown Converter *)

Module MarkdownSpec.

Import Markdown.

(** While a paragraph is open no list is open and the last line written
    is the opening [<p>]. *)
Definition paragraph_just_opened (st : state) : Prop :=
  in_paragraph st = true ->
  in_list st = false /\ in_ordered_list st = false
  /\ exists pre, html_lines st = pre ++ ["<p>" : str].

(** The same with the lists known to be closed, as in the paragraph
    branch. *)
Definition lists_closed (st : state) : Prop :=
  in_list st = false /\ in_ordered_list st = false
  /\ (in_paragraph st = true -> exists pre, html_lines st = pre ++ ["<p>" : str]).

(** The numbered-item branch indexes the second part of
    [line.split(". ", 1)]; a line that matches the numbered pattern with
    white space other than a space after the dot has no such part. *)
Definition raises_index_error (line : str) : bool :=
  let line := Py.strip line in
  negb (Py.startswith line "#") && negb (Py.startswith line "- ")
  && numbered_match line && (Py.find line ". " 0 =? -1).

(** The state a blank line leaves behind. *)
Definition after_blank_line (st : state) : state :=
  {| html_lines :=
       html_lines st
         ++ (if in_list st then ["</ul>" : str] else [])
         ++ (if in_ordered_list st then ["</ol>" : str] else [])
         ++ (if in_paragraph st then [] else ["<p>" : str]);
     in_list := false;
     in_ordered_list := false;
     in_paragraph := true |}.

End MarkdownSpec.

(** * Properties *)

(** ** Strings *)

Lemma len_nonneg (a : str) : 0 <= Py.len a.
Proof. unfold Py.len. lia. Qed.

Lemma startswith_length (s p : str) :
  Py.startswith s p = true -> (List.length p <= List.length s)%nat.
Proof.
  revert s. induction p as [|c p IH]; intros [|d s] H; simpl in *;
    try lia; try discriminate.
  apply andb_prop in H. destruct H as [_ H]. apply IH in H. lia.
Qed.

(** [Py.find] from a position inside the string. *)
Lemma find_at (s sub : str) (start : nat) :
  (start <= List.length s)%nat ->
  Py.find s sub (Z.of_nat start) =
    match Py.find_from (skipn start s) sub start with
    | Some i => Z.of_nat i
    | None => -1
    end.
Proof.
  intros H. unfold Py.find, Py.len.
  destruct (Z.ltb_spec (Z.of_nat start) 0) as [Hn|_]; [lia|].
  destruct (Z.ltb_spec (Z.of_nat (List.length s)) (Z.of_nat start)) as [Hl|_];
    [lia|].
  now rewrite Nat2Z.id.
Qed.

Lemma find_from_bounds (s sub : str) (pos i : nat) :
  Py.find_from s sub pos = Some i ->
  (pos <= i /\ i + List.length sub <= pos + List.length s)%nat.
Proof.
  revert pos. induction s as [|c s IH]; intros pos; simpl.
  - destruct (Py.startswith [] sub) eqn:E; [|discriminate].
    intros [= <-]. apply startswith_length in E. simpl in E. lia.
  - destruct (Py.startswith (c :: s) sub) eqn:E.
    + intros [= <-]. apply startswith_length in E. simpl in E. lia.
    + intros H. apply IH in H. lia.
Qed.

(** ** Marker Locator *)

Lemma occurrences_scan_skip (s marker : str) (pos k : nat) :
  occurrences_scan s marker pos k =
  occurrences_scan (skipn k s) marker (pos + k) 0.
Proof.
  revert pos k. induction s as [|c s IH]; intros pos k.
  - now rewrite skipn_nil.
  - destruct k as [|k]; simpl.
    + now rewrite Nat.add_0_r.
    + rewrite IH. f_equal. lia.
Qed.

(** Every offset the scan reports is the start of a match. *)
Lemma occurrences_scan_matches (marker s : str) (pos k : nat) :
  Forall (fun i => (pos + k <= i)%nat
                   /\ Py.startswith (skipn (i - pos) s) marker = true)
         (occurrences_scan s marker pos k).
Proof.
  revert pos k. induction s as [|c s IH]; intros pos k; [constructor|].
  assert (Hshift : forall k',
            Forall (fun i => (S pos + k' <= i)%nat
                             /\ Py.startswith (skipn (i - S pos) s) marker
                                = true)
                   (occurrences_scan s marker (S pos) k') ->
            Forall (fun i => (pos + S k' <= i)%nat
                             /\ Py.startswith (skipn (i - pos) (c :: s)) marker
                                = true)
                   (occurrences_scan s marker (S pos) k')).
  { intros k'. apply Forall_impl. intros i [Hi Hm]. split; [lia|].
    replace (i - pos)%nat with (S (i - S pos)) by lia. exact Hm. }
  destruct k as [|k]; cbn [occurrences_scan].
  - destruct (Py.startswith (c :: s) marker) eqn:E.
    + constructor.
      * split; [lia|]. now rewrite Nat.sub_diag.
      * eapply Forall_impl; [|apply Hshift, IH].
        cbn beta. intros i [Hi Hm]. split; [lia | exact Hm].
    + eapply Forall_impl; [|apply Hshift, IH].
      cbn beta. intros i [Hi Hm]. split; [lia | exact Hm].
  - apply Hshift, IH.
Qed.

(** Two offsets the scan reports are at least [len(marker)] apart: the
    matches do not overlap. *)
Lemma occurrences_scan_apart (marker s : str) (pos k : nat) :
  StronglySorted (fun i j => (i + List.length marker <= j)%nat)
    (occurrences_scan s marker pos k).
Proof.
  revert pos k. induction s as [|c s IH]; intros pos k; [constructor|].
  destruct k as [|k]; cbn [occurrences_scan]; [|apply IH].
  destruct (Py.startswith (c :: s) marker) eqn:E; [|apply IH].
  constructor; [apply IH|].
  eapply Forall_impl; [|apply occurrences_scan_matches].
  cbn beta. intros i [Hi _]. lia.
Qed.

Lemma occurrences_scan_find (s marker : str) (pos : nat) :
  marker <> [] ->
  match Py.find_from s marker pos with
  | None => occurrences_scan s marker pos 0 = []
  | Some i =>
      occurrences_scan s marker pos 0 =
      i :: occurrences_scan (skipn (i - pos + List.length marker) s) marker
             (i + List.length marker) 0
  end.
Proof.
  intros Hm. revert pos. induction s as [|c s IH]; intros pos.
  - simpl. destruct (Py.startswith [] marker) eqn:E; [|reflexivity].
    apply startswith_length in E. destruct marker; [congruence|].
    simpl in E. lia.
  - cbn [Py.find_from occurrences_scan].
    destruct (Py.startswith (c :: s) marker) eqn:E.
    + f_equal. rewrite occurrences_scan_skip.
      replace (pos - pos + List.length marker)%nat
        with (S (List.length marker - 1)).
      * cbn [skipn]. f_equal. destruct marker; [congruence|]. simpl. lia.
      * destruct marker; [congruence|]. simpl. lia.
    + specialize (IH (S pos)).
      destruct (Py.find_from s marker (S pos)) as [i|] eqn:F; [|exact IH].
      apply find_from_bounds in F. rewrite IH.
      replace (i - pos + List.length marker)%nat
        with (S (i - S pos + List.length marker)) by lia.
      reflexivity.
Qed.

Lemma find_nth_loop_spec (content marker : str) (n : Z) :
  marker <> [] ->
  forall (fuel start : nat) (count : Z),
    (start <= List.length content)%nat ->
    (List.length content - start < fuel)%nat ->
    count < n ->
    find_nth_loop fuel content marker n (Z.of_nat start) count =
    Return
      match nth_error (occurrences_scan (skipn start content) marker start 0)
              (Z.to_nat (n - count - 1)) with
      | Some i => Z.of_nat i
      | None => -1
      end.
Proof.
  intros Hm. induction fuel as [|fuel IH]; intros start count Hs Hf Hc;
    [lia|].
  cbn [find_nth_loop]. rewrite find_at by exact Hs.
  pose proof (occurrences_scan_find (skipn start content) marker start Hm)
    as Ho.
  destruct (Py.find_from (skipn start content) marker start) as [i|] eqn:F.
  - apply find_from_bounds in F. rewrite length_skipn in F.
    destruct (Z.eqb_spec (Z.of_nat i) (-1)) as [?|_]; [lia|].
    rewrite Ho. destruct (Z.eqb_spec (count + 1) n) as [He|Hne].
    + replace (n - count - 1) with 0 by lia. reflexivity.
    + assert (Hl : (0 < List.length marker)%nat)
        by (destruct marker; [congruence|simpl; lia]).
      replace (Z.of_nat i + Py.len marker)
        with (Z.of_nat (i + List.length marker)) by (unfold Py.len; lia).
      rewrite IH by lia.
      rewrite skipn_skipn.
      replace (i - start + List.length marker + start)%nat
        with (i + List.length marker)%nat by lia.
      replace (Z.to_nat (n - count - 1))
        with (S (Z.to_nat (n - (count + 1) - 1))) by lia.
      reflexivity.
  - rewrite Ho. simpl. now destruct (Z.to_nat (n - count - 1)).
Qed.

(** C7. For a non-empty marker and [n >= 1], [find_nth_occurrence] returns
    what the left-to-right scan that advances by [len(marker)] after each
    match gives: the 0-based offset of the [n]th match, and [-1] when there
    are fewer than [n] matches.  A fuel above [len(content)] is enough. *)
Theorem find_nth_occurrence_locates (content marker : str) (n : Z)
    (fuel : nat) :
  marker <> [] ->
  1 <= n ->
  (List.length content < fuel)%nat ->
  find_nth_occurrence fuel content marker n =
  Return (locate_spec content marker n).
Proof.
  intros Hm Hn Hf. unfold find_nth_occurrence, locate_spec,
    nonoverlapping_occurrences.
  change 0 with (Z.of_nat 0) at 1.
  rewrite (find_nth_loop_spec content marker n Hm) by lia.
  cbn [skipn]. now replace (n - 0 - 1) with (n - 1) by lia.
Qed.

Lemma find_nth_occurrence_locates_ababab :
  find_nth_occurrence 7 "ababab" "ab" 2 = Return 2
  /\ find_nth_occurrence 7 "ababab" "ab" 4 = Return (-1).
Proof.
  split.
  - rewrite (find_nth_occurrence_locates "ababab" "ab" 2 7);
      [reflexivity | discriminate | lia | simpl; lia].
  - rewrite (find_nth_occurrence_locates "ababab" "ab" 4 7);
      [reflexivity | discriminate | lia | simpl; lia].
Defined.

(** ** Segment Engine *)

Lemma slice_bound_nonneg (L i : Z) :
  0 <= i -> Py.slice_bound L i = Z.to_nat (Z.min i L).
Proof.
  intros H. unfold Py.slice_bound.
  destruct (Z.ltb_spec i 0); [lia | reflexivity].
Qed.

(** A string is the concatenation of [s[:i]], [s[i:k]] and [s[k:]]. *)
Lemma slice_partition (s : str) (i k : Z) :
  0 <= i -> i <= k ->
  Py.slice_to s i ++ Py.slice s i k ++ Py.slice_from s k = s.
Proof.
  intros Hi Hk. unfold Py.slice_to, Py.slice, Py.slice_from.
  rewrite !slice_bound_nonneg by lia.
  set (a := Z.to_nat (Z.min i (Py.len s))).
  set (b := Z.to_nat (Z.min k (Py.len s))).
  assert (Hab : (a <= b)%nat) by (subst a b; lia).
  replace (skipn b s) with (skipn (b - a) (skipn a s)).
  - now rewrite firstn_skipn, firstn_skipn.
  - rewrite skipn_skipn. f_equal. lia.
Qed.

Lemma find_result (s sub : str) (start : Z) :
  Py.find s sub start = -1 \/ 0 <= Py.find s sub start.
Proof.
  unfold Py.find.
  destruct (_ <? _); [now left|].
  destruct (Py.find_from _ _ _); [right; lia | now left].
Qed.

Lemma find_nth_loop_result (fuel : nat) (content sub : str)
    (n start count r : Z) :
  find_nth_loop fuel content sub n start count = Return r ->
  r = -1 \/ 0 <= r.
Proof.
  revert start count. induction fuel as [|fuel IH]; intros start count;
    [discriminate|].
  cbn [find_nth_loop].
  destruct (Z.eqb_spec (Py.find content sub start) (-1)) as [_|_].
  - intros [= <-]. now left.
  - destruct (count + 1 =? n).
    + intros [= <-]. destruct (find_result content sub start); auto.
    + apply IH.
Qed.

(** More fuel does not change a result. *)
Lemma find_nth_loop_fuel_mono (fuel k : nat) (content sub : str)
    (n start count r : Z) :
  find_nth_loop fuel content sub n start count = Return r ->
  find_nth_loop (fuel + k) content sub n start count = Return r.
Proof.
  revert start count. induction fuel as [|fuel IH]; intros start count;
    [discriminate|].
  cbn [find_nth_loop Nat.add].
  destruct (_ =? -1); [auto|]. destruct (_ =? n); [auto|]. apply IH.
Qed.

(** With an empty marker and [n <= 0] the locator loop never ends. *)
Lemma find_nth_loop_empty_marker_diverges (fuel : nat) (content : str)
    (n start count : Z) :
  n <= count -> 0 <= start <= Py.len content ->
  find_nth_loop fuel content [] n start count = OutOfFuel.
Proof.
  revert count. induction fuel as [|fuel IH]; intros count Hc Hs;
    [reflexivity|].
  cbn [find_nth_loop].
  assert (Hf : Py.find content [] start = start).
  { unfold Py.find, Py.len in *.
    destruct (Z.ltb_spec start 0); [lia|].
    destruct (Z.ltb_spec (Z.of_nat (List.length content)) start); [lia|].
    destruct (skipn (Z.to_nat start) content); simpl; lia. }
  rewrite Hf.
  destruct (Z.eqb_spec start (-1)); [lia|].
  destruct (Z.eqb_spec (count + 1) n); [lia|].
  change (Py.len []) with 0. rewrite Z.add_0_r. apply IH; lia.
Qed.

(** C5. When the [start_occurrence]-th start marker and, after it, the
    [end_occurrence]-th end marker are both found, [get_segment_in_html]
    returns the segment and [replace_segment_in_html] called with that
    segment as the replacement text returns the content itself; neither
    writes to the log. *)
Theorem extract_replace_round_trip (fuel : nat) (content s e : str)
    (so eo i j : Z) (log : Log) :
  find_nth_occurrence fuel content s so = Return i ->
  i <> -1 ->
  find_nth_occurrence fuel (Py.slice_from content (i + Py.len s)) e eo
    = Return j ->
  j <> -1 ->
  exists segment,
    get_segment_in_html fuel content s e so eo log = (Return segment, log)
    /\ replace_segment_in_html fuel content s e segment so eo log
       = (Return content, log).
Proof.
  intros Hi Hi1 Hj Hj1.
  exists (Py.slice content i (i + Py.len s + j + Py.len e)).
  assert (Hi0 : 0 <= i).
  { destruct (find_nth_loop_result _ _ _ _ _ _ _ Hi); [contradiction|easy]. }
  assert (Hj0 : 0 <= j).
  { destruct (find_nth_loop_result _ _ _ _ _ _ _ Hj); [contradiction|easy]. }
  unfold get_segment_in_html, replace_segment_in_html, bind, lift, when, ret.
  rewrite Hi.
  destruct (Z.eqb_spec i (-1)) as [?|_]; [contradiction|].
  rewrite Hj.
  destruct (Z.eqb_spec j (-1)) as [?|_]; [contradiction|].
  split; [reflexivity|].
  rewrite slice_partition; [reflexivity | exact Hi0 |].
  pose proof (len_nonneg s). pose proof (len_nonneg e). lia.
Qed.

Lemma extract_replace_round_trip_title :
  exists segment,
    get_segment_in_html 20 "<h><title>Old</title></h>" "<title>" "</title>"
      1 1 [] = (Return segment, [])
    /\ replace_segment_in_html 20 "<h><title>Old</title></h>" "<title>"
         "</title>" segment 1 1 [] = (Return ("<h><title>Old</title></h>" : str), []).
Proof.
  apply (extract_replace_round_trip 20 "<h><title>Old</title></h>"
           "<title>" "</title>" 1 1 3 3 []);
    [reflexivity | discriminate | reflexivity | discriminate].
Defined.

Lemma find_nth_loop_never_raises (fuel : nat) (content sub : str)
    (n start count : Z) (e : exn) :
  find_nth_loop fuel content sub n start count <> Raise e.
Proof.
  revert start count. induction fuel as [|fuel IH]; intros start count;
    [discriminate|].
  cbn [find_nth_loop]. destruct (_ =? -1); [discriminate|].
  destruct (_ =? n); [discriminate | apply IH].
Qed.

(** [replace_segment_in_html] has no path that raises: whatever the two
    searches return, it goes on to the splice. *)
Lemma replace_segment_never_raises (fuel : nat)
    (html s e replacement : str) (so eo : Z) (log : Log) (x : exn) :
  fst (replace_segment_in_html fuel html s e replacement so eo log)
  <> Raise x.
Proof.
  unfold replace_segment_in_html, bind, lift, when, ret, log_message,
    find_nth_occurrence.
  destruct (find_nth_loop fuel html s so 0 0) as [i| |] eqn:Ei;
    [|now apply find_nth_loop_never_raises in Ei | discriminate].
  destruct (i =? -1);
    (destruct (find_nth_loop fuel _ e eo 0 0) as [j| |] eqn:Ej;
     [|now apply find_nth_loop_never_raises in Ej | discriminate]);
    destruct (j =? -1); discriminate.
Qed.

(** C1. [replace_segment_in_html] does not abort when a marker is missing:
    it logs the error and goes on with the index [-1].  With the start
    marker absent the last character of the content is replaced; with both
    markers absent a tail of the content is replaced.  The sibling
    [get_segment_in_html] raises [SystemExit] on the same content. *)
Theorem replace_segment_missing_marker_patches :
  replace_segment_in_html 10 "hello</t>" "<t>" "</t>" "X" 1 1 []
    = (Return ("hello</tX" : str),
       ["Error: " ++ start_not_found_msg "<t>" 1])
  /\ replace_segment_in_html 10 "abc" "<t>" "</t>" "X" 1 1 []
    = (Return ("abX" : str),
       ["Error: " ++ start_not_found_msg "<t>" 1;
        "Error: " ++ end_not_found_msg "<t>" "</t>" 1])
  /\ get_segment_in_html 10 "hello</t>" "<t>" "</t>" 1 1 []
    = (Raise (SystemExit 1), ["ERROR: " ++ start_not_found_msg "<t>" 1]).
Proof. repeat split; reflexivity. Qed.

(** ** Bulk Marker Replacer *)

(** C9. A pair whose replacement rebuilds the content it was applied to
    makes no progress: the loop of that pair, and with it
    [replace_all_markers_in_html], runs out of any amount of fuel. *)
Theorem replace_all_no_progress_diverges (html sm em st_tag en_tag : str)
    (rest : marker_map) (fuel : nat) (log : Log) :
  Py.find html sm 0 <> -1 ->
  Py.find html em (Py.find html sm 0 + Py.len sm) <> -1 ->
  Py.slice_to html (Py.find html sm 0)
    ++ (st_tag
        ++ Py.slice html (Py.find html sm 0 + Py.len sm)
             (Py.find html em (Py.find html sm 0 + Py.len sm))
        ++ en_tag)
    ++ Py.slice_from html
         (Py.find html em (Py.find html sm 0 + Py.len sm) + Py.len em)
    = html ->
  replace_all_markers_in_html fuel html
    (((sm, em), (st_tag, en_tag)) :: rest) log = (OutOfFuel, log).
Proof.
  intros Hs He Hsame.
  assert (Hp : replace_pair_loop fuel html sm em st_tag en_tag log
               = (OutOfFuel, log)).
  { induction fuel as [|fuel IH]; [reflexivity|].
    cbn [replace_pair_loop].
    destruct (Z.eqb_spec (Py.find html sm 0) (-1)) as [?|_]; [contradiction|].
    destruct (Z.eqb_spec (Py.find html em (Py.find html sm 0 + Py.len sm))
                (-1)) as [?|_]; [contradiction|].
    rewrite Hsame. exact IH. }
  cbn [replace_all_markers_in_html]. unfold bind. now rewrite Hp.
Qed.

Lemma replace_all_no_progress_diverges_ab :
  replace_all_markers_in_html 1000 "ab"
    [(("a" : str, "b" : str), ("a" : str, "b" : str))] []
  = (OutOfFuel, []).
Proof.
  apply (replace_all_no_progress_diverges "ab" "a" "b" "a" "b" [] 1000 []);
    [discriminate | discriminate | reflexivity].
Defined.

(** ** Nested List Converter *)

Module ListConverterFacts.

Import ListConverter ListConverterSpec.

(** *** The open-list stack *)

Lemma length_removelast {A : Type} (l : list A) :
  List.length (removelast l) = Nat.pred (List.length l).
Proof.
  rewrite removelast_firstn_len, length_firstn. lia.
Qed.

Lemma pop_and_close_stack (st : state) :
  list_stack (pop_and_close st) = removelast (list_stack st).
Proof.
  unfold pop_and_close. destruct (rev (list_stack st)) eqn:E;
    [|reflexivity].
  apply (f_equal (@rev _)) in E. rewrite rev_involutive in E.
  now rewrite E.
Qed.

Lemma close_to_level_loop_depth (fuel : nat) (level : Z) (st : state) :
  (List.length (list_stack st) <= fuel)%nat -> 0 <= level ->
  Py.len_list (list_stack (close_to_level_loop fuel level st))
  = Z.min (Py.len_list (list_stack st)) level.
Proof.
  revert st. induction fuel as [|fuel IH]; intros st Hf Hl;
    unfold Py.len_list in *.
  - simpl. lia.
  - cbn [close_to_level_loop]. unfold Py.len_list.
    destruct (Z.gtb_spec (Z.of_nat (List.length (list_stack st))) level).
    + rewrite IH.
      * rewrite pop_and_close_stack, length_removelast. lia.
      * rewrite pop_and_close_stack, length_removelast. lia.
      * exact Hl.
    + lia.
Qed.

Lemma close_to_level_depth (level : Z) (st : state) :
  0 <= level ->
  Py.len_list (list_stack (close_to_level level st))
  = Z.min (Py.len_list (list_stack st)) level.
Proof.
  intros H. apply close_to_level_loop_depth; [lia | exact H].
Qed.

Lemma close_all_lists_loop_stack (fuel : nat) (st : state) :
  (List.length (list_stack st) <= fuel)%nat ->
  list_stack (close_all_lists_loop fuel st) = [].
Proof.
  revert st. induction fuel as [|fuel IH]; intros st Hf.
  - simpl. destruct (list_stack st); [reflexivity | simpl in Hf; lia].
  - cbn [close_all_lists_loop].
    destruct (list_stack st) eqn:E; [exact E|].
    apply IH. rewrite pop_and_close_stack, length_removelast, E.
    simpl in *. lia.
Qed.

Lemma close_all_lists_stack (st : state) :
  list_stack (close_all_lists st) = [].
Proof. apply close_all_lists_loop_stack. lia. Qed.

Lemma open_lists_loop_depth (fuel : nat) (desired_depth : Z)
    (t : list_type) (st : state) :
  Py.len_list (list_stack st) <= desired_depth ->
  desired_depth - Py.len_list (list_stack st) <= Z.of_nat fuel ->
  Py.len_list (list_stack (open_lists_loop fuel desired_depth t st))
  = desired_depth.
Proof.
  revert st. induction fuel as [|fuel IH]; intros st Hd Hf.
  - simpl. lia.
  - cbn [open_lists_loop].
    destruct (Z.ltb_spec (Py.len_list (list_stack st)) desired_depth).
    + apply IH; unfold Py.len_list in *; simpl; rewrite length_app;
        simpl; lia.
    + lia.
Qed.

Section Run.

Variables entire_start entire_end p_start p_end : str.

(** The depth a paragraph leaves behind: its own desired depth when it
    is a list item, 0 when it is not. *)
Lemma process_paragraph_depth (st : state) (paragraph : str) :
  Py.len_list (list_stack (process_paragraph p_start p_end st paragraph))
  =
  match current_type_of
          (Py.slice_from paragraph (indent_of paragraph)) with
  | Some _ => indent_of paragraph + 1
  | None => 0
  end.
Proof.
  unfold process_paragraph.
  assert (Hi : 0 <= indent_of paragraph)
    by (unfold indent_of; apply len_nonneg).
  destruct (current_type_of _) as [t|].
  - cbn [list_stack append_fragment].
    destruct (Z.gtb_spec (Py.len_list (list_stack st))
                (indent_of paragraph + 1)).
    + rewrite close_to_level_depth; lia.
    + destruct (Z.ltb_spec (Py.len_list (list_stack st))
                  (indent_of paragraph + 1)).
      * apply open_lists_loop_depth; unfold Py.len_list in *; lia.
      * destruct (rev (list_stack st)) as [|top r]; [lia|].
        destruct (negb (list_type_eqb top t)); [|lia].
        unfold open_list. cbn [list_stack].
        unfold Py.len_list. rewrite length_app.
        pose proof (close_to_level_depth (indent_of paragraph + 1 - 1) st)
          as Hc.
        unfold Py.len_list in Hc. cbn [List.length].
        unfold Py.len_list in *. lia.
  - cbn [list_stack append_fragment].
    now rewrite close_all_lists_stack.
Qed.

Lemma scan_paragraphs_app (st : state) (ps qs : list str) :
  scan_paragraphs p_start p_end st (ps ++ qs)
  = scan_paragraphs p_start p_end
      (scan_paragraphs p_start p_end st ps) qs.
Proof. apply fold_left_app. Qed.

(** *** Nesting of the emitted list tags *)

Lemma open_after_app (opened : list list_type) (fs gs : list fragment) :
  open_after opened (fs ++ gs) =
  match open_after opened fs with
  | Some o => open_after o gs
  | None => None
  end.
Proof.
  revert opened. induction fs as [|f fs IH]; intros opened;
    [reflexivity|].
  destruct f; simpl; try apply IH.
  destruct (rev opened) as [|top r]; [reflexivity|].
  destruct (list_type_eqb t top); [apply IH | reflexivity].
Qed.

Lemma list_type_eqb_refl (t : list_type) : list_type_eqb t t = true.
Proof. now destruct t. Qed.

Lemma tracks_append_text (st : state) (f : fragment) :
  (forall t, f <> ListOpen t) -> (forall t, f <> ListClose t) ->
  stack_tracks_fragments st -> stack_tracks_fragments (append_fragment f st).
Proof.
  unfold stack_tracks_fragments. intros Ho Hc H. cbn [append_fragment
    html_fragments list_stack]. rewrite open_after_app, H.
  destruct f; try reflexivity; [now elim (Ho t) | now elim (Hc t)].
Qed.

Lemma tracks_pop_and_close (st : state) :
  stack_tracks_fragments st -> stack_tracks_fragments (pop_and_close st).
Proof.
  unfold stack_tracks_fragments, pop_and_close. intros H.
  destruct (rev (list_stack st)) as [|tag r] eqn:E; [exact H|].
  cbn [html_fragments list_stack]. rewrite open_after_app, H.
  simpl. now rewrite E, list_type_eqb_refl.
Qed.

Lemma tracks_open_list (t : list_type) (st : state) :
  stack_tracks_fragments st -> stack_tracks_fragments (open_list t st).
Proof.
  unfold stack_tracks_fragments, open_list. intros H.
  cbn [html_fragments list_stack]. now rewrite open_after_app, H.
Qed.

Lemma tracks_close_all_lists_loop (fuel : nat) (st : state) :
  stack_tracks_fragments st ->
  stack_tracks_fragments (close_all_lists_loop fuel st).
Proof.
  revert st. induction fuel as [|fuel IH]; intros st H; [exact H|].
  cbn [close_all_lists_loop]. destruct (list_stack st); [exact H|].
  now apply IH, tracks_pop_and_close.
Qed.

Lemma tracks_close_to_level_loop (fuel : nat) (level : Z) (st : state) :
  stack_tracks_fragments st ->
  stack_tracks_fragments (close_to_level_loop fuel level st).
Proof.
  revert st. induction fuel as [|fuel IH]; intros st H; [exact H|].
  cbn [close_to_level_loop]. destruct (_ >? _); [|exact H].
  now apply IH, tracks_pop_and_close.
Qed.

Lemma tracks_open_lists_loop (fuel : nat) (d : Z) (t : list_type)
    (st : state) :
  stack_tracks_fragments st ->
  stack_tracks_fragments (open_lists_loop fuel d t st).
Proof.
  revert st. induction fuel as [|fuel IH]; intros st H; [exact H|].
  cbn [open_lists_loop]. destruct (_ <? _); [|exact H].
  now apply IH, tracks_open_list.
Qed.

Create HintDb tracks.

#[local] Hint Resolve tracks_close_all_lists_loop tracks_close_to_level_loop
  tracks_open_lists_loop tracks_open_list tracks_pop_and_close : tracks.

(** *** Texts handed to the output *)

Lemma replace_one_char (s new : str) (c : ascii) :
  Py.replace s [c] new
  = flat_map (fun x => if Ascii.eqb x c then new else [x]) s.
Proof.
  unfold Py.replace. induction s as [|x s IH]; [reflexivity|].
  cbn [Py.replace_scan Py.startswith flat_map List.length Nat.sub].
  rewrite andb_true_r, (Ascii.eqb_sym c x).
  destruct (Ascii.eqb x c); simpl; now rewrite IH.
Qed.

Lemma flat_map_flat_map {A B C : Type} (f : A -> list B) (g : B -> list C)
    (l : list A) :
  flat_map g (flat_map f l) = flat_map (fun x => flat_map g (f x)) l.
Proof.
  induction l as [|x l IH]; [reflexivity|].
  simpl. now rewrite flat_map_app, IH.
Qed.

Lemma escape_html_once (s : str) : escape_html s = escape_once s.
Proof.
  unfold escape_html, escape_once.
  change (list_ascii_of_string "&") with ["&"%char].
  change (list_ascii_of_string "<") with ["<"%char].
  change (list_ascii_of_string ">") with [">"%char].
  rewrite !replace_one_char, !flat_map_flat_map.
  apply flat_map_ext. intros c. unfold escape_char.
  destruct (Ascii.eqb_spec c "&"%char) as [->|Ha]; [reflexivity|].
  destruct (Ascii.eqb_spec c "<"%char) as [->|Hl]; [reflexivity|].
  destruct (Ascii.eqb_spec c ">"%char) as [->|Hg]; [reflexivity|].
  simpl.
  destruct (Ascii.eqb_spec c "<"%char); [contradiction|]. simpl.
  destruct (Ascii.eqb_spec c ">"%char); [contradiction|]. reflexivity.
Qed.

Lemma texts_pop_and_close (st : state) :
  emitted_texts (html_fragments (pop_and_close st))
  = emitted_texts (html_fragments st).
Proof.
  unfold pop_and_close, emitted_texts.
  destruct (rev (list_stack st)); [reflexivity|].
  cbn [html_fragments]. rewrite flat_map_app. simpl. apply app_nil_r.
Qed.

Lemma texts_open_list (t : list_type) (st : state) :
  emitted_texts (html_fragments (open_list t st))
  = emitted_texts (html_fragments st).
Proof.
  unfold open_list, emitted_texts. cbn [html_fragments].
  rewrite flat_map_app. simpl. apply app_nil_r.
Qed.

Lemma texts_close_all_lists_loop (fuel : nat) (st : state) :
  emitted_texts (html_fragments (close_all_lists_loop fuel st))
  = emitted_texts (html_fragments st).
Proof.
  revert st. induction fuel as [|fuel IH]; intros st; [reflexivity|].
  cbn [close_all_lists_loop]. destruct (list_stack st); [reflexivity|].
  now rewrite IH, texts_pop_and_close.
Qed.

Lemma texts_close_to_level_loop (fuel : nat) (level : Z) (st : state) :
  emitted_texts (html_fragments (close_to_level_loop fuel level st))
  = emitted_texts (html_fragments st).
Proof.
  revert st. induction fuel as [|fuel IH]; intros st; [reflexivity|].
  cbn [close_to_level_loop]. destruct (_ >? _); [|reflexivity].
  now rewrite IH, texts_pop_and_close.
Qed.

Lemma texts_open_lists_loop (fuel : nat) (d : Z) (t : list_type)
    (st : state) :
  emitted_texts (html_fragments (open_lists_loop fuel d t st))
  = emitted_texts (html_fragments st).
Proof.
  revert st. induction fuel as [|fuel IH]; intros st; [reflexivity|].
  cbn [open_lists_loop]. destruct (_ <? _); [|reflexivity].
  now rewrite IH, texts_open_list.
Qed.

Lemma texts_append_fragment (f : fragment) (st : state) :
  emitted_texts (html_fragments (append_fragment f st))
  = emitted_texts (html_fragments st) ++ text_of f.
Proof.
  unfold append_fragment, emitted_texts. cbn [html_fragments].
  rewrite flat_map_app. simpl. now rewrite app_nil_r.
Qed.


(** *** One paragraph, then the whole run *)

Lemma tracks_process_paragraph (st : state) (paragraph : str) :
  stack_tracks_fragments st ->
  stack_tracks_fragments (process_paragraph p_start p_end st paragraph).
Proof.
  intros H. unfold process_paragraph.
  destruct (current_type_of _) as [t|].
  - apply tracks_append_text; [discriminate | discriminate |].
    destruct (_ >? _); [unfold close_to_level; auto with tracks|].
    destruct (_ <? _); [unfold open_lists; auto with tracks|].
    destruct (rev (list_stack st)); [exact H|].
    destruct (negb _); [|exact H].
    unfold close_to_level; auto with tracks.
  - apply tracks_append_text; [discriminate | discriminate |].
    unfold close_all_lists; auto with tracks.
Qed.

Lemma texts_process_paragraph (st : state) (paragraph : str) :
  emitted_texts (html_fragments (process_paragraph p_start p_end st paragraph))
  = emitted_texts (html_fragments st) ++ [escape_once (unit_text paragraph)].
Proof.
  unfold process_paragraph, unit_text.
  destruct (current_type_of _) as [t|].
  - rewrite texts_append_fragment, escape_html_once. cbn [text_of].
    f_equal.
    destruct (_ >? _);
      [unfold close_to_level; apply texts_close_to_level_loop|].
    destruct (_ <? _); [unfold open_lists; apply texts_open_lists_loop|].
    destruct (rev (list_stack st)); [reflexivity|].
    destruct (negb _); [|reflexivity].
    rewrite texts_open_list. unfold close_to_level.
    apply texts_close_to_level_loop.
  - rewrite texts_append_fragment, escape_html_once. cbn [text_of].
    f_equal. unfold close_all_lists. apply texts_close_all_lists_loop.
Qed.

Lemma tracks_scan_paragraphs (paragraphs : list str) (st : state) :
  stack_tracks_fragments st ->
  stack_tracks_fragments (scan_paragraphs p_start p_end st paragraphs).
Proof.
  revert st. induction paragraphs as [|p ps IH]; intros st H; [exact H|].
  apply IH, tracks_process_paragraph, H.
Qed.

Lemma texts_scan_paragraphs (paragraphs : list str) (st : state) :
  emitted_texts (html_fragments (scan_paragraphs p_start p_end st paragraphs))
  = emitted_texts (html_fragments st)
      ++ map (fun p => escape_once (unit_text p)) paragraphs.
Proof.
  revert st. induction paragraphs as [|p ps IH]; intros st.
  - simpl. now rewrite app_nil_r.
  - cbn [scan_paragraphs fold_left map].
    change (fold_left (process_paragraph p_start p_end) ps ?x)
      with (scan_paragraphs p_start p_end x ps).
    now rewrite IH, texts_process_paragraph, <- app_assoc.
Qed.

Lemma tracks_initial_state : stack_tracks_fragments (initial_state entire_start).
Proof.
  unfold stack_tracks_fragments, initial_state.
  now destruct entire_start.
Qed.

Lemma max_indent_last (ps : list str) (p : str) :
  indent_of p <= max_indent (ps ++ [p]).
Proof. induction ps as [|q ps IH]; simpl; lia. Qed.

Lemma scan_paragraphs_depth (paragraphs : list str) :
  0 <= Py.len_list (list_stack (scan_paragraphs p_start p_end
                                  (initial_state entire_start) paragraphs))
    <= max_indent paragraphs + 1.
Proof.
  split; [unfold Py.len_list; lia|].
  induction paragraphs as [|p0 ps0 _] using rev_ind.
  - unfold initial_state, Py.len_list. simpl. lia.
  - rewrite scan_paragraphs_app. cbn [scan_paragraphs fold_left].
    rewrite process_paragraph_depth.
    pose proof (max_indent_last ps0 p0) as Hm.
    assert (0 <= indent_of p0) by (unfold indent_of; apply len_nonneg).
    destruct (current_type_of _); lia.
Qed.

End Run.

(** C2. The paragraph [1. B] does not match the number pattern of the
    code, which asks for a backslash after the [.] or [)]: it is converted
    as a plain paragraph, whereas a paragraph that does hold the backslash
    is a numbered item. *)
Theorem numbered_item_needs_backslash :
  current_type_of "1. B" = None
  /\ current_type_of "1.\B" = Some ol
  /\ html_fragments
       (convert_paragraphs [] [] "<p>" "</p>"
          [bullet_marker ++ "A"; ("1. B" : str)])
     = [ListOpen ul; ListItem "A"; ListClose ul; Paragraph "<p>" "1. B" "</p>"]
  /\ docx_to_html_with_docx2python [] [] "<p>" "</p>"
       [[[[bullet_marker ++ "A"; ("1. B" : str)]]]]
     = "<ul>" ++ [Py.LF] ++ "<li>A</li>" ++ [Py.LF] ++ "</ul>" ++ [Py.LF]
         ++ "<p>1. B</p>".
Proof. repeat split; reflexivity. Qed.

(** C4 (as amended). In the Nested List Converter every paragraph hands
    one text to the output, in order, and that text is the unit of text of
    the paragraph with each [&], [<] and [>] escaped once: [&] becomes
    [&amp;], [<] becomes [&lt;], [>] becomes [&gt;], and the characters of
    these replacements are not escaped again. *)
Theorem list_converter_escapes_once (entire_start entire_end p_start p_end : str)
    (paragraphs : list str) :
  emitted_texts
    (html_fragments
       (convert_paragraphs entire_start entire_end p_start p_end paragraphs))
  = map (fun p => flat_map escape_char (unit_text p)) paragraphs.
Proof.
  unfold convert_paragraphs.
  assert (H : emitted_texts
                (html_fragments
                   (close_all_lists
                      (scan_paragraphs p_start p_end
                         (initial_state entire_start) paragraphs)))
              = map (fun p => escape_once (unit_text p)) paragraphs).
  { unfold close_all_lists.
    rewrite texts_close_all_lists_loop, texts_scan_paragraphs.
    unfold initial_state. now destruct entire_start. }
  destruct entire_end; [exact H|].
  rewrite texts_append_fragment, H. apply app_nil_r.
Qed.

(** C8 (as amended). After any sequence of paragraphs the depth of the
    open-list stack is between 0 and one more than the largest indentation
    level seen; at the end of a run the stack is empty and the list tags of
    the output are well nested, every opening tag closed by a tag of its
    type.  The statement holds for every sequence, hence after every prefix
    of a run. *)
Theorem list_stack_discipline (entire_start entire_end p_start p_end : str)
    (paragraphs : list str) :
  0 <= Py.len_list
         (list_stack (scan_paragraphs p_start p_end
                        (initial_state entire_start) paragraphs))
    <= max_indent paragraphs + 1
  /\ list_stack
       (convert_paragraphs entire_start entire_end p_start p_end paragraphs)
     = []
  /\ well_nested
       (html_fragments
          (convert_paragraphs entire_start entire_end p_start p_end
             paragraphs)).
Proof.
  split; [apply scan_paragraphs_depth|].
  assert (Hs : list_stack
                 (close_all_lists
                    (scan_paragraphs p_start p_end
                       (initial_state entire_start) paragraphs)) = [])
    by apply close_all_lists_stack.
  assert (Ht : stack_tracks_fragments
                 (close_all_lists
                    (scan_paragraphs p_start p_end
                       (initial_state entire_start) paragraphs))).
  { unfold close_all_lists. apply tracks_close_all_lists_loop,
      tracks_scan_paragraphs, tracks_initial_state. }
  unfold convert_paragraphs, well_nested.
  destruct entire_end as [|c e].
  - split; [exact Hs|]. unfold stack_tracks_fragments in Ht.
    now rewrite Ht, Hs.
  - split; [exact Hs|].
    assert (Hw : stack_tracks_fragments
                   (append_fragment (Wrapper (c :: e))
                      (close_all_lists
                         (scan_paragraphs p_start p_end
                            (initial_state entire_start) paragraphs))))
      by (apply tracks_append_text; [discriminate | discriminate | exact Ht]).
    unfold stack_tracks_fragments in Hw. rewrite Hw. cbn [list_stack
      append_fragment]. now rewrite Hs.
Qed.

(** A single bullet with no indentation opens a list: the depth is 1, above
    the largest indentation level seen, which is 0. *)
Lemma depth_exceeds_max_indent :
  max_indent [bullet_marker ++ "A"]
  < Py.len_list
      (list_stack (scan_paragraphs "<p>" "</p>" (initial_state [])
                     [bullet_marker ++ "A"])).
Proof. reflexivity. Qed.

(** A jump from depth 0 to depth 3 opens three lists; all are closed. *)
Example indentation_jump :
  html_fragments
    (convert_paragraphs [] [] "<p>" "</p>"
       [[Py.TAB; Py.TAB] ++ bullet_marker ++ "deep"])
  = [ListOpen ul; ListOpen ul; ListOpen ul; ListItem "deep";
     ListClose ul; ListClose ul; ListClose ul].
Proof. reflexivity. Qed.

End ListConverterFacts.

(** ** Markdown Converter *)

Module MarkdownFacts.

Import Markdown MarkdownSpec.


(** *** The flags *)

Lemma in_paragraph_close_paragraph (st : state) :
  in_paragraph (close_paragraph st) = false.
Proof.
  unfold close_paragraph. destruct (in_paragraph st) eqn:E;
    [reflexivity | exact E].
Qed.

Lemma in_paragraph_close_list (st : state) :
  in_paragraph (close_list st) = in_paragraph st.
Proof.
  unfold close_list. destruct (in_list st), (in_ordered_list st);
    cbn; try reflexivity.
  - destruct (in_ordered_list st); reflexivity.
  - destruct (in_ordered_list st); reflexivity.
Qed.

Lemma paragraph_closed_just_opened (st : state) :
  in_paragraph st = false -> paragraph_just_opened st.
Proof. intros H1 H2. congruence. Qed.

Lemma in_list_close_paragraph (st : state) :
  in_list (close_paragraph st) = in_list st.
Proof. unfold close_paragraph. now destruct (in_paragraph st). Qed.

Lemma in_ordered_list_close_paragraph (st : state) :
  in_ordered_list (close_paragraph st) = in_ordered_list st.
Proof. unfold close_paragraph. now destruct (in_paragraph st). Qed.

Lemma lists_closed_process_subline (sublines : list str) (st : state)
    (subline : str) :
  lists_closed st -> lists_closed (process_subline sublines st subline).
Proof.
  intros (Hl & Ho & Hp). unfold process_subline.
  destruct (Py.strip subline) as [|c r]; [now repeat split|].
  destruct (list_eq_dec _ _ _).
  - repeat split.
    + now rewrite in_list_close_paragraph.
    + now rewrite in_ordered_list_close_paragraph.
    + rewrite in_paragraph_close_paragraph. discriminate.
  - unfold lists_closed.
    cbn [set_in_paragraph append_line in_list in_ordered_list in_paragraph
         html_lines]. repeat split.
    + now rewrite in_list_close_paragraph.
    + now rewrite in_ordered_list_close_paragraph.
    + intros _. eexists. reflexivity.
Qed.

Lemma lists_closed_fold (sublines todo : list str) (st : state) :
  lists_closed st ->
  lists_closed (fold_left (process_subline sublines) todo st).
Proof.
  revert st. induction todo as [|s todo IH]; intros st H; [exact H|].
  apply IH, lists_closed_process_subline, H.
Qed.

Lemma process_line_just_opened (st st' : state) (line : str) :
  paragraph_just_opened st ->
  process_line st line = Return st' ->
  paragraph_just_opened st'.
Proof.
  intros Hinv. unfold process_line.
  destruct (Py.startswith (Py.strip line) "#").
  { assert (Hc : in_paragraph (close_list (close_paragraph st)) = false)
      by now rewrite in_paragraph_close_list, in_paragraph_close_paragraph.
    destruct (heading_match _) as [[level g]|];
      [destruct (_ && _)|]; intros [= <-];
      apply paragraph_closed_just_opened; exact Hc. }
  destruct (Py.startswith (Py.strip line) "- ").
  { intros [= <-]. apply paragraph_closed_just_opened.
    pose proof (in_paragraph_close_paragraph st) as Hc.
    cbn [in_paragraph append_line].
    destruct (negb (in_list (close_paragraph st))); exact Hc. }
  destruct (numbered_match (Py.strip line)).
  { destruct (nth_error _ 1); [|discriminate].
    intros [= <-]. apply paragraph_closed_just_opened.
    cbn [in_paragraph append_line].
    match goal with
    | |- in_paragraph (if ?b then _ else _) = false => destruct b
    end; cbn [in_paragraph set_in_ordered_list append_line];
      apply in_paragraph_close_paragraph. }
  intros [= <-].
  assert (H : lists_closed
    (fold_left (process_subline (Py.split_char (Py.strip line) Py.LF))
       (Py.split_char (Py.strip line) Py.LF)
       (let st0 := if in_list st
                   then set_in_list false (append_line "</ul>" st) else st in
        let st1 := if in_ordered_list st0
                   then set_in_ordered_list false (append_line "</ol>" st0)
                   else st0 in
        if negb (in_paragraph st1)
        then set_in_paragraph true (append_line "<p>" st1) else st1))).
  { apply lists_closed_fold.
    destruct st as [hl il iol ip]. unfold paragraph_just_opened in Hinv.
    cbn in Hinv.
    destruct ip.
    - destruct (Hinv eq_refl) as (-> & -> & pre & ->). cbn.
      repeat split. intros _. now exists pre.
    - destruct il, iol; cbn; repeat split; intros _; eexists; reflexivity. }
  destruct H as (Hl & Ho & Hp). intros Hin. auto.
Qed.

Lemma scan_lines_just_opened (lines : list str) (st st' : state) :
  paragraph_just_opened st ->
  scan_lines st lines = Return st' ->
  paragraph_just_opened st'.
Proof.
  revert st. induction lines as [|l ls IH]; intros st Hinv; cbn [scan_lines].
  - now intros [= <-].
  - destruct (process_line st l) as [st1| |] eqn:E; try discriminate.
    apply IH. eapply process_line_just_opened; eauto.
Qed.

(** *** Lines on which the scan stops *)

Lemma process_line_returns (st : state) (line : str) :
  raises_index_error line = false ->
  exists st', process_line st line = Return st'.
Proof.
  unfold raises_index_error, process_line. intros H.
  destruct (Py.startswith (Py.strip line) "#").
  { clear H. destruct (heading_match _) as [[level g]|];
      [destruct (_ && _)|]; eexists; reflexivity. }
  destruct (Py.startswith (Py.strip line) "- ");
    [eexists; reflexivity|].
  destruct (numbered_match (Py.strip line)); [|eexists; reflexivity].
  unfold Py.split_once. cbn [negb andb] in H. rewrite H.
  cbn [nth_error]. eexists; reflexivity.
Qed.

Lemma process_line_raises (st : state) (line : str) :
  raises_index_error line = true ->
  process_line st line = Raise IndexError.
Proof.
  unfold raises_index_error, process_line. intros H.
  destruct (Py.startswith (Py.strip line) "#"); [discriminate|].
  destruct (Py.startswith (Py.strip line) "- "); [discriminate|].
  destruct (numbered_match (Py.strip line)); [|discriminate].
  unfold Py.split_once. cbn [negb andb] in H. now rewrite H.
Qed.

(** The scan stops with [IndexError] exactly when some line raises it. *)
Lemma scan_lines_outcome (lines : list str) (st : state) :
  if existsb raises_index_error lines
  then scan_lines st lines = Raise IndexError
  else exists st', scan_lines st lines = Return st'.
Proof.
  revert st. induction lines as [|l ls IH]; intros st; cbn [existsb scan_lines].
  - now exists st.
  - destruct (raises_index_error l) eqn:E; cbn [orb].
    + now rewrite process_line_raises.
    + destruct (process_line_returns st l E) as [st1 ->]. apply IH.
Qed.

Example tab_after_number_raises :
  markdown_to_html ("1." ++ [Py.TAB] ++ "item") = Raise IndexError.
Proof. reflexivity. Qed.

(** *** Blank lines *)


Lemma initial_state_just_opened : paragraph_just_opened initial_state.
Proof. now apply paragraph_closed_just_opened. Qed.


(** C3. After the lines [1. a] and [- b] both list flags are set: the
    bullet branch opens the unordered list without closing the ordered
    one, while the numbered branch and the paragraph branch are reached
    only after the unordered list has been closed. *)
Theorem list_flags_not_exclusive :
  scan_lines initial_state (Py.splitlines ("1. a" ++ [Py.LF] ++ "- b"))
  = Return {| html_lines := [ol_open; ("<li>a</li>" : str); ul_open;
                             ("  <li>b</li>" : str)];
              in_list := true;
              in_ordered_list := true;
              in_paragraph := false |}.
Proof. reflexivity. Qed.

(** The Markdown Converter writes a [&] as it is. *)
Lemma markdown_does_not_escape :
  markdown_to_html "a&b"
    = Return ("<p>" ++ [Py.LF] ++ "a&b" ++ [Py.LF] ++ "</p>")
  /\ markdown_to_html "a&b"
     <> Return ("<p>" ++ [Py.LF]
                  ++ flat_map ListConverterSpec.escape_char "a&b"
                  ++ [Py.LF] ++ "</p>").
Proof. split; [reflexivity | discriminate]. Qed.




End MarkdownFacts.

(** * Vocabulary of the further properties *)

Module ListConverterSteps.

Import ListConverter.

(** The stack a list item of type [t] and desired depth [d] leaves
    behind. *)
Definition stack_after_item (stack : list list_type) (t : list_type)
    (d : Z) : list list_type :=
  if Py.len_list stack >? d then firstn (Z.to_nat d) stack
  else if Py.len_list stack <? d
       then stack ++ repeat t (Z.to_nat (d - Py.len_list stack))
  else match rev stack with
       | top :: _ =>
           if list_type_eqb top t then stack else removelast stack ++ [t]
       | [] => stack
       end.

(** The list tags written before the item itself. *)
Definition tags_before_item (stack : list list_type) (t : list_type)
    (d : Z) : list fragment :=
  if Py.len_list stack >? d
  then map ListClose (rev (skipn (Z.to_nat d) stack))
  else if Py.len_list stack <? d
       then repeat (ListOpen t) (Z.to_nat (d - Py.len_list stack))
  else match rev stack with
       | top :: _ =>
           if list_type_eqb top t then [] else [ListClose top; ListOpen t]
       | [] => []
       end.

End ListConverterSteps.

Module TemplateSpec.

Import Template.

(** The entry of a field whose wrappers are its own markers, with the
    default occurrences. *)
Definition wrapped (s e : str) : replacement :=
  {| search_start_marker := Some s;
     search_end_marker := Some e;
     search_start_occurrence := None;
     search_end_occurrence := None;
     replacement_start := Some s;
     replacement_end := Some e |}.

End TemplateSpec.

Module MetaTagsSpec.

Import MetaTags.

Definition tick : ascii := "`"%char.

(** The removal of the fence, one character at a time. *)
Definition drop_fence (s : str) : str := Py.replace_scan s fence [] 0.

End MetaTagsSpec.

Module ExcelSpec.

Import Excel.

(** A value as [read_excel_data] stores it. *)
Definition stored (v : str) : Prop := v <> [] /\ Py.strip v = v.

(** A sheet of texts with two rows and one column. *)
Definition two_rows : dataframe str :=
  {| nrows := 2; ncols := 1;
     iat := fun r _ => match r with O => ("first" : str) | _ => (" last " : str) end |}.

Definition never_na (s : str) : bool := false.

Definition as_text (s : str) : str := s.

End ExcelSpec.

Module MarkdownTextSpec.

Import Markdown.

(** How often the character [c] occurs in [s]. *)
Definition occurrences (c : ascii) (s : str) : nat := count_occ ascii_dec s c.

(** How often it occurs in the lines written so far. *)
Definition written (c : ascii) (st : state) : nat :=
  occurrences c (concat (html_lines st)).

End MarkdownTextSpec.

(** * Further properties *)

(** ** Searching a string *)

Lemma startswith_split (s p : str) :
  Py.startswith s p = true -> s = p ++ skipn (List.length p) s.
Proof.
  revert s. induction p as [|c p IH]; intros [|d s] H; simpl in *;
    try reflexivity; try discriminate.
  apply andb_prop in H. destruct H as [Hc H].
  apply Ascii.eqb_eq in Hc. subst d. f_equal. now apply IH.
Qed.

Lemma startswith_prefix (p r : str) : Py.startswith (p ++ r) p = true.
Proof.
  induction p as [|c p IH]; simpl; [reflexivity|].
  now rewrite Ascii.eqb_refl, IH.
Qed.

(** Whether [p] starts a string depends on its first [len(p)] characters
    only. *)
Lemma startswith_app_long (a b p : str) :
  (List.length p <= List.length a)%nat ->
  Py.startswith (a ++ b) p = Py.startswith a p.
Proof.
  revert a. induction p as [|c p IH]; intros [|d a] H; simpl in *;
    try reflexivity; try lia.
  rewrite IH by lia. reflexivity.
Qed.

Lemma skipn_app_short {A : Type} (d : nat) (a b : list A) :
  (d <= List.length a)%nat -> skipn d (a ++ b) = skipn d a ++ b.
Proof.
  intros H. rewrite skipn_app.
  replace (d - List.length a)%nat with 0%nat by lia. reflexivity.
Qed.

(** [Py.find_from] returns the first position, counted from [pos], at which
    [sub] starts. *)
Lemma find_from_some (s sub : str) (pos i : nat) :
  Py.find_from s sub pos = Some i ->
  exists d, i = (pos + d)%nat /\ (d <= List.length s)%nat
            /\ Py.startswith (skipn d s) sub = true
            /\ forall d', (d' < d)%nat ->
                          Py.startswith (skipn d' s) sub = false.
Proof.
  revert pos. induction s as [|c s IH]; intros pos; cbn [Py.find_from].
  - destruct (Py.startswith [] sub) eqn:E; [|discriminate].
    intros [= <-]. exists 0%nat. repeat split; auto; try lia.
  - destruct (Py.startswith (c :: s) sub) eqn:E.
    + intros [= <-]. exists 0%nat. repeat split; auto; simpl; lia.
    + intros H. apply IH in H. destruct H as (d & -> & Hd & Hm & Hf).
      exists (S d). repeat split; [lia | simpl; lia | exact Hm |].
      intros [|d'] Hlt; [exact E|]. apply Hf. lia.
Qed.

Lemma find_from_none (s sub : str) (pos : nat) :
  Py.find_from s sub pos = None ->
  forall d, (d <= List.length s)%nat ->
            Py.startswith (skipn d s) sub = false.
Proof.
  revert pos. induction s as [|c s IH]; intros pos; cbn [Py.find_from].
  - destruct (Py.startswith [] sub) eqn:E; [discriminate|].
    intros _ [|d] Hd; [exact E | simpl in Hd; lia].
  - destruct (Py.startswith (c :: s) sub) eqn:E; [discriminate|].
    intros H [|d] Hd; [exact E|]. apply (IH _ H). simpl in Hd. lia.
Qed.

Lemma find_from_first (s sub : str) (pos d : nat) :
  (d <= List.length s)%nat ->
  Py.startswith (skipn d s) sub = true ->
  (forall d', (d' < d)%nat -> Py.startswith (skipn d' s) sub = false) ->
  Py.find_from s sub pos = Some (pos + d)%nat.
Proof.
  revert pos d. induction s as [|c s IH]; intros pos d Hd Hm Hf.
  - destruct d; [|simpl in Hd; lia]. cbn [Py.find_from]. simpl in Hm.
    rewrite Hm. f_equal. lia.
  - cbn [Py.find_from]. destruct d as [|d].
    + simpl in Hm. rewrite Hm. f_equal. lia.
    + pose proof (Hf 0%nat ltac:(lia)) as H0. simpl in H0. rewrite H0.
      rewrite (IH (S pos) d); [f_equal; lia | simpl in Hd; lia | exact Hm |].
      intros d' Hlt. apply (Hf (S d')). lia.
Qed.

(** [Py.find] from the start of the string, in terms of positions. *)
Lemma find_first_iff (s sub : str) (d : nat) :
  Py.find s sub 0 = Z.of_nat d <->
  (d <= List.length s)%nat
  /\ Py.startswith (skipn d s) sub = true
  /\ forall d', (d' < d)%nat -> Py.startswith (skipn d' s) sub = false.
Proof.
  change 0 with (Z.of_nat 0). rewrite find_at by lia. cbn [skipn]. split.
  - destruct (Py.find_from s sub 0) as [i|] eqn:E; [|lia].
    intros H. apply Nat2Z.inj in H. subst i.
    apply find_from_some in E. destruct E as (d0 & -> & Hd & Hm & Hf).
    auto.
  - intros (Hd & Hm & Hf). now rewrite (find_from_first s sub 0 d).
Qed.

Lemma find_absent_iff (s sub : str) :
  Py.find s sub 0 = -1 <->
  forall d, (d <= List.length s)%nat ->
            Py.startswith (skipn d s) sub = false.
Proof.
  change 0 with (Z.of_nat 0). rewrite find_at by lia. cbn [skipn]. split.
  - destruct (Py.find_from s sub 0) as [i|] eqn:E; [lia|].
    intros _. exact (find_from_none s sub 0 E).
  - intros H. destruct (Py.find_from s sub 0) as [i|] eqn:E; [|reflexivity].
    apply find_from_some in E. destruct E as (d & _ & Hd & Hm & _).
    rewrite H in Hm by exact Hd. discriminate.
Qed.

(** A search from [start] is a search in the rest of the string. *)
Lemma find_from_offset (s sub : str) (pos : nat) :
  Py.find_from s sub pos =
  match Py.find_from s sub 0 with
  | Some i => Some (pos + i)%nat
  | None => None
  end.
Proof.
  destruct (Py.find_from s sub 0) as [i|] eqn:E.
  - apply find_from_some in E. destruct E as (d & -> & Hd & Hm & Hf).
    now apply find_from_first.
  - destruct (Py.find_from s sub pos) as [j|] eqn:F; [|reflexivity].
    apply find_from_some in F. destruct F as (d & _ & Hd & Hm & _).
    now rewrite (find_from_none s sub 0 E d Hd) in Hm.
Qed.

Lemma find_offset (s sub : str) (start : nat) :
  (start <= List.length s)%nat ->
  Py.find s sub (Z.of_nat start) =
  (let r := Py.find (skipn start s) sub 0 in
   if r =? -1 then -1 else Z.of_nat start + r).
Proof.
  intros H. rewrite find_at by exact H.
  change 0 with (Z.of_nat 0). rewrite find_at by lia. cbn [skipn].
  rewrite find_from_offset.
  destruct (Py.find_from (skipn start s) sub 0) as [i|]; cbn zeta.
  - destruct (Z.eqb_spec (Z.of_nat i) (-1)); lia.
  - reflexivity.
Qed.

(** Text appended after the first occurrence does not move it. *)
Lemma find_app (a b sub : str) (d : nat) :
  Py.find a sub 0 = Z.of_nat d ->
  Py.find (a ++ b) sub 0 = Z.of_nat d.
Proof.
  rewrite !find_first_iff. intros (Hd & Hm & Hf).
  pose proof (startswith_length _ _ Hm) as Hl. rewrite length_skipn in Hl.
  repeat split.
  - rewrite length_app. lia.
  - rewrite skipn_app_short by exact Hd.
    rewrite startswith_app_long; [exact Hm | rewrite length_skipn; lia].
  - intros d' Hlt. rewrite skipn_app_short by lia.
    rewrite startswith_app_long; [now apply Hf | rewrite length_skipn; lia].
Qed.

(** The first occurrence in a string is the first occurrence in the part
    of the string that ends with it. *)
Lemma find_trim (s sub : str) (d : nat) :
  Py.find s sub 0 = Z.of_nat d ->
  Py.find (firstn d s ++ sub) sub 0 = Z.of_nat d.
Proof.
  rewrite !find_first_iff. intros (Hd & Hm & Hf).
  pose proof (startswith_split _ _ Hm) as Hs.
  assert (Hc : s = (firstn d s ++ sub) ++ skipn (List.length sub) (skipn d s)).
  { rewrite <- app_assoc, <- Hs. symmetry. apply firstn_skipn. }
  assert (Hlen : List.length (firstn d s) = d)
    by (rewrite length_firstn; lia).
  repeat split.
  - rewrite length_app. lia.
  - rewrite skipn_app_short by lia.
    rewrite <- Hlen at 1. rewrite skipn_all. cbn [app].
    rewrite <- (app_nil_r sub) at 1. apply startswith_prefix.
  - intros d' Hlt. specialize (Hf d' Hlt). rewrite Hc in Hf.
    rewrite skipn_app_short in Hf by (rewrite length_app; lia).
    rewrite startswith_app_long in Hf; [exact Hf|].
    rewrite length_skipn, length_app. lia.
Qed.

Lemma len_app_Z (a b : str) : Py.len (a ++ b) = Py.len a + Py.len b.
Proof. unfold Py.len. rewrite length_app. lia. Qed.

(** A result of [Py.find] other than [-1] is a position where [sub]
    starts. *)
Lemma find_sound (s sub : str) (start : Z) :
  Py.find s sub start <> -1 ->
  exists d, Py.find s sub start = Z.of_nat d
            /\ (d + List.length sub <= List.length s)%nat
            /\ Py.startswith (skipn d s) sub = true.
Proof.
  unfold Py.find.
  set (st := if start <? 0 then Z.max (start + Py.len s) 0 else start).
  assert (Hst : 0 <= st) by (subst st; destruct (start <? 0) eqn:N; lia).
  destruct (Z.ltb_spec (Py.len s) st) as [|Hle]; [congruence|].
  unfold Py.len in Hle.
  destruct (Py.find_from _ sub _) as [i|] eqn:E; [|congruence].
  intros _. exists i. split; [reflexivity|].
  apply find_from_some in E. destruct E as (d & -> & Hd & Hm & _).
  rewrite skipn_skipn in Hm.
  replace (Z.to_nat st + d)%nat with (d + Z.to_nat st)%nat by lia.
  split; [|exact Hm].
  apply startswith_length in Hm. rewrite length_skipn in Hm.
  rewrite length_skipn in Hd. lia.
Qed.

Lemma find_nth_loop_is_find (fuel : nat) (content sub : str)
    (n start count r : Z) :
  find_nth_loop fuel content sub n start count = Return r ->
  r <> -1 ->
  exists start', Py.find content sub start' = r.
Proof.
  revert start count. induction fuel as [|fuel IH]; intros start count;
    [discriminate|].
  cbn [find_nth_loop].
  destruct (Z.eqb_spec (Py.find content sub start) (-1)).
  - intros [= <-]. congruence.
  - destruct (count + 1 =? n).
    + intros [= <-] _. now exists start.
    + apply IH.
Qed.

Lemma slice_middle (a m b : str) :
  Py.slice (a ++ m ++ b) (Py.len a) (Py.len a + Py.len m) = m.
Proof.
  unfold Py.slice, Py.slice_bound, Py.len.
  rewrite !length_app.
  destruct (Z.ltb_spec (Z.of_nat (List.length a)) 0); [lia|].
  destruct (Z.ltb_spec (Z.of_nat (List.length a)
                        + Z.of_nat (List.length m)) 0); [lia|].
  replace (Z.to_nat (Z.min (Z.of_nat (List.length a)) _))
    with (List.length a) by lia.
  replace (Z.to_nat (Z.min (Z.of_nat (List.length a)
                            + Z.of_nat (List.length m)) _))
    with (List.length a + List.length m)%nat by lia.
  rewrite skipn_app, skipn_all, Nat.sub_diag. cbn [app skipn].
  replace (List.length a + List.length m - List.length a)%nat
    with (List.length m) by lia.
  rewrite firstn_app, firstn_all, Nat.sub_diag. cbn [firstn].
  apply app_nil_r.
Qed.

Lemma slice_to_prefix (a b : str) : Py.slice_to (a ++ b) (Py.len a) = a.
Proof.
  unfold Py.slice_to, Py.slice_bound, Py.len. rewrite length_app.
  destruct (Z.ltb_spec (Z.of_nat (List.length a)) 0); [lia|].
  replace (Z.to_nat (Z.min (Z.of_nat (List.length a)) _))
    with (List.length a) by lia.
  rewrite firstn_app, firstn_all, Nat.sub_diag. cbn [firstn].
  apply app_nil_r.
Qed.

Lemma slice_from_suffix (a b : str) : Py.slice_from (a ++ b) (Py.len a) = b.
Proof.
  unfold Py.slice_from, Py.slice_bound, Py.len. rewrite length_app.
  destruct (Z.ltb_spec (Z.of_nat (List.length a)) 0); [lia|].
  replace (Z.to_nat (Z.min (Z.of_nat (List.length a)) _))
    with (List.length a) by lia.
  now rewrite skipn_app, skipn_all, Nat.sub_diag.
Qed.

(** A string split at a position where [sub] starts. *)
Lemma split_at_occurrence (s sub : str) (d : nat) :
  (d + List.length sub <= List.length s)%nat ->
  Py.startswith (skipn d s) sub = true ->
  exists before after,
    s = before ++ sub ++ after /\ List.length before = d.
Proof.
  intros Hd Hm. exists (firstn d s), (skipn (List.length sub) (skipn d s)).
  split.
  - rewrite <- (startswith_split _ _ Hm). symmetry. apply firstn_skipn.
  - rewrite length_firstn. lia.
Qed.

(** ** Marker Locator *)

(** X1. An offset returned by [find_nth_occurrence], other than [-1], is a
    place where the marker stands in the content. *)
Theorem find_nth_occurrence_sound (fuel : nat) (content marker : str)
    (n r : Z) :
  find_nth_occurrence fuel content marker n = Return r ->
  r <> -1 ->
  0 <= r /\ r + Py.len marker <= Py.len content
  /\ Py.slice content r (r + Py.len marker) = marker.
Proof.
  intros H Hr. unfold find_nth_occurrence in H.
  destruct (find_nth_loop_is_find _ _ _ _ _ _ _ H Hr) as [start' Hf].
  destruct (find_sound content marker start') as (d & Hd & Hl & Hm);
    [congruence|].
  rewrite Hf in Hd. clear Hf H. subst r.
  destruct (split_at_occurrence content marker d Hl Hm)
    as (before & after & -> & Hb).
  split; [lia|]. split.
  - unfold Py.len. rewrite !length_app. lia.
  - rewrite <- Hb. apply slice_middle.
Qed.

Lemma find_nth_occurrence_sound_ababab :
  0 <= 2 /\ 2 + Py.len "ab" <= Py.len "ababab"
  /\ Py.slice "ababab" 2 (2 + Py.len "ab") = "ab".
Proof.
  apply (find_nth_occurrence_sound 7 "ababab" "ab" 2 2);
    [reflexivity | discriminate].
Defined.

Lemma find_nth_loop_nonpositive (content marker : str) (n : Z) :
  marker <> [] ->
  forall (fuel start : nat) (count : Z),
    (start <= List.length content)%nat ->
    (List.length content - start < fuel)%nat ->
    n <= count ->
    find_nth_loop fuel content marker n (Z.of_nat start) count = Return (-1).
Proof.
  intros Hm. induction fuel as [|fuel IH]; intros start count Hs Hf Hc;
    [lia|].
  cbn [find_nth_loop]. rewrite find_at by exact Hs.
  destruct (Py.find_from (skipn start content) marker start) as [i|] eqn:F;
    [|reflexivity].
  apply find_from_bounds in F. rewrite length_skipn in F.
  destruct (Z.eqb_spec (Z.of_nat i) (-1)); [lia|].
  destruct (Z.eqb_spec (count + 1) n); [lia|].
  assert (0 < List.length marker)%nat
    by (destruct marker; [congruence | simpl; lia]).
  replace (Z.of_nat i + Py.len marker)
    with (Z.of_nat (i + List.length marker)) by (unfold Py.len; lia).
  apply IH; lia.
Qed.

(** X2. With a non-empty marker, an occurrence index of 0 or below is never
    found: the result is [-1]. *)
Theorem find_nth_occurrence_nonpositive (fuel : nat) (content marker : str)
    (n : Z) :
  marker <> [] ->
  n <= 0 ->
  (List.length content < fuel)%nat ->
  find_nth_occurrence fuel content marker n = Return (-1).
Proof.
  intros Hm Hn Hf. unfold find_nth_occurrence.
  change 0 with (Z.of_nat 0) at 1.
  apply find_nth_loop_nonpositive; try assumption; lia.
Qed.

Lemma find_nth_occurrence_nonpositive_ababab :
  find_nth_occurrence 7 "ababab" "ab" 0 = Return (-1).
Proof.
  apply find_nth_occurrence_nonpositive; [discriminate | lia | simpl; lia].
Defined.

(** X3. With an empty marker and an occurrence index of 0 or below the
    loop of [find_nth_occurrence] never ends: every search succeeds at the
    same place and the counter moves away from the index. *)
Theorem find_nth_occurrence_empty_marker_diverges (fuel : nat)
    (content : str) (n : Z) :
  n <= 0 ->
  find_nth_occurrence fuel content [] n = OutOfFuel.
Proof.
  intros Hn. unfold find_nth_occurrence.
  apply find_nth_loop_empty_marker_diverges; [exact Hn|].
  pose proof (len_nonneg content). lia.
Qed.

Lemma find_nth_occurrence_empty_marker_diverges_abc :
  find_nth_occurrence 1000 "abc" [] 0 = OutOfFuel.
Proof. apply find_nth_occurrence_empty_marker_diverges. lia. Defined.

(** ** Segment Engine *)

Lemma find_nth_occurrence_split (fuel : nat) (content marker : str)
    (n r : Z) :
  find_nth_occurrence fuel content marker n = Return r ->
  r <> -1 ->
  exists before after,
    content = before ++ marker ++ after /\ Py.len before = r.
Proof.
  intros H Hr. unfold find_nth_occurrence in H.
  destruct (find_nth_loop_is_find _ _ _ _ _ _ _ H Hr) as [start' Hf].
  destruct (find_sound content marker start') as (d & Hd & Hl & Hm);
    [congruence|].
  destruct (split_at_occurrence content marker d Hl Hm)
    as (before & after & Hc & Hb).
  exists before, after. split; [exact Hc|]. unfold Py.len. congruence.
Qed.

Lemma segment_parts_full (fuel : nat) (content s e : str) (so eo i j : Z)
    (log : Log) :
  find_nth_occurrence fuel content s so = Return i ->
  i <> -1 ->
  find_nth_occurrence fuel (Py.slice_from content (i + Py.len s)) e eo
    = Return j ->
  j <> -1 ->
  exists before mid after,
    content = before ++ s ++ mid ++ e ++ after
    /\ Py.len before = i /\ Py.len mid = j
    /\ get_segment_in_html fuel content s e so eo log
       = (Return (s ++ mid ++ e), log)
    /\ forall replacement_text,
         replace_segment_in_html fuel content s e replacement_text so eo log
         = (Return (before ++ replacement_text ++ after), log).
Proof.
  intros Hi Hi1 Hj Hj1.
  destruct (find_nth_occurrence_split _ _ _ _ _ Hi Hi1)
    as (before & rest & Hc & Hb).
  assert (Hrest : Py.slice_from content (i + Py.len s) = rest).
  { rewrite Hc, <- Hb, app_assoc, <- len_app_Z. apply slice_from_suffix. }
  rewrite Hrest in Hj.
  destruct (find_nth_occurrence_split _ _ _ _ _ Hj Hj1)
    as (mid & after & Hr & Hm).
  exists before, mid, after.
  assert (Hc' : content = before ++ s ++ mid ++ e ++ after)
    by now rewrite Hc, Hr.
  split; [exact Hc'|]. split; [exact Hb|]. split; [exact Hm|].
  unfold get_segment_in_html, replace_segment_in_html, bind, lift, when, ret.
  rewrite Hi. destruct (Z.eqb_spec i (-1)) as [?|_]; [contradiction|].
  rewrite Hrest, Hj. destruct (Z.eqb_spec j (-1)) as [?|_]; [contradiction|].
  assert (He : i + Py.len s + j + Py.len e
               = Py.len before + Py.len (s ++ mid ++ e)).
  { rewrite !len_app_Z. lia. }
  split.
  - rewrite He, <- Hb, Hc'.
    replace (before ++ s ++ mid ++ e ++ after)
      with (before ++ (s ++ mid ++ e) ++ after)
      by now rewrite <- !app_assoc.
    now rewrite slice_middle.
  - intros replacement_text. rewrite He, <- Hb, Hc'.
    rewrite slice_to_prefix.
    replace (before ++ s ++ mid ++ e ++ after)
      with ((before ++ s ++ mid ++ e) ++ after)
      by now rewrite <- !app_assoc.
    replace (Py.len before + Py.len (s ++ mid ++ e))
      with (Py.len (before ++ s ++ mid ++ e))
      by (rewrite !len_app_Z; lia).
    now rewrite slice_from_suffix.
Qed.

(** X4. When both markers are found the content is
    [before ++ start ++ mid ++ end ++ after], with [before] as long as the
    start offset: [get_segment_in_html] returns [start ++ mid ++ end], and
    [replace_segment_in_html] returns [before ++ replacement ++ after] for
    every replacement text.  Nothing outside the segment changes. *)
Theorem segment_splice (fuel : nat) (content s e : str) (so eo i j : Z)
    (log : Log) :
  find_nth_occurrence fuel content s so = Return i ->
  i <> -1 ->
  find_nth_occurrence fuel (Py.slice_from content (i + Py.len s)) e eo
    = Return j ->
  j <> -1 ->
  exists before mid after,
    content = before ++ s ++ mid ++ e ++ after
    /\ Py.len before = i /\ Py.len mid = j
    /\ get_segment_in_html fuel content s e so eo log
       = (Return (s ++ mid ++ e), log)
    /\ forall replacement_text,
         replace_segment_in_html fuel content s e replacement_text so eo log
         = (Return (before ++ replacement_text ++ after), log).
Proof.
  intros Hi Hi1 Hj Hj1.
  destruct (segment_parts_full fuel content s e so eo i j log Hi Hi1 Hj Hj1)
    as (before & mid & after & H).
  exists before, mid, after. exact H.
Qed.

Lemma segment_splice_title :
  exists before mid after,
    ("<h><title>Old</title></h>" : str)
      = before ++ "<title>" ++ mid ++ "</title>" ++ after
    /\ Py.len before = 3 /\ Py.len mid = 3
    /\ get_segment_in_html 20 "<h><title>Old</title></h>" "<title>"
         "</title>" 1 1 [] = (Return ("<title>" ++ mid ++ "</title>"), [])
    /\ forall replacement_text,
         replace_segment_in_html 20 "<h><title>Old</title></h>" "<title>"
           "</title>" replacement_text 1 1 []
         = (Return (before ++ replacement_text ++ after), []).
Proof.
  apply (segment_splice 20 "<h><title>Old</title></h>" "<title>" "</title>"
           1 1 3 3 []);
    [reflexivity | discriminate | reflexivity | discriminate].
Defined.

Lemma find_nth_occurrence_scan (content marker : str) (n : Z) (fuel : nat) :
  marker <> [] -> 1 <= n -> (List.length content < fuel)%nat ->
  find_nth_occurrence fuel content marker n
  = Return
      match nth_error (nonoverlapping_occurrences content marker)
              (Z.to_nat (n - 1)) with
      | Some i => Z.of_nat i
      | None => -1
      end.
Proof.
  intros Hm Hn Hf. unfold find_nth_occurrence, nonoverlapping_occurrences.
  change 0 with (Z.of_nat 0) at 1.
  rewrite (find_nth_loop_spec content marker n Hm) by lia.
  cbn [skipn]. now replace (n - 0 - 1) with (n - 1) by lia.
Qed.

Lemma length_slice_from (s : str) (i : Z) :
  (List.length (Py.slice_from s i) <= List.length s)%nat.
Proof. unfold Py.slice_from. rewrite length_skipn. lia. Qed.

(** X5. [get_segment_in_html] is fail-fast.  When the content holds fewer
    than [start_occurrence] occurrences of the start marker, or the text
    after the start marker that was found holds fewer than
    [end_occurrence] occurrences of the end marker, the call logs one
    [ERROR] line that names the marker and the occurrence and raises
    [SystemExit(1)]; it returns no segment. *)
Theorem get_segment_fails_fast (fuel : nat) (content s e : str) (so eo : Z)
    (log : Log) :
  s <> [] -> e <> [] -> 1 <= so -> 1 <= eo ->
  (List.length content < fuel)%nat ->
  (nth_error (nonoverlapping_occurrences content s) (Z.to_nat (so - 1))
   = None ->
   get_segment_in_html fuel content s e so eo log
   = (Raise (SystemExit 1), log ++ ["ERROR: " ++ start_not_found_msg s so]))
  /\ (forall i,
        nth_error (nonoverlapping_occurrences content s) (Z.to_nat (so - 1))
        = Some i ->
        nth_error
          (nonoverlapping_occurrences
             (Py.slice_from content (Z.of_nat i + Py.len s)) e)
          (Z.to_nat (eo - 1)) = None ->
        get_segment_in_html fuel content s e so eo log
        = (Raise (SystemExit 1),
           log ++ ["ERROR: " ++ end_not_found_msg s e eo])).
Proof.
  intros Hs He Hso Heo Hf.
  unfold get_segment_in_html, bind, lift, ret, log_and_terminate,
    log_message.
  rewrite (find_nth_occurrence_scan content s so fuel Hs Hso Hf).
  split.
  - intros ->. reflexivity.
  - intros i -> Hnone.
    destruct (Z.eqb_spec (Z.of_nat i) (-1)) as [?|_]; [lia|].
    rewrite (find_nth_occurrence_scan _ e eo fuel He Heo)
      by (pose proof (length_slice_from content (Z.of_nat i + Py.len s));
          lia).
    rewrite Hnone. reflexivity.
Qed.

Lemma get_segment_fails_fast_title :
  get_segment_in_html 30 "<h><title>Old</title></h>" "<meta" "/>" 1 1 []
  = (Raise (SystemExit 1), ["ERROR: " ++ start_not_found_msg "<meta" 1])
  /\ get_segment_in_html 30 "<h><title>Old</title></h>" "<title>"
       "</title>" 1 2 []
     = (Raise (SystemExit 1),
        ["ERROR: " ++ end_not_found_msg "<title>" "</title>" 2]).
Proof.
  split.
  - apply (proj1 (get_segment_fails_fast 30 "<h><title>Old</title></h>"
                    "<meta" "/>" 1 1 []
                    ltac:(discriminate) ltac:(discriminate)
                    ltac:(lia) ltac:(lia) ltac:(simpl; lia))).
    reflexivity.
  - apply (proj2 (get_segment_fails_fast 30 "<h><title>Old</title></h>"
                    "<title>" "</title>" 1 2 []
                    ltac:(discriminate) ltac:(discriminate)
                    ltac:(lia) ltac:(lia) ltac:(simpl; lia)) 3%nat);
      reflexivity.
Defined.

Lemma find_first_occurrence (fuel : nat) (content marker : str) :
  find_nth_occurrence (S fuel) content marker 1
  = Return (Py.find content marker 0).
Proof.
  unfold find_nth_occurrence. cbn [find_nth_loop].
  destruct (Z.eqb_spec (Py.find content marker 0) (-1)) as [->|_];
    reflexivity.
Qed.

Lemma replace_then_extract_parts (fuel : nat) (content s e value : str)
    (log : Log) :
  Py.find content s 0 <> -1 ->
  Py.find (Py.slice_from content (Py.find content s 0 + Py.len s)) e 0
    <> -1 ->
  Py.find (value ++ e) e 0 = Py.len value ->
  exists updated,
    replace_segment_in_html (S fuel) content s e (s ++ value ++ e) 1 1 log
    = (Return updated, log)
    /\ get_segment_in_html (S fuel) updated s e 1 1 log
       = (Return (s ++ value ++ e), log).
Proof.
  intros Hs He Hv.
  destruct (segment_parts_full (S fuel) content s e 1 1 _ _ log
              (find_first_occurrence fuel content s) Hs
              (find_first_occurrence fuel _ e) He)
    as (before & mid & after & Hc & Hb & Hm & _ & Hrep).
  exists (before ++ (s ++ value ++ e) ++ after).
  split; [apply Hrep|].
  (* the start marker is first found where it was *)
  destruct (find_sound content s 0 Hs) as (d & Hd & _ & _).
  assert (Hbd : List.length before = d) by (unfold Py.len in Hb; lia).
  assert (Hfs : Py.find (before ++ (s ++ value ++ e) ++ after) s 0
                = Z.of_nat d).
  { replace (before ++ (s ++ value ++ e) ++ after)
      with ((before ++ s) ++ value ++ e ++ after)
      by now rewrite <- !app_assoc.
    apply find_app.
    replace before with (firstn d content)
      by (rewrite Hc, <- Hbd, firstn_app, firstn_all, Nat.sub_diag;
          cbn [firstn]; apply app_nil_r).
    now apply find_trim. }
  (* the end marker is first found after the value *)
  assert (Hrest : Py.slice_from (before ++ (s ++ value ++ e) ++ after)
                    (Z.of_nat d + Py.len s) = value ++ e ++ after).
  { replace (before ++ (s ++ value ++ e) ++ after)
      with ((before ++ s) ++ value ++ e ++ after)
      by now rewrite <- !app_assoc.
    replace (Z.of_nat d + Py.len s) with (Py.len (before ++ s))
      by (rewrite len_app_Z; unfold Py.len; lia).
    apply slice_from_suffix. }
  assert (Hfe : Py.find (value ++ e ++ after) e 0
                = Z.of_nat (List.length value)).
  { rewrite app_assoc. apply find_app. exact Hv. }
  unfold get_segment_in_html, bind, lift, ret.
  rewrite !find_first_occurrence, Hfs.
  destruct (Z.eqb_spec (Z.of_nat d) (-1)) as [?|_]; [lia|].
  rewrite Hrest, Hfe.
  destruct (Z.eqb_spec (Z.of_nat (List.length value)) (-1)) as [?|_]; [lia|].
  replace (Z.of_nat d + Py.len s + Z.of_nat (List.length value) + Py.len e)
    with (Py.len before + Py.len (s ++ value ++ e))
    by (rewrite !len_app_Z; unfold Py.len; lia).
  replace (Z.of_nat d) with (Py.len before) by (unfold Py.len; lia).
  now rewrite slice_middle.
Qed.

(** X6. Replace, then extract.  With the default occurrences (1 and 1): if
    both markers are found and the segment is replaced by
    [start ++ value ++ end], where the end marker does not occur in
    [value ++ end] before its last place, then [get_segment_in_html] on the
    new content returns [start ++ value ++ end]: a segment rewritten with
    its own markers as wrappers can be found again and holds the value. *)
Theorem replace_then_extract (fuel : nat) (content s e value : str)
    (log : Log) :
  Py.find content s 0 <> -1 ->
  Py.find (Py.slice_from content (Py.find content s 0 + Py.len s)) e 0
    <> -1 ->
  Py.find (value ++ e) e 0 = Py.len value ->
  exists updated,
    replace_segment_in_html (S fuel) content s e (s ++ value ++ e) 1 1 log
    = (Return updated, log)
    /\ get_segment_in_html (S fuel) updated s e 1 1 log
       = (Return (s ++ value ++ e), log).
Proof. apply replace_then_extract_parts. Qed.

Lemma replace_then_extract_title :
  exists updated,
    replace_segment_in_html 1 "<h><title>Old</title></h>" "<title>"
      "</title>" ("<title>" ++ "New" ++ "</title>") 1 1 []
    = (Return updated, [])
    /\ get_segment_in_html 1 updated "<title>" "</title>" 1 1 []
       = (Return ("<title>" ++ "New" ++ "</title>"), []).
Proof.
  apply (replace_then_extract 0 "<h><title>Old</title></h>" "<title>"
           "</title>" "New" []);
    [discriminate | discriminate | reflexivity].
Defined.

(** ** Bulk Marker Replacer *)

(** X7. Pairs whose start marker does not occur in the content change
    nothing: the content comes back as it was and nothing is logged. *)
Theorem replace_all_absent_markers (fuel : nat) (html : str)
    (markers : marker_map) (log : Log) :
  Forall (fun m => Py.find html (fst (fst m)) 0 = -1) markers ->
  replace_all_markers_in_html (S fuel) html markers log = (Return html, log).
Proof.
  intros H. revert log. induction H as [|[[sm em] [st_tag en_tag]] ms Hm _ IH];
    intros log; [reflexivity|].
  cbn [replace_all_markers_in_html replace_pair_loop]. cbn [fst] in Hm.
  unfold bind. rewrite Hm. cbn. apply IH.
Qed.

Lemma replace_all_absent_markers_plain :
  replace_all_markers_in_html 1 "plain text"
    [(("<bold>" : str, "</bold>" : str), ("<strong>" : str, "</strong>" : str));
     (("H1:" : str, [Py.LF]), ("<h1>" : str, "</h1>" : str))] []
  = (Return ("plain text" : str), []).
Proof.
  apply (replace_all_absent_markers 0); repeat constructor.
Defined.

(** One round of the loop of a pair, on a content cut at the leftmost
    start marker and at the first end marker after it. *)
Lemma replace_pair_round (fuel : nat)
    (pre sm inner em post st_tag en_tag : str) (log : Log) :
  Py.find (pre ++ sm) sm 0 = Py.len pre ->
  Py.find (inner ++ em) em 0 = Py.len inner ->
  replace_pair_loop (S fuel) (pre ++ sm ++ inner ++ em ++ post)
    sm em st_tag en_tag log
  = replace_pair_loop fuel (pre ++ st_tag ++ inner ++ en_tag ++ post)
      sm em st_tag en_tag log.
Proof.
  intros Hs He. cbn [replace_pair_loop].
  assert (Hfs : Py.find (pre ++ sm ++ inner ++ em ++ post) sm 0 = Py.len pre).
  { rewrite app_assoc. apply (find_app (pre ++ sm)). exact Hs. }
  rewrite Hfs.
  destruct (Z.eqb_spec (Py.len pre) (-1)) as [E|_];
    [pose proof (len_nonneg pre); lia|].
  assert (Hfe : Py.find (pre ++ sm ++ inner ++ em ++ post) em
                  (Py.len pre + Py.len sm)
                = Py.len pre + Py.len sm + Py.len inner).
  { replace (Py.len pre + Py.len sm)
      with (Z.of_nat (List.length (pre ++ sm)))
      by (rewrite length_app; unfold Py.len; lia).
    rewrite find_offset by (rewrite !length_app; lia).
    replace (pre ++ sm ++ inner ++ em ++ post)
      with ((pre ++ sm) ++ inner ++ em ++ post)
      by now rewrite <- app_assoc.
    rewrite skipn_app, skipn_all, Nat.sub_diag. cbn [app skipn].
    rewrite (app_assoc inner em post).
    rewrite (find_app (inner ++ em) post em (List.length inner) He).
    cbn zeta.
    destruct (Z.eqb_spec (Z.of_nat (List.length inner)) (-1)); [lia|].
    reflexivity. }
  rewrite Hfe.
  destruct (Z.eqb_spec (Py.len pre + Py.len sm + Py.len inner) (-1)) as [E|_].
  { pose proof (len_nonneg pre). pose proof (len_nonneg sm).
    pose proof (len_nonneg inner). lia. }
  rewrite slice_to_prefix.
  replace (Py.slice (pre ++ sm ++ inner ++ em ++ post)
             (Py.len pre + Py.len sm)
             (Py.len pre + Py.len sm + Py.len inner)) with inner.
  - replace (Py.slice_from (pre ++ sm ++ inner ++ em ++ post)
               (Py.len pre + Py.len sm + Py.len inner + Py.len em))
      with post.
    + now rewrite <- !app_assoc.
    + replace (pre ++ sm ++ inner ++ em ++ post)
        with ((pre ++ sm ++ inner ++ em) ++ post)
        by now rewrite <- !app_assoc.
      replace (Py.len pre + Py.len sm + Py.len inner + Py.len em)
        with (Py.len (pre ++ sm ++ inner ++ em))
        by (rewrite !len_app_Z; lia).
      now rewrite slice_from_suffix.
  - replace (pre ++ sm ++ inner ++ em ++ post)
      with ((pre ++ sm) ++ inner ++ em ++ post)
      by now rewrite <- !app_assoc.
    rewrite <- len_app_Z. now rewrite slice_middle.
Qed.

(** X8. One round of the loop of a pair rewrites the leftmost marker pair
    and nothing else: in [pre ++ start ++ inner ++ end ++ post], where the
    start marker first occurs after [pre] and the end marker first occurs
    after [inner], the round goes on with
    [pre ++ start_tag ++ inner ++ end_tag ++ post], the log untouched. *)
Theorem replace_pair_rewrites_leftmost (fuel : nat)
    (pre sm inner em post st_tag en_tag : str) (log : Log) :
  Py.find (pre ++ sm) sm 0 = Py.len pre ->
  Py.find (inner ++ em) em 0 = Py.len inner ->
  replace_pair_loop (S fuel) (pre ++ sm ++ inner ++ em ++ post)
    sm em st_tag en_tag log
  = replace_pair_loop fuel (pre ++ st_tag ++ inner ++ en_tag ++ post)
      sm em st_tag en_tag log.
Proof. intros Hs He. now apply replace_pair_round. Qed.

Lemma replace_pair_rewrites_leftmost_keep :
  replace_pair_loop 4 ("X" ++ "<a>" ++ "keep" ++ "</a>" ++ "Y<a>keep2</a>Z")
    "<a>" "</a>" "<b>" "</b>" []
  = replace_pair_loop 3 ("X" ++ "<b>" ++ "keep" ++ "</b>" ++ "Y<a>keep2</a>Z")
      "<a>" "</a>" "<b>" "</b>" [].
Proof.
  apply (replace_pair_rewrites_leftmost 3 "X" "<a>" "keep" "</a>"
           "Y<a>keep2</a>Z" "<b>" "</b>" []); reflexivity.
Defined.

(** *** A start marker left without its end marker *)

(** [k] replacements of a pair use up [k] rounds of its loop. *)
Lemma replace_pair_rounds (sm em st_tag en_tag : str) (k : nat)
    (html html' : str) :
  rewritten sm em st_tag en_tag k html html' ->
  forall (fuel : nat) (log : Log),
    replace_pair_loop (k + fuel) html sm em st_tag en_tag log
    = replace_pair_loop fuel html' sm em st_tag en_tag log.
Proof.
  induction 1 as [html|k pre inner post html' Hs He _ IH]; intros fuel log;
    [reflexivity|].
  cbn [Nat.add]. rewrite replace_pair_round by assumption. apply IH.
Qed.

(** The round that finds the start marker and no end marker after it. *)
Lemma replace_pair_unmatched (fuel : nat) (html sm em st_tag en_tag : str)
    (log : Log) :
  Py.find html sm 0 <> -1 ->
  Py.find html em (Py.find html sm 0 + Py.len sm) = -1 ->
  replace_pair_loop (S fuel) html sm em st_tag en_tag log
  = (Return html, log ++ [unmatched_msg sm em]).
Proof.
  intros Hs He. cbn [replace_pair_loop].
  destruct (Z.eqb_spec (Py.find html sm 0) (-1)) as [?|_]; [contradiction|].
  rewrite He. reflexivity.
Qed.

(** The pairs are handled one after the other, each from the content and
    the log the pairs before it have left. *)
Lemma replace_all_markers_app (fuel : nat) (done rest : marker_map)
    (html : str) (log : Log) :
  replace_all_markers_in_html fuel html (done ++ rest) log
  = match replace_all_markers_in_html fuel html done log with
    | (Return html1, log1) => replace_all_markers_in_html fuel html1 rest log1
    | (Raise e, log1) => (Raise e, log1)
    | (OutOfFuel, log1) => (OutOfFuel, log1)
    end.
Proof.
  revert html log.
  induction done as [|[[sm em] [st_tag en_tag]] done IH]; intros html log.
  - cbn. now destruct (replace_all_markers_in_html fuel html rest log).
  - cbn [app replace_all_markers_in_html]. unfold bind.
    destruct (replace_pair_loop fuel html sm em st_tag en_tag log)
      as [[html1| |] log1]; [apply IH | reflexivity | reflexivity].
Qed.

Lemma replace_pair_loop_never_raises (fuel : nat)
    (html sm em st_tag en_tag : str) (log : Log) (e : exn) :
  fst (replace_pair_loop fuel html sm em st_tag en_tag log) <> Raise e.
Proof.
  revert html. induction fuel as [|fuel IH]; intros html; [discriminate|].
  cbn [replace_pair_loop]. destruct (_ =? -1); [discriminate|].
  destruct (_ =? -1); [discriminate | apply IH].
Qed.

Lemma replace_all_markers_never_raises (fuel : nat) (markers : marker_map)
    (html : str) (log : Log) (e : exn) :
  fst (replace_all_markers_in_html fuel html markers log) <> Raise e.
Proof.
  revert html log.
  induction markers as [|[[sm em] [st_tag en_tag]] ms IH]; intros html log;
    [discriminate|].
  cbn [replace_all_markers_in_html]. unfold bind.
  pose proof (replace_pair_loop_never_raises fuel html sm em st_tag en_tag
                log) as Hp.
  destruct (replace_pair_loop fuel html sm em st_tag en_tag log)
    as [[html1| |] log1]; cbn [fst] in *.
  - apply IH.
  - now destruct (Hp e0).
  - discriminate.
Qed.

(** C6. Let the pairs before a pair have turned the content into [html1],
    and let [k] replacements of the pair turn [html1] into [html2], in
    which the leftmost start marker of the pair has no end marker after
    it.  Then the loop of the pair returns [html2], that is, the content
    with every replacement made so far, and appends one warning to the
    log; nothing is raised; the pair is left and the run goes on with the
    remaining pairs from [html2] and that log; when no pair remains the run
    returns [html2]. *)
Theorem unmatched_start_marker_warns (fuel k : nat)
    (html html1 html2 sm em st_tag en_tag : str)
    (done rest : marker_map) (log log1 : Log) :
  replace_all_markers_in_html fuel html done log = (Return html1, log1) ->
  rewritten sm em st_tag en_tag k html1 html2 ->
  (k < fuel)%nat ->
  Py.find html2 sm 0 <> -1 ->
  Py.find html2 em (Py.find html2 sm 0 + Py.len sm) = -1 ->
  replace_pair_loop fuel html1 sm em st_tag en_tag log1
    = (Return html2, log1 ++ [unmatched_msg sm em])
  /\ replace_all_markers_in_html fuel html
       (done ++ ((sm, em), (st_tag, en_tag)) :: rest) log
     = replace_all_markers_in_html fuel html2 rest
         (log1 ++ [unmatched_msg sm em])
  /\ replace_all_markers_in_html fuel html
       (done ++ [((sm, em), (st_tag, en_tag))]) log
     = (Return html2, log1 ++ [unmatched_msg sm em])
  /\ (forall e : exn,
        fst (replace_all_markers_in_html fuel html
               (done ++ ((sm, em), (st_tag, en_tag)) :: rest) log)
        <> Raise e).
Proof.
  intros Hdone Hrw Hk Hs He.
  assert (Hp : replace_pair_loop fuel html1 sm em st_tag en_tag log1
               = (Return html2, log1 ++ [unmatched_msg sm em])).
  { replace fuel with (k + S (fuel - k - 1))%nat by lia.
    rewrite (replace_pair_rounds sm em st_tag en_tag k html1 html2 Hrw).
    now apply replace_pair_unmatched. }
  assert (Hall : forall r : marker_map,
            replace_all_markers_in_html fuel html
              (done ++ ((sm, em), (st_tag, en_tag)) :: r) log
            = replace_all_markers_in_html fuel html2 r
                (log1 ++ [unmatched_msg sm em])).
  { intros r. rewrite replace_all_markers_app, Hdone.
    cbn [replace_all_markers_in_html]. unfold bind at 1. now rewrite Hp. }
  split; [exact Hp|]. split; [apply Hall|].
  split; [now rewrite Hall|].
  intros e. apply replace_all_markers_never_raises.
Qed.

Lemma unmatched_start_marker_warns_keep :
  replace_all_markers_in_html 1 "X<a>keep"
    [(("<a>" : str, "</a>" : str), ("<b>" : str, "</b>" : str))] []
  = (Return ("X<a>keep" : str), [unmatched_msg "<a>" "</a>"])
  /\ replace_all_markers_in_html 3 "X<a>k</a>Y<a>keep"
       [(("X" : str, "Y" : str), ("[" : str, "]" : str));
        (("<a>" : str, "</a>" : str), ("<b>" : str, "</b>" : str));
        (("[" : str, "]" : str), ("(" : str, ")" : str))] []
     = (Return ("(<b>k</b>)<a>keep" : str), [unmatched_msg "<a>" "</a>"]).
Proof.
  split.
  - apply (proj1 (proj2 (proj2
      (unmatched_start_marker_warns 1 0 "X<a>keep" "X<a>keep" "X<a>keep"
         "<a>" "</a>" "<b>" "</b>" [] [] [] []
         ltac:(reflexivity) (rewritten_none _ _ _ _ _) ltac:(lia)
         ltac:(discriminate) ltac:(reflexivity))))).
  - etransitivity.
    + apply (proj1 (proj2
        (unmatched_start_marker_warns 3 1 "X<a>k</a>Y<a>keep"
           "[<a>k</a>]<a>keep" "[<b>k</b>]<a>keep"
           "<a>" "</a>" "<b>" "</b>"
           [(("X" : str, "Y" : str), ("[" : str, "]" : str))]
           [(("[" : str, "]" : str), ("(" : str, ")" : str))] [] []
           ltac:(reflexivity)
           (rewritten_pair "<a>" "</a>" "<b>" "</b>" 0 "[" "k" "]<a>keep" _
              ltac:(reflexivity) ltac:(reflexivity)
              (rewritten_none _ _ _ _ _))
           ltac:(lia) ltac:(discriminate) ltac:(reflexivity)))).
    + reflexivity.
Defined.

(** ** Nested List Converter *)

Module ListConverterMore.

Import ListConverter ListConverterSpec ListConverterFacts ListConverterSteps.

(** *** The loops in closed form *)

Lemma pop_and_close_last (stack : list list_type) (t : list_type)
    (frags : list fragment) :
  pop_and_close {| list_stack := stack ++ [t]; html_fragments := frags |}
  = {| list_stack := stack; html_fragments := frags ++ [ListClose t] |}.
Proof.
  unfold pop_and_close. cbn [list_stack html_fragments].
  rewrite rev_app_distr. cbn [rev app]. now rewrite removelast_last.
Qed.

Lemma close_to_level_loop_closed (fuel level : nat) (stack : list list_type)
    (frags : list fragment) :
  (List.length stack <= fuel)%nat ->
  close_to_level_loop fuel (Z.of_nat level)
    {| list_stack := stack; html_fragments := frags |}
  = {| list_stack := firstn level stack;
       html_fragments := frags ++ map ListClose (rev (skipn level stack)) |}.
Proof.
  revert stack frags. induction fuel as [|fuel IH]; intros stack frags Hf.
  - destruct stack; [|simpl in Hf; lia].
    cbn. now rewrite firstn_nil, skipn_nil, app_nil_r.
  - cbn [close_to_level_loop list_stack]. unfold Py.len_list.
    destruct (Z.gtb_spec (Z.of_nat (List.length stack)) (Z.of_nat level)).
    + destruct stack as [|x stack'] using rev_ind; [simpl in *; lia|].
      clear IHstack'. rewrite length_app in *. cbn [List.length] in *.
      rewrite pop_and_close_last, IH by lia.
      rewrite firstn_app, skipn_app.
      replace (level - List.length stack')%nat with 0%nat by lia.
      cbn [firstn skipn]. rewrite app_nil_r, rev_app_distr. cbn [rev app map].
      now rewrite <- app_assoc.
    + rewrite firstn_all2, skipn_all2 by lia. cbn. now rewrite app_nil_r.
Qed.

Lemma close_to_level_closed (level : nat) (st : state) :
  close_to_level (Z.of_nat level) st
  = {| list_stack := firstn level (list_stack st);
       html_fragments :=
         html_fragments st
           ++ map ListClose (rev (skipn level (list_stack st))) |}.
Proof.
  destruct st as [stack frags]. unfold close_to_level.
  apply close_to_level_loop_closed. cbn. lia.
Qed.

Lemma close_all_lists_loop_closed (fuel : nat) (stack : list list_type)
    (frags : list fragment) :
  (List.length stack <= fuel)%nat ->
  close_all_lists_loop fuel
    {| list_stack := stack; html_fragments := frags |}
  = {| list_stack := [];
       html_fragments := frags ++ map ListClose (rev stack) |}.
Proof.
  revert stack frags. induction fuel as [|fuel IH]; intros stack frags Hf.
  - destruct stack; [|simpl in Hf; lia]. cbn. now rewrite app_nil_r.
  - cbn [close_all_lists_loop list_stack].
    destruct stack as [|x stack'] using rev_ind.
    + cbn. now rewrite app_nil_r.
    + clear IHstack'. rewrite length_app in Hf. cbn [List.length] in Hf.
      destruct (stack' ++ [x]) eqn:E;
        [now destruct stack' |].
      rewrite <- E, pop_and_close_last, IH by lia.
      rewrite rev_app_distr. cbn [rev app map]. now rewrite <- app_assoc.
Qed.

Lemma open_lists_loop_closed (fuel : nat) (desired_depth : Z)
    (t : list_type) (stack : list list_type) (frags : list fragment) :
  Py.len_list stack <= desired_depth ->
  desired_depth - Py.len_list stack <= Z.of_nat fuel ->
  open_lists_loop fuel desired_depth t
    {| list_stack := stack; html_fragments := frags |}
  = {| list_stack :=
         stack ++ repeat t (Z.to_nat (desired_depth - Py.len_list stack));
       html_fragments :=
         frags ++ repeat (ListOpen t)
                    (Z.to_nat (desired_depth - Py.len_list stack)) |}.
Proof.
  revert stack frags. induction fuel as [|fuel IH]; intros stack frags Hd Hf.
  - replace (Z.to_nat (desired_depth - Py.len_list stack)) with 0%nat by lia.
    cbn. now rewrite !app_nil_r.
  - cbn [open_lists_loop list_stack].
    destruct (Z.ltb_spec (Py.len_list stack) desired_depth).
    + unfold open_list. cbn [list_stack html_fragments].
      assert (Hl : Py.len_list (stack ++ [t]) = Py.len_list stack + 1)
        by (unfold Py.len_list; rewrite length_app; simpl; lia).
      rewrite IH by lia. rewrite Hl.
      replace (Z.to_nat (desired_depth - Py.len_list stack))
        with (S (Z.to_nat (desired_depth - (Py.len_list stack + 1))))
        by (unfold Py.len_list in *; lia).
      cbn [repeat]. now rewrite <- !app_assoc.
    + replace (Z.to_nat (desired_depth - Py.len_list stack)) with 0%nat
        by lia.
      cbn. now rewrite !app_nil_r.
Qed.

(** *** One paragraph in closed form *)

Lemma rev_cons_last {A : Type} (l r : list A) (a : A) :
  rev l = a :: r -> l = rev r ++ [a].
Proof. intros H. rewrite <- (rev_involutive l), H. reflexivity. Qed.

(** X9. A list item at indentation level [k] sets the stack as follows,
    with [d = k + 1].  A deeper stack is cut to its first [d] lists, closed
    innermost first, and the type of the list that stays on top is not
    looked at; a shallower stack gets [d - depth] new lists, all of the
    type of the item; at depth [d] the top list is kept if it has the type
    of the item and is closed and replaced by one of that type otherwise.
    Then the item is written, its text escaped. *)
Theorem list_item_step (p_start p_end : str) (st : state) (paragraph : str)
    (t : list_type) :
  current_type_of (Py.slice_from paragraph (indent_of paragraph)) = Some t ->
  list_stack (process_paragraph p_start p_end st paragraph)
  = stack_after_item (list_stack st) t (indent_of paragraph + 1)
  /\ html_fragments (process_paragraph p_start p_end st paragraph)
     = html_fragments st
         ++ tags_before_item (list_stack st) t (indent_of paragraph + 1)
         ++ [ListItem (flat_map escape_char (unit_text paragraph))].
Proof.
  intros H.
  assert (Hi : 0 <= indent_of paragraph)
    by (unfold indent_of; apply len_nonneg).
  unfold process_paragraph, unit_text, stack_after_item, tags_before_item.
  rewrite H. rewrite escape_html_once. unfold escape_once.
  destruct st as [stack frags].
  cbn [list_stack html_fragments append_fragment].
  destruct (Z.gtb_spec (Py.len_list stack) (indent_of paragraph + 1)).
  - replace (indent_of paragraph + 1)
      with (Z.of_nat (Z.to_nat (indent_of paragraph + 1))) at 1 3 by lia.
    rewrite close_to_level_closed. cbn [list_stack html_fragments].
    split; [reflexivity | now rewrite <- app_assoc].
  - destruct (Z.ltb_spec (Py.len_list stack) (indent_of paragraph + 1)).
    + unfold open_lists.
      rewrite open_lists_loop_closed by (unfold Py.len_list in *; lia).
      cbn [list_stack html_fragments].
      split; [reflexivity | now rewrite <- app_assoc].
    + destruct (rev stack) as [|top r] eqn:E.
      * cbn [list_stack html_fragments]. split; reflexivity.
      * apply rev_cons_last in E. subst stack.
        destruct (list_type_eqb top t); cbn [negb].
        -- cbn [list_stack html_fragments]. split; reflexivity.
        -- assert (Hd : indent_of paragraph + 1 - 1
                        = Z.of_nat (List.length (rev r))).
           { unfold Py.len_list in *. rewrite length_app in *.
             cbn [List.length] in *. lia. }
           rewrite Hd, close_to_level_closed.
           unfold open_list. cbn [list_stack html_fragments].
           rewrite firstn_app, firstn_all, Nat.sub_diag, removelast_last.
           rewrite skipn_app, skipn_all, Nat.sub_diag.
           cbn [firstn skipn app rev map]. rewrite app_nil_r.
           split; [reflexivity | now rewrite <- !app_assoc].
Qed.

(** A numbered item one level up from two nested bullet lists lands in the
    outer bullet list. *)
Lemma list_item_step_dedent :
  list_stack
    (process_paragraph "<p>" "</p>"
       {| list_stack := [ul; ul]; html_fragments := [] |} "1.\sB")
  = stack_after_item [ul; ul] ol (indent_of "1.\sB" + 1)
  /\ html_fragments
       (process_paragraph "<p>" "</p>"
          {| list_stack := [ul; ul]; html_fragments := [] |} "1.\sB")
     = [] ++ tags_before_item [ul; ul] ol (indent_of "1.\sB" + 1)
         ++ [ListItem (flat_map escape_char (unit_text "1.\sB"))].
Proof.
  apply (list_item_step "<p>" "</p>"
           {| list_stack := [ul; ul]; html_fragments := [] |} "1.\sB" ol).
  reflexivity.
Defined.

(** X10. A paragraph that is not a list item closes every open list,
    innermost first, and is then written with its text escaped between the
    paragraph wrappers, leading tabs included. *)
Theorem plain_paragraph_step (p_start p_end : str) (st : state)
    (paragraph : str) :
  current_type_of (Py.slice_from paragraph (indent_of paragraph)) = None ->
  list_stack (process_paragraph p_start p_end st paragraph) = []
  /\ html_fragments (process_paragraph p_start p_end st paragraph)
     = html_fragments st ++ map ListClose (rev (list_stack st))
         ++ [Paragraph p_start (flat_map escape_char paragraph) p_end].
Proof.
  intros H. unfold process_paragraph. rewrite H.
  rewrite escape_html_once. unfold escape_once, close_all_lists.
  destruct st as [stack frags]. cbn [list_stack].
  rewrite close_all_lists_loop_closed by lia.
  cbn [list_stack html_fragments append_fragment].
  split; [reflexivity | now rewrite <- app_assoc].
Qed.

Lemma plain_paragraph_step_after_lists :
  list_stack
    (process_paragraph "<p>" "</p>"
       {| list_stack := [ul; ol]; html_fragments := [] |} "a < b")
  = []
  /\ html_fragments
       (process_paragraph "<p>" "</p>"
          {| list_stack := [ul; ol]; html_fragments := [] |} "a < b")
     = [] ++ map ListClose (rev [ul; ol])
         ++ [Paragraph "<p>" (flat_map escape_char "a < b") "</p>"].
Proof.
  apply (plain_paragraph_step "<p>" "</p>"
           {| list_stack := [ul; ol]; html_fragments := [] |} "a < b").
  reflexivity.
Defined.

(** *** Escaped text *)

Lemma escape_char_no_angle (c x : ascii) :
  In x (escape_char c) -> x <> "<"%char /\ x <> ">"%char.
Proof.
  unfold escape_char.
  destruct (Ascii.eqb_spec c "&"%char) as [->|Ha];
    [cbn; intuition (subst; discriminate)|].
  destruct (Ascii.eqb_spec c "<"%char) as [->|Hl];
    [cbn; intuition (subst; discriminate)|].
  destruct (Ascii.eqb_spec c ">"%char) as [->|Hg];
    [cbn; intuition (subst; discriminate)|].
  cbn. intros [<-|[]]. now split.
Qed.

Lemma emitted_texts_convert (entire_start entire_end p_start p_end : str)
    (paragraphs : list str) :
  emitted_texts
    (html_fragments
       (convert_paragraphs entire_start entire_end p_start p_end paragraphs))
  = map (fun p => escape_once (unit_text p)) paragraphs.
Proof.
  unfold convert_paragraphs.
  assert (H : emitted_texts
                (html_fragments
                   (close_all_lists
                      (scan_paragraphs p_start p_end
                         (initial_state entire_start) paragraphs)))
              = map (fun p => escape_once (unit_text p)) paragraphs).
  { unfold close_all_lists.
    rewrite texts_close_all_lists_loop, texts_scan_paragraphs.
    unfold initial_state. now destruct entire_start. }
  destruct entire_end; [exact H|].
  rewrite texts_append_fragment, H. apply app_nil_r.
Qed.

(** X11. No text the converter writes into a list item or a paragraph
    holds a [<] or a [>]: the text of the document cannot add a tag to the
    output. *)
Theorem emitted_text_has_no_angle_bracket
    (entire_start entire_end p_start p_end : str) (paragraphs : list str)
    (text : str) :
  In text
    (emitted_texts
       (html_fragments
          (convert_paragraphs entire_start entire_end p_start p_end
             paragraphs))) ->
  ~ In "<"%char text /\ ~ In ">"%char text.
Proof.
  rewrite emitted_texts_convert. intros H.
  apply in_map_iff in H. destruct H as (p & <- & _).
  unfold escape_once.
  split; intros Hin; apply in_flat_map in Hin;
    destruct Hin as (c & _ & Hc); apply escape_char_no_angle in Hc;
    destruct Hc; congruence.
Qed.

Lemma emitted_text_has_no_angle_bracket_item :
  ~ In "<"%char ("a &lt; b &amp; c" : str)
  /\ ~ In ">"%char ("a &lt; b &amp; c" : str).
Proof.
  apply (emitted_text_has_no_angle_bracket [] [] "<p>" "</p>"
           [bullet_marker ++ "a < b & c"]).
  left. reflexivity.
Defined.

Lemma escape_char_nonempty (c : ascii) : escape_char c <> [].
Proof.
  unfold escape_char.
  destruct (Ascii.eqb c "&"%char); [discriminate|].
  destruct (Ascii.eqb c "<"%char); [discriminate|].
  destruct (Ascii.eqb c ">"%char); discriminate.
Qed.

Lemma escape_once_injective (a b : str) :
  escape_once a = escape_once b -> a = b.
Proof.
  unfold escape_once. revert b.
  induction a as [|x a IH]; intros [|y b] H; cbn [flat_map] in H.
  - reflexivity.
  - pose proof (escape_char_nonempty y).
    destruct (escape_char y); [congruence | discriminate].
  - pose proof (escape_char_nonempty x).
    destruct (escape_char x); [congruence | discriminate].
  - unfold escape_char in H.
    destruct (Ascii.eqb_spec x "&"%char) as [->|Hxa];
      [|destruct (Ascii.eqb_spec x "<"%char) as [->|Hxl];
        [|destruct (Ascii.eqb_spec x ">"%char) as [->|Hxg]]];
      (destruct (Ascii.eqb_spec y "&"%char) as [->|Hya];
       [|destruct (Ascii.eqb_spec y "<"%char) as [->|Hyl];
         [|destruct (Ascii.eqb_spec y ">"%char) as [->|Hyg]]]);
      cbn in H; try discriminate H;
      injection H as H; subst; try congruence;
      f_equal; apply IH; assumption.
Qed.

(** X12. Escaping loses nothing: two texts with the same escaped form are
    the same text. *)
Theorem escape_html_injective (a b : str) :
  escape_html a = escape_html b -> a = b.
Proof. rewrite !escape_html_once. apply escape_once_injective. Qed.

Lemma escape_html_injective_amp :
  ("a&b" : str) = "a&b".
Proof. apply (escape_html_injective "a&b" "a&b"). reflexivity. Defined.

(** X18. Escaping goes through concatenation: the escaped form of
    [a ++ b] is the escaped form of [a] followed by that of [b], although
    the code escapes with three passes over the whole text. *)
Theorem escape_html_app (a b : str) :
  escape_html (a ++ b) = escape_html a ++ escape_html b.
Proof.
  rewrite !escape_html_once. unfold escape_once. apply flat_map_app.
Qed.

End ListConverterMore.

(** ** Markdown Converter *)

Module MarkdownMore.

Import Markdown MarkdownSpec MarkdownFacts.

(** X13. [markdown_to_html] either returns or raises [IndexError], and it
    raises exactly when some line, once stripped, is not a heading nor a
    bullet, matches the numbered pattern (digits, a dot, a white space
    character) and holds no dot followed by a space: the second part of
    [line.split(". ", 1)] is then missing. *)
Theorem markdown_raises_on_split (markdown_text : str) :
  if existsb raises_index_error (Py.splitlines markdown_text)
  then markdown_to_html markdown_text = Raise IndexError
  else exists html, markdown_to_html markdown_text = Return html.
Proof.
  unfold markdown_to_html, final_state.
  pose proof (scan_lines_outcome (Py.splitlines markdown_text) initial_state)
    as H.
  destruct (existsb raises_index_error (Py.splitlines markdown_text)).
  - now rewrite H.
  - destruct H as [st ->]. eexists. reflexivity.
Qed.

(** X14. After every line of a scan that has not raised: if the paragraph
    flag is set, neither list flag is set and the last line written is the
    opening [<p>]. *)
Theorem open_paragraph_excludes_lists (lines : list str) (st : state) :
  scan_lines initial_state lines = Return st ->
  in_paragraph st = true ->
  in_list st = false /\ in_ordered_list st = false
  /\ exists pre, html_lines st = pre ++ ["<p>" : str].
Proof.
  intros H. apply (scan_lines_just_opened lines initial_state st);
    [apply initial_state_just_opened | exact H].
Qed.

Lemma open_paragraph_excludes_lists_blank :
  in_list (after_blank_line initial_state) = false
  /\ in_ordered_list (after_blank_line initial_state) = false
  /\ exists pre,
       html_lines (after_blank_line initial_state) = pre ++ ["<p>" : str].
Proof.
  apply (open_paragraph_excludes_lists [[]]); reflexivity.
Defined.

Lemma startswith_hash (line : str) :
  Py.takewhile (Ascii.eqb "#"%char) line <> [] ->
  Py.startswith line "#" = true.
Proof.
  destruct line as [|c r]; [cbn; congruence|]. cbn [Py.takewhile].
  change (Py.startswith (c :: r) "#") with (Ascii.eqb "#"%char c && true).
  destruct (Ascii.eqb "#"%char c); [reflexivity | congruence].
Qed.

(** X15. A line that starts with seven or more [#] writes nothing: it only
    closes the paragraph and the lists that are open. *)
Theorem long_heading_dropped (st : state) (line : str) :
  (6 < List.length (Py.takewhile (Ascii.eqb "#"%char) (Py.strip line)))%nat ->
  process_line st line = Return (close_list (close_paragraph st)).
Proof.
  intros H. unfold process_line.
  rewrite startswith_hash by (destruct (Py.takewhile _ _); [simpl in H; lia |
                                                            discriminate]).
  unfold heading_match.
  destruct (Py.takewhile (Ascii.eqb "#"%char) (Py.strip line)) as [|h hs] eqn:E;
    [reflexivity|].
  destruct (Z.leb_spec (Py.len (h :: hs)) 6) as [Hle|_].
  - unfold Py.len in Hle. lia.
  - now rewrite andb_false_r.
Qed.

Lemma long_heading_dropped_seven :
  process_line initial_state "####### seven"
  = Return (close_list (close_paragraph initial_state)).
Proof. apply long_heading_dropped. vm_compute. lia. Defined.

(** *** Bold substitution *)

Lemma bold_scan_skip (s : str) (k : nat) :
  bold_scan s k = bold_scan (skipn k s) 0.
Proof.
  revert k. induction s as [|c s IH]; intros [|k]; try reflexivity.
  cbn [bold_scan skipn]. apply IH.
Qed.

Lemma bold_scan_no_stars (s : str) :
  (forall d, (d <= List.length s)%nat ->
             Py.startswith (skipn d s) "**" = false) ->
  bold_scan s 0 = s.
Proof.
  induction s as [|c s IH]; intros H; [reflexivity|].
  cbn [bold_scan]. pose proof (H 0%nat ltac:(simpl; lia)) as H0.
  cbn [skipn] in H0. rewrite H0. f_equal.
  apply IH. intros d Hd. apply (H (S d)). simpl. lia.
Qed.

(** X16. A text in which [**] does not occur is left as it is by the bold
    substitution. *)
Theorem bold_without_stars (s : str) :
  Py.find s "**" 0 = -1 -> bold s = s.
Proof.
  intros H. apply bold_scan_no_stars. now apply find_absent_iff.
Qed.

Lemma bold_without_stars_plain : bold "2 * 3 = 6" = "2 * 3 = 6".
Proof. apply bold_without_stars. reflexivity. Defined.

Lemma bold_close_span (x b : str) :
  Forall (fun c => c <> "*"%char /\ c <> Py.LF) x ->
  bold_close (x ++ "**" ++ b) = Some (x, b).
Proof.
  change (list_ascii_of_string "**") with ["*"%char; "*"%char].
  induction 1 as [|c x [Hs Hn] _ IH]; [reflexivity|].
  cbn [app bold_close].
  change (list_ascii_of_string "**") with ["*"%char; "*"%char].
  cbn [Py.startswith].
  destruct (Ascii.eqb_spec "*"%char c); [congruence|]. cbn [andb].
  destruct (Ascii.eqb_spec c Py.LF); [congruence|].
  cbn [app] in IH. now rewrite IH.
Qed.

Lemma bold_scan_unfold (c : ascii) (r : str) :
  bold_scan (c :: r) 0
  = match (if Py.startswith (c :: r) ["*"%char; "*"%char]
           then bold_close (skipn 2 (c :: r)) else None) with
    | Some (inner, _) =>
        "<strong>" ++ inner ++ "</strong>"
          ++ bold_scan r (List.length inner + 3)
    | None => c :: bold_scan r 0
    end.
Proof. reflexivity. Qed.

(** X17. The first bold span of a line: when no [*] comes before the
    opening [**] and the text up to the closing [**] holds no [*] and no
    newline, that text is wrapped in [<strong>] and [</strong>], what comes
    before is kept, and the substitution goes on after the closing [**]. *)
Theorem bold_first_span (a x b : str) :
  Forall (fun c => c <> "*"%char) a ->
  Forall (fun c => c <> "*"%char /\ c <> Py.LF) x ->
  bold (a ++ "**" ++ x ++ "**" ++ b)
  = a ++ "<strong>" ++ x ++ "</strong>" ++ bold b.
Proof.
  intros Ha Hx. unfold bold.
  change (list_ascii_of_string "**") with ["*"%char; "*"%char].
  induction Ha as [|c a Hc _ IH].
  - cbn [app]. rewrite bold_scan_unfold. cbn [Py.startswith skipn].
    rewrite !Ascii.eqb_refl. cbn [andb].
    pose proof (bold_close_span x b Hx) as Hb.
    change (list_ascii_of_string "**") with ["*"%char; "*"%char] in Hb.
    cbn [app] in Hb. rewrite Hb.
    rewrite bold_scan_skip.
    replace (List.length x + 3)%nat with (S (List.length x + 2)) by lia.
    cbn [skipn]. rewrite skipn_app.
    replace (List.length x + 2 - List.length x)%nat with 2%nat by lia.
    rewrite skipn_all2 by lia. reflexivity.
  - cbn [app]. rewrite bold_scan_unfold. cbn [Py.startswith].
    destruct (Ascii.eqb_spec "*"%char c); [congruence|]. cbn [andb].
    f_equal. exact IH.
Qed.

Lemma bold_first_span_example :
  bold ("b " ++ "**" ++ "x" ++ "**" ++ " end")
  = "b " ++ "<strong>" ++ "x" ++ "</strong>" ++ bold " end".
Proof.
  apply (bold_first_span "b " "x" " end"); repeat constructor; discriminate.
Defined.

End MarkdownMore.

(** ** Markdown Converter: the characters it does not write *)

Module MarkdownText.

Import Markdown MarkdownMore MarkdownTextSpec.

Section Counting.

(** A character of a character reference: the converter has it in none of
    its tags. *)
Variable c : ascii.
Hypothesis reference_char : c = "&"%char \/ c = ";"%char.

Lemma occurrences_app (a b : str) :
  occurrences c (a ++ b) = (occurrences c a + occurrences c b)%nat.
Proof. apply count_occ_app. Qed.

Lemma occurrences_cons_other (d : ascii) (s : str) :
  d <> c -> occurrences c (d :: s) = occurrences c s.
Proof. intros H. unfold occurrences. now apply count_occ_cons_neq. Qed.

Lemma occurrences_cons_le (d : ascii) (s : str) :
  (occurrences c s <= occurrences c (d :: s))%nat.
Proof.
  unfold occurrences. cbn [count_occ]. destruct (ascii_dec d c); lia.
Qed.

Lemma occurrences_takewhile_dropwhile (p : ascii -> bool) (s : str) :
  (occurrences c (Py.takewhile p s) + occurrences c (Py.dropwhile p s))%nat
  = occurrences c s.
Proof.
  rewrite <- occurrences_app. f_equal.
  induction s as [|d s IH]; [reflexivity|].
  cbn [Py.takewhile Py.dropwhile]. destruct (p d); [|reflexivity].
  cbn [app]. now rewrite IH.
Qed.

Lemma occurrences_dropwhile (p : ascii -> bool) (s : str) :
  (occurrences c (Py.dropwhile p s) <= occurrences c s)%nat.
Proof. pose proof (occurrences_takewhile_dropwhile p s). lia. Qed.

Lemma occurrences_takewhile (p : ascii -> bool) (s : str) :
  (occurrences c (Py.takewhile p s) <= occurrences c s)%nat.
Proof. pose proof (occurrences_takewhile_dropwhile p s). lia. Qed.

Lemma occurrences_rev (s : str) : occurrences c (rev s) = occurrences c s.
Proof.
  induction s as [|d s IH]; [reflexivity|].
  cbn [rev]. rewrite occurrences_app, IH. unfold occurrences.
  cbn [count_occ]. destruct (ascii_dec d c); lia.
Qed.

Lemma occurrences_strip (s : str) :
  (occurrences c (Py.strip s) <= occurrences c s)%nat.
Proof.
  unfold Py.strip, Py.rstrip, Py.lstrip. rewrite occurrences_rev.
  pose proof (occurrences_dropwhile Py.isspace (rev (Py.dropwhile Py.isspace s))).
  rewrite occurrences_rev in H.
  pose proof (occurrences_dropwhile Py.isspace s). lia.
Qed.

Lemma occurrences_skipn (n : nat) (s : str) :
  (occurrences c (skipn n s) <= occurrences c s)%nat.
Proof.
  rewrite <- (firstn_skipn n s) at 2. rewrite occurrences_app. lia.
Qed.

Lemma occurrences_slice_from (s : str) (i : Z) :
  (occurrences c (Py.slice_from s i) <= occurrences c s)%nat.
Proof. apply occurrences_skipn. Qed.

Lemma occurrences_split_once (s sep item : str) :
  nth_error (Py.split_once s sep) 1 = Some item ->
  (occurrences c item <= occurrences c s)%nat.
Proof.
  unfold Py.split_once. destruct (_ =? -1); [discriminate|].
  intros [= <-]. apply occurrences_slice_from.
Qed.

Lemma occurrences_split_char_from (sep : ascii) (s cur : str) :
  (occurrences c (concat (Py.split_char_from sep cur s))
   <= occurrences c cur + occurrences c s)%nat.
Proof.
  revert cur. induction s as [|d s IH]; intros cur;
    cbn [Py.split_char_from].
  - cbn [concat]. rewrite app_nil_r. lia.
  - pose proof (occurrences_cons_le d s).
    destruct (Ascii.eqb d sep).
    + cbn [concat]. rewrite occurrences_app. specialize (IH []).
      change (occurrences c []) with 0%nat in IH. lia.
    + specialize (IH (cur ++ [d])). rewrite occurrences_app in IH.
      replace (occurrences c (d :: s))
        with (occurrences c [d] + occurrences c s)%nat
        by (unfold occurrences; cbn [count_occ];
            destruct (ascii_dec d c); lia).
      lia.
Qed.

Lemma occurrences_splitlines_from (n : nat) (s cur : str) :
  (List.length s <= n)%nat ->
  (occurrences c (concat (Py.splitlines_from cur s))
   <= occurrences c cur + occurrences c s)%nat.
Proof.
  revert s cur. induction n as [|n IH]; intros [|d r] cur Hn;
    cbn [List.length] in Hn; try lia;
    try (cbn [Py.splitlines_from]; destruct cur; cbn [concat];
         rewrite ?app_nil_r; lia).
  cbn [Py.splitlines_from].
  pose proof (occurrences_cons_le d r) as Hd.
  destruct (Py.is_linebreak d).
  - destruct r as [|e r'].
    + cbn [Py.splitlines_from concat]. rewrite app_nil_r. lia.
    + pose proof (occurrences_cons_le e r') as He.
      cbn [List.length] in Hn.
      destruct (_ && _); cbn [concat]; rewrite occurrences_app.
      * pose proof (IH r' [] ltac:(lia)) as H.
        change (occurrences c []) with 0%nat in H. lia.
      * pose proof (IH (e :: r') [] ltac:(cbn [List.length]; lia)) as H.
        change (occurrences c []) with 0%nat in H. lia.
  - pose proof (IH r (cur ++ [d]) ltac:(lia)) as H.
    rewrite occurrences_app in H.
    replace (occurrences c (d :: r))
      with (occurrences c [d] + occurrences c r)%nat
      by (unfold occurrences; cbn [count_occ];
          destruct (ascii_dec d c); lia).
    lia.
Qed.

Lemma occurrences_splitlines (s : str) :
  (occurrences c (concat (Py.splitlines s)) <= occurrences c s)%nat.
Proof.
  pose proof (occurrences_splitlines_from (List.length s) s []
                ltac:(lia)) as H.
  exact H.
Qed.

Lemma occurrences_join (ls : list str) :
  occurrences c (Py.join [Py.LF] ls) = occurrences c (concat ls).
Proof.
  induction ls as [|l ls IH]; [reflexivity|].
  cbn [concat]. rewrite occurrences_app, <- IH.
  destruct ls as [|m ls]; [cbn; now rewrite Nat.add_0_r|].
  cbn [Py.join]. rewrite !occurrences_app. f_equal.
  destruct reference_char; subst c; reflexivity.
Qed.

(** *** The text of a heading *)

Lemma occurrences_heading (line group4 : str) (level : Z) :
  heading_match line = Some (level, group4) ->
  (occurrences c group4 <= occurrences c line)%nat.
Proof.
  unfold heading_match.
  destruct (Py.takewhile (Ascii.eqb "#"%char) line); [discriminate|].
  intros [= _ <-].
  set (r1 := Py.dropwhile (Ascii.eqb "#"%char) line).
  set (r2 := Py.dropwhile Py.isspace r1).
  assert (H1 : (occurrences c r2 <= occurrences c line)%nat).
  { pose proof (occurrences_dropwhile (Ascii.eqb "#"%char) line).
    pose proof (occurrences_dropwhile Py.isspace r1). subst r1 r2. lia. }
  set (r3 := match r2 with
             | h :: d :: rest' =>
                 if Ascii.eqb h "H"%char && Py.isdigit d then rest' else r2
             | _ => r2
             end).
  assert (H3 : (occurrences c r3 <= occurrences c r2)%nat).
  { subst r3. destruct r2 as [|h [|d r']]; try lia.
    destruct (_ && _); [|lia].
    pose proof (occurrences_cons_le d r').
    pose proof (occurrences_cons_le h (d :: r')). lia. }
  set (r4 := match r3 with
             | x :: rest' =>
                 if Ascii.eqb x ":"%char then Py.dropwhile Py.isspace rest'
                 else r3
             | [] => r3
             end).
  assert (H4 : (occurrences c r4 <= occurrences c r3)%nat).
  { subst r4. destruct r3 as [|x r']; [lia|].
    destruct (Ascii.eqb x ":"%char); [|lia].
    pose proof (occurrences_cons_le x r').
    pose proof (occurrences_dropwhile Py.isspace r'). lia. }
  pose proof (occurrences_takewhile
                (fun x => negb (Ascii.eqb x Py.LF)) r4).
  lia.
Qed.

Lemma occurrences_level (level : Z) :
  (1 <=? level) && (level <=? 6) = true ->
  occurrences c (Py.str_of_int level) = 0%nat.
Proof.
  intros H. apply andb_prop in H. destruct H as [H1 H6].
  apply Z.leb_le in H1, H6.
  assert (E : level = 1 \/ level = 2 \/ level = 3 \/ level = 4
              \/ level = 5 \/ level = 6) by lia.
  destruct reference_char; subst c;
    destruct E as [->|[->|[->|[->|[->| ->]]]]]; reflexivity.
Qed.

(** *** The bold substitution *)

Lemma bold_close_parts (s inner rest : str) :
  bold_close s = Some (inner, rest) ->
  s = inner ++ ["*"%char; "*"%char] ++ rest.
Proof.
  revert inner. induction s as [|d s IH]; intros inner; [discriminate|].
  cbn [bold_close].
  destruct (Py.startswith (d :: s) "**") eqn:E.
  - intros [= <- <-]. now apply startswith_split in E.
  - destruct (Ascii.eqb d Py.LF); [discriminate|].
    destruct (bold_close s) as [[i r]|]; [|discriminate].
    intros [= <- <-]. cbn [app]. f_equal. now apply IH.
Qed.

Lemma occurrences_bold_scan (s : str) (skip : nat) :
  (occurrences c (bold_scan s skip) <= occurrences c (skipn skip s))%nat.
Proof.
  revert skip. induction s as [|d r IH]; intros skip.
  - destruct skip; cbn; lia.
  - destruct skip as [|k]; [|cbn [bold_scan skipn]; apply IH].
    cbn [skipn]. rewrite bold_scan_unfold.
    destruct (Py.startswith (d :: r) ["*"%char; "*"%char]) eqn:E.
    + destruct (bold_close (skipn 2 (d :: r))) as [[inner rest]|] eqn:B.
      * apply startswith_split in E. cbn [List.length] in E.
        apply bold_close_parts in B. rewrite B in E.
        injection E as -> ->.
        specialize (IH (List.length inner + 3)%nat).
        replace (List.length inner + 3)%nat
          with (S (List.length inner + 2)) in IH by lia.
        cbn [skipn app] in IH. rewrite skipn_app in IH.
        replace (List.length inner + 2 - List.length inner)%nat
          with 2%nat in IH by lia.
        rewrite skipn_all2 in IH by lia. cbn [skipn app] in IH.
        rewrite !occurrences_app.
        replace (occurrences c "<strong>") with 0%nat
          by (destruct reference_char; subst c; reflexivity).
        replace (occurrences c "</strong>") with 0%nat
          by (destruct reference_char; subst c; reflexivity).
        assert (Hs : occurrences c
                       ("*"%char :: "*"%char :: inner
                          ++ "*"%char :: "*"%char :: rest)
                     = (occurrences c inner + occurrences c rest)%nat).
        { change ("*"%char :: "*"%char :: inner
                    ++ "*"%char :: "*"%char :: rest)
            with (["*"%char; "*"%char] ++ inner
                    ++ ["*"%char; "*"%char] ++ rest).
          rewrite !occurrences_app.
          destruct reference_char; subst c; cbn; lia. }
        replace (List.length inner + 3)%nat
          with (S (List.length inner + 2)) by lia.
        lia.
      * specialize (IH 0%nat). cbn [skipn] in IH.
        pose proof (occurrences_cons_le d r).
        unfold occurrences in *. cbn [count_occ].
        destruct (ascii_dec d c); lia.
    + specialize (IH 0%nat). cbn [skipn] in IH.
      unfold occurrences in *. cbn [count_occ].
      destruct (ascii_dec d c); lia.
Qed.

Lemma occurrences_bold (s : str) :
  (occurrences c (bold s) <= occurrences c s)%nat.
Proof. apply (occurrences_bold_scan s 0). Qed.


(** *** The lines written *)

Lemma written_append_line (l : str) (st : state) :
  written c (append_line l st) = (written c st + occurrences c l)%nat.
Proof.
  unfold written, append_line. cbn [html_lines].
  rewrite concat_app, occurrences_app. cbn [concat]. now rewrite app_nil_r.
Qed.

Lemma written_tag (l : str) (st : state) :
  occurrences c l = 0%nat -> written c (append_line l st) = written c st.
Proof. intros H. rewrite written_append_line, H. lia. Qed.

Lemma tag_free (l : str) :
  occurrences "&"%char l = 0%nat -> occurrences ";"%char l = 0%nat ->
  occurrences c l = 0%nat.
Proof. destruct reference_char; now subst c. Qed.

Lemma written_close_paragraph (st : state) :
  written c (close_paragraph st) = written c st.
Proof.
  unfold close_paragraph. destruct (in_paragraph st); [|reflexivity].
  change (written c (set_in_paragraph false (append_line "</p>" st)))
    with (written c (append_line "</p>" st)).
  now apply written_tag, tag_free.
Qed.

Lemma written_close_ul (st : state) :
  written c (if in_list st
             then set_in_list false (append_line "</ul>" st) else st)
  = written c st.
Proof.
  destruct (in_list st); [|reflexivity].
  change (written c (set_in_list false (append_line "</ul>" st)))
    with (written c (append_line "</ul>" st)).
  now apply written_tag, tag_free.
Qed.

Lemma written_close_ol (st : state) :
  written c (if in_ordered_list st
             then set_in_ordered_list false (append_line "</ol>" st)
             else st)
  = written c st.
Proof.
  destruct (in_ordered_list st); [|reflexivity].
  change (written c (set_in_ordered_list false (append_line "</ol>" st)))
    with (written c (append_line "</ol>" st)).
  now apply written_tag, tag_free.
Qed.

Lemma written_close_list (st : state) :
  written c (close_list st) = written c st.
Proof.
  unfold close_list. cbn zeta. now rewrite written_close_ol, written_close_ul.
Qed.

Lemma written_open_ul (st : state) :
  written c (if negb (in_list st)
             then set_in_list true (append_line ul_open st) else st)
  = written c st.
Proof.
  destruct (negb (in_list st)); [|reflexivity].
  change (written c (set_in_list true (append_line ul_open st)))
    with (written c (append_line ul_open st)).
  now apply written_tag, tag_free.
Qed.

Lemma written_open_ol (st : state) :
  written c (if negb (in_ordered_list st)
             then set_in_ordered_list true (append_line ol_open st)
             else st)
  = written c st.
Proof.
  destruct (negb (in_ordered_list st)); [|reflexivity].
  change (written c (set_in_ordered_list true (append_line ol_open st)))
    with (written c (append_line ol_open st)).
  now apply written_tag, tag_free.
Qed.

Lemma written_open_p (st : state) :
  written c (if negb (in_paragraph st)
             then set_in_paragraph true (append_line "<p>" st) else st)
  = written c st.
Proof.
  destruct (negb (in_paragraph st)); [|reflexivity].
  change (written c (set_in_paragraph true (append_line "<p>" st)))
    with (written c (append_line "<p>" st)).
  now apply written_tag, tag_free.
Qed.

Lemma written_process_subline (sublines : list str) (st : state)
    (subline : str) :
  (written c (process_subline sublines st subline)
   <= written c st + occurrences c subline)%nat.
Proof.
  unfold process_subline. cbn zeta.
  pose proof (occurrences_strip subline) as Hs.
  destruct (Py.strip subline) as [|d r] eqn:E; [lia|].
  pose proof (occurrences_bold (d :: r)) as Hb.
  assert (Hw : written c (close_paragraph (append_line (bold (d :: r)) st))
               = (written c st + occurrences c (bold (d :: r)))%nat)
    by now rewrite written_close_paragraph, written_append_line.
  destruct (list_eq_dec _ _ _); [lia|].
  change (written c (set_in_paragraph true
                       (append_line "<p>"
                          (close_paragraph
                             (append_line (bold (d :: r)) st)))))
    with (written c (append_line "<p>"
                       (close_paragraph (append_line (bold (d :: r)) st)))).
  rewrite written_tag by now apply tag_free. lia.
Qed.

Lemma written_sublines (sublines todo : list str) (st : state) :
  (written c (fold_left (process_subline sublines) todo st)
   <= written c st + occurrences c (concat todo))%nat.
Proof.
  revert st. induction todo as [|s todo IH]; intros st; cbn [fold_left concat].
  - change (occurrences c []) with 0%nat. lia.
  - rewrite occurrences_app.
    pose proof (written_process_subline sublines st s).
    specialize (IH (process_subline sublines st s)). lia.
Qed.

Lemma written_process_line (st st' : state) (line : str) :
  process_line st line = Return st' ->
  (written c st' <= written c st + occurrences c line)%nat.
Proof.
  unfold process_line. cbn zeta.
  pose proof (occurrences_strip line) as Hs.
  destruct (Py.startswith (Py.strip line) "#").
  { assert (Hc : written c (close_list (close_paragraph st)) = written c st)
      by now rewrite written_close_list, written_close_paragraph.
    destruct (heading_match (Py.strip line)) as [[level group4]|] eqn:Hm;
      [|intros [= <-]; lia].
    destruct ((1 <=? level) && (level <=? 6)) eqn:Hl;
      [|intros [= <-]; lia].
    assert (Ht : (occurrences c
                    ("<h" ++ Py.str_of_int level ++ ">" ++ Py.strip group4
                       ++ "</h" ++ Py.str_of_int level ++ ">")
                  <= occurrences c line)%nat).
    { rewrite !occurrences_app, (occurrences_level level Hl).
      rewrite (tag_free "<h"), (tag_free ">"), (tag_free "</h")
        by reflexivity.
      pose proof (occurrences_heading _ _ _ Hm).
      pose proof (occurrences_strip group4). lia. }
    intros [= <-]. rewrite written_append_line, Hc.
    apply Nat.add_le_mono_l. exact Ht. }
  destruct (Py.startswith (Py.strip line) "- ").
  { assert (Ht : (occurrences c
                    ("  <li>"
                       ++ bold (Py.strip (Py.slice_from (Py.strip line) 2))
                       ++ "</li>")
                  <= occurrences c line)%nat).
    { rewrite !occurrences_app.
      rewrite (tag_free "  <li>"), (tag_free "</li>") by reflexivity.
      pose proof (occurrences_bold
                    (Py.strip (Py.slice_from (Py.strip line) 2))).
      pose proof (occurrences_strip (Py.slice_from (Py.strip line) 2)).
      pose proof (occurrences_slice_from (Py.strip line) 2). lia. }
    intros [= <-]. rewrite written_append_line, written_open_ul,
      written_close_paragraph.
    apply Nat.add_le_mono_l. exact Ht. }
  destruct (numbered_match (Py.strip line)).
  { destruct (nth_error (Py.split_once (Py.strip line) ". ") 1)
      as [item|] eqn:Hi; [|discriminate].
    assert (Ht : (occurrences c
                    ("<li>" ++ bold (Py.strip item) ++ "</li>")
                  <= occurrences c line)%nat).
    { rewrite !occurrences_app.
      rewrite (tag_free "<li>"), (tag_free "</li>") by reflexivity.
      pose proof (occurrences_bold (Py.strip item)).
      pose proof (occurrences_strip item).
      pose proof (occurrences_split_once _ _ _ Hi). lia. }
    intros [= <-]. rewrite written_append_line, written_open_ol,
      written_close_paragraph, written_close_ul.
    apply Nat.add_le_mono_l. exact Ht. }
  intros [= <-].
  match goal with
  | |- (written c (fold_left _ _ ?st0) <= _)%nat =>
      eapply Nat.le_trans;
        [apply (written_sublines (Py.split_char (Py.strip line) Py.LF)
                  (Py.split_char (Py.strip line) Py.LF) st0)|];
      assert (H0 : written c st0 = written c st)
        by now rewrite written_open_p, written_close_ol, written_close_ul
  end.
  rewrite H0. apply Nat.add_le_mono_l.
  pose proof (occurrences_split_char_from Py.LF (Py.strip line) []) as Hp.
  change (occurrences c []) with 0%nat in Hp.
  unfold Py.split_char. lia.
Qed.

Lemma written_scan_lines (lines : list str) (st st' : state) :
  scan_lines st lines = Return st' ->
  (written c st' <= written c st + occurrences c (concat lines))%nat.
Proof.
  revert st. induction lines as [|l ls IH]; intros st;
    cbn [scan_lines concat].
  - intros [= <-]. lia.
  - destruct (process_line st l) as [st1| |] eqn:E; try discriminate.
    intros H. apply IH in H. apply written_process_line in E.
    rewrite occurrences_app. lia.
Qed.

End Counting.

(** X25. The Markdown Converter writes no [&] and no [;] of its own: each
    of the two occurs in the output at most as often as in the input.  So
    no character reference is written that the input does not hold: the
    text is not escaped. *)
Theorem markdown_adds_no_reference (c : ascii) (markdown_text html : str) :
  c = "&"%char \/ c = ";"%char ->
  markdown_to_html markdown_text = Return html ->
  (occurrences c html <= occurrences c markdown_text)%nat.
Proof.
  intros Hc. unfold markdown_to_html, final_state.
  destruct (scan_lines initial_state (Py.splitlines markdown_text))
    as [st| |] eqn:E; try discriminate.
  intros [= <-]. rewrite (occurrences_join c Hc).
  change (occurrences c (concat (html_lines (close_list (close_paragraph st)))))
    with (written c (close_list (close_paragraph st))).
  rewrite (written_close_list c Hc), (written_close_paragraph c Hc).
  apply (written_scan_lines c Hc) in E.
  pose proof (occurrences_splitlines c markdown_text).
  change (written c initial_state) with 0%nat in E. lia.
Qed.

Lemma markdown_adds_no_reference_bullet :
  (occurrences "&"%char
     (ul_open ++ [Py.LF] ++ "  <li>a&b <strong>c</strong></li>" ++ [Py.LF]
        ++ "</ul>")
   <= occurrences "&"%char "- a&b **c**")%nat.
Proof.
  apply (markdown_adds_no_reference "&" "- a&b **c**");
    [left; reflexivity | reflexivity].
Defined.

End MarkdownText.

(** The string [replace_segment_in_html] returns does not depend on the
    log it is given. *)
Lemma replace_segment_log_free (fuel : nat) (html s e r : str) (so eo : Z)
    (log1 log2 : Log) :
  fst (replace_segment_in_html fuel html s e r so eo log1)
  = fst (replace_segment_in_html fuel html s e r so eo log2).
Proof.
  unfold replace_segment_in_html, bind, lift, when, ret, log_message.
  destruct (find_nth_occurrence fuel html s so) as [i| |]; try reflexivity.
  destruct (i =? -1);
    (destruct (find_nth_occurrence fuel _ e eo) as [j| |]; try reflexivity);
    destruct (j =? -1); reflexivity.
Qed.

(** ** Template update *)

Module TemplateFacts.

Import Template TemplateSpec.

(** X19. [update_html_content] never raises an exception of the engine,
    [SystemExit] included: a marker that is not found is logged by
    [replace_segment_in_html] and the update goes on with the next entry. *)
Theorem update_never_exits (fuel : nat) (html_content : str)
    (data : list (str * str)) (replacements_config : list (str * replacement))
    (log : Log) (e : exn) :
  fst (update_html_content fuel html_content data replacements_config log)
  <> Raised (Engine e).
Proof.
  revert html_content log.
  induction replacements_config as [|[key config] rest IH];
    intros html_content log; cbn [update_html_content]; [discriminate|].
  destruct (search_start_marker config); [|discriminate].
  destruct (search_end_marker config); [|discriminate].
  match goal with
  | |- context [replace_segment_in_html ?f ?h ?s ?t ?r ?a ?b ?l] =>
      pose proof (replace_segment_never_raises f h s t r a b l) as Hn;
      destruct (replace_segment_in_html f h s t r a b l) as [[u|x|] l']
  end.
  - apply IH.
  - now elim (Hn x).
  - discriminate.
Qed.

(** X20. A field whose replacement wrappers are its own markers: when both
    markers are found in the template and the end marker does not occur in
    the cell value followed by it before its last place, the update
    returns a content in which the segment between the markers is the
    marker, the cell value (the empty text for a key that [data] lacks) and
    the end marker; one success line is logged. *)
Theorem update_then_extract (fuel : nat) (html_content s e key : str)
    (data : list (str * str)) (log : Log) :
  Py.find html_content s 0 <> -1 ->
  Py.find (Py.slice_from html_content (Py.find html_content s 0 + Py.len s))
    e 0 <> -1 ->
  Py.find (Dict.get data key [] ++ e) e 0 = Py.len (Dict.get data key []) ->
  exists updated,
    update_html_content (S fuel) html_content data [(key, wrapped s e)] log
    = (Done updated,
       log ++ [replaced_msg key (s ++ Dict.get data key [] ++ e)])
    /\ get_segment_in_html (S fuel) updated s e 1 1 []
       = (Return (s ++ Dict.get data key [] ++ e), []).
Proof.
  intros Hs He Hv.
  destruct (replace_then_extract_parts fuel html_content s e
              (Dict.get data key []) log Hs He Hv) as (updated & Hr & _).
  destruct (replace_then_extract_parts fuel html_content s e
              (Dict.get data key []) [] Hs He Hv) as (updated' & Hr' & Hg).
  assert (updated' = updated).
  { pose proof (replace_segment_log_free (S fuel) html_content s e
                  (s ++ Dict.get data key [] ++ e) 1 1 [] log) as H.
    rewrite Hr, Hr' in H. cbn in H. congruence. }
  subst updated'. exists updated. split; [|exact Hg].
  cbn [update_html_content wrapped search_start_marker search_end_marker
       search_start_occurrence search_end_occurrence replacement_start
       replacement_end or_default].
  now rewrite Hr.
Qed.

Lemma update_then_extract_title :
  exists updated,
    update_html_content 1 "<h><title>Old</title></h>"
      [("TITLE" : str, "New" : str)]
      [("TITLE" : str, wrapped "<title>" "</title>")] []
    = (Done updated,
       [] ++ [replaced_msg "TITLE"
                ("<title>" ++ Dict.get [("TITLE" : str, "New" : str)] "TITLE" []
                   ++ "</title>")])
    /\ get_segment_in_html 1 updated "<title>" "</title>" 1 1 []
       = (Return ("<title>" ++ Dict.get [("TITLE" : str, "New" : str)] "TITLE" []
                    ++ "</title>"), []).
Proof.
  apply (update_then_extract 0 "<h><title>Old</title></h>" "<title>"
           "</title>" "TITLE" [("TITLE" : str, "New" : str)] []);
    [discriminate | discriminate | reflexivity].
Defined.

End TemplateFacts.

(** ** The output file *)

Module OutputFileFacts.

Import Template.

(** [rfind_char] gives the place of the last [c], if there is one. *)
Lemma rfind_char_from_spec (p : str) (c : ascii) (pos : nat) (last : Z) :
  (~ In c p /\ rfind_char_from p c pos last = last)
  \/ exists a b, p = a ++ c :: b /\ ~ In c b
                 /\ rfind_char_from p c pos last
                    = Z.of_nat (pos + List.length a).
Proof.
  revert pos last. induction p as [|x p IH]; intros pos last.
  - left. split; [intros [] | reflexivity].
  - cbn [rfind_char_from].
    destruct (IH (S pos) (if Ascii.eqb x c then Z.of_nat pos else last))
      as [[Hn Hr]|(a & b & -> & Hb & Hr)].
    + destruct (Ascii.eqb_spec x c) as [->|Hx].
      * right. exists [], p. repeat split; [exact Hn|].
        rewrite Hr. cbn. f_equal. lia.
      * left. split; [|exact Hr]. intros [E|E]; [congruence | now apply Hn].
    + right. exists (x :: a), b. repeat split; [exact Hb|].
      rewrite Hr. cbn [List.length]. f_equal. lia.
Qed.

Lemma rfind_char_spec (p : str) (c : ascii) :
  (~ In c p /\ rfind_char p c = -1)
  \/ exists a b, p = a ++ c :: b /\ ~ In c b /\ rfind_char p c = Py.len a.
Proof.
  destruct (rfind_char_from_spec p c 0 (-1)) as [H|(a & b & H1 & H2 & H3)];
    [now left|].
  right. exists a, b. repeat split; assumption.
Qed.

Lemma splitext_parts_sum (p : str) :
  fst (splitext p) ++ snd (splitext p) = p
  /\ (snd (splitext p) = []
      \/ exists e, snd (splitext p) = "."%char :: e
                   /\ ~ In "."%char e /\ ~ In "/"%char e).
Proof.
  unfold splitext.
  destruct (rfind_char_spec p "."%char) as [[_ Hd]|(a & b & Hp & Hb & Hd)];
    rewrite Hd.
  - destruct (Z.gtb_spec (-1) (rfind_char p "/"%char)) as [Hgt|];
      [|now split; [apply app_nil_r | left]].
    destruct (rfind_char_spec p "/"%char) as [[_ Hs]|(a & b & _ & _ & Hs)];
      rewrite Hs in Hgt; [lia | pose proof (len_nonneg a); lia].
  - destruct (Z.gtb_spec (Py.len a) (rfind_char p "/"%char)) as [Hgt|];
      [|now split; [apply app_nil_r | left]].
    destruct (other_than_dot _); [|now split; [apply app_nil_r | left]].
    cbn [fst snd]. subst p.
    rewrite slice_to_prefix, slice_from_suffix.
    split; [reflexivity|]. right. exists b. repeat split; [exact Hb|].
    intros Hs.
    destruct (rfind_char_spec (a ++ "."%char :: b) "/"%char)
      as [[Hn _]|(a' & b' & Hp' & Hb' & Hs')].
    + apply Hn. apply in_or_app. right. now right.
    + rewrite Hs' in Hgt.
      (* the last [/] stands before the dot, so [b] holds none *)
      assert (Hlen : (List.length a' < List.length a)%nat)
        by (unfold Py.len in Hgt; lia).
      apply (f_equal (skipn (S (List.length a')))) in Hp'.
      rewrite (skipn_app_short (S (List.length a')) a) in Hp' by lia.
      assert (Hb2 : skipn (S (List.length a')) (a' ++ "/"%char :: b') = b').
      { rewrite skipn_app.
        replace (S (List.length a') - List.length a')%nat with 1%nat by lia.
        rewrite skipn_all2 by lia. reflexivity. }
      rewrite Hb2 in Hp'. apply Hb'. rewrite <- Hp'.
      apply in_or_app. right. now right.
Qed.

(** X21. When the template is not updated in place, the file written is
    the template path with [-new] put before its extension, where the
    extension is empty or is the last dot of the path and what follows it
    (no other dot, no [/]); that file is never the template itself.  In
    place, the file written is the template. *)
Theorem output_file_not_in_place (html_file : str) :
  output_file html_file true = html_file
  /\ exists base ext,
       html_file = base ++ ext
       /\ (ext = []
           \/ exists e, ext = "."%char :: e
                        /\ ~ In "."%char e /\ ~ In "/"%char e)
       /\ output_file html_file false = base ++ "-new" ++ ext
       /\ output_file html_file false <> html_file.
Proof.
  split; [reflexivity|].
  destruct (splitext_parts_sum html_file) as [Hsum Hext].
  exists (fst (splitext html_file)), (snd (splitext html_file)).
  assert (H : output_file html_file false
              = fst (splitext html_file) ++ "-new"
                  ++ snd (splitext html_file))
    by (unfold output_file; now destruct (splitext html_file)).
  split; [now rewrite Hsum|]. split; [exact Hext|]. split; [exact H|].
  rewrite H. intros E. apply (f_equal (@List.length ascii)) in E.
  rewrite <- Hsum in E at 3.
  rewrite !length_app in E. cbn in E. lia.
Qed.

End OutputFileFacts.

(** ** Meta tags *)

Module MetaTagsFacts.

Import MetaTags MetaTagsSpec.

Lemma fence_ticks : fence = [tick; tick; tick].
Proof. reflexivity. Qed.

Lemma replace_scan_skip (s old new : str) (k : nat) :
  Py.replace_scan s old new k = Py.replace_scan (skipn k s) old new 0.
Proof.
  revert k. induction s as [|c s IH]; intros [|k]; try reflexivity.
  cbn [Py.replace_scan skipn]. apply IH.
Qed.

Lemma drop_fence_cons (c : ascii) (r : str) :
  drop_fence (c :: r)
  = if Py.startswith (c :: r) fence then drop_fence (skipn 2 r)
    else c :: drop_fence r.
Proof.
  unfold drop_fence. cbn [Py.replace_scan].
  destruct (Py.startswith (c :: r) fence); [|reflexivity].
  cbn [app]. apply replace_scan_skip.
Qed.

Lemma startswith_one (s : str) (c : ascii) :
  Py.startswith s [c]
  = match s with [] => false | d :: _ => Ascii.eqb c d end.
Proof. destruct s; cbn; [reflexivity | apply andb_true_r]. Qed.

Lemma startswith_cons (s p : str) (c : ascii) :
  Py.startswith s (c :: p)
  = match s with
    | [] => false
    | d :: s' => Ascii.eqb c d && Py.startswith s' p
    end.
Proof. reflexivity. Qed.

(** A text that does not start with a tick stays so. *)
Lemma drop_fence_head_tick (s : str) :
  Py.startswith s [tick] = false ->
  Py.startswith (drop_fence s) [tick] = false.
Proof.
  destruct s as [|c r]; [reflexivity|].
  rewrite startswith_one. intros H.
  rewrite drop_fence_cons, fence_ticks, (startswith_cons (c :: r)), H.
  cbn [andb]. now rewrite startswith_one.
Qed.

(** A text that does not start with two ticks stays so. *)
Lemma drop_fence_head_two_ticks (s : str) :
  Py.startswith s [tick; tick] = false ->
  Py.startswith (drop_fence s) [tick; tick] = false.
Proof.
  destruct s as [|c r]; [reflexivity|].
  rewrite startswith_cons. intros H.
  rewrite drop_fence_cons, fence_ticks, (startswith_cons (c :: r)).
  destruct (Ascii.eqb tick c) eqn:Ec; cbn [andb] in *.
  - assert (Hf : Py.startswith r [tick; tick] = false).
    { rewrite startswith_cons. destruct r as [|d r']; [reflexivity|].
      rewrite startswith_one in H. now rewrite H. }
    rewrite Hf, (startswith_cons (c :: drop_fence r)), Ec. cbn [andb].
    now apply drop_fence_head_tick.
  - now rewrite (startswith_cons (c :: drop_fence r)), Ec.
Qed.

Lemma drop_fence_clean_by_length (n : nat) (s : str) (d : nat) :
  (List.length s <= n)%nat ->
  Py.startswith (skipn d (drop_fence s)) fence = false.
Proof.
  revert s d. induction n as [|n IH]; intros s d Hn.
  - destruct s; [|simpl in Hn; lia]. now rewrite skipn_nil.
  - destruct s as [|c r]; [now rewrite skipn_nil|].
    cbn [List.length] in Hn. rewrite drop_fence_cons.
    destruct (Py.startswith (c :: r) fence) eqn:E.
    + apply IH. rewrite length_skipn. lia.
    + destruct d as [|d]; [|cbn [skipn]; apply IH; lia].
      cbn [skipn]. rewrite fence_ticks in *.
      rewrite (startswith_cons (c :: r)) in E.
      rewrite (startswith_cons (c :: drop_fence r)).
      destruct (Ascii.eqb tick c); cbn [andb] in *; [|reflexivity].
      now apply drop_fence_head_two_ticks.
Qed.

Lemma remove_fences_clean (html_code : str) :
  Py.find (remove_fences html_code) fence 0 = -1.
Proof.
  apply find_absent_iff. intros d _. unfold remove_fences.
  change (Py.replace ?x fence []) with (drop_fence x).
  now apply (drop_fence_clean_by_length _ _ d (Nat.le_refl _)).
Qed.

(** X22. For a document that is an object whose [raw_schema] is a string,
    [format_meta_tags] returns a text in which no code fence is left,
    whatever the string is. *)
Theorem format_meta_tags_no_fence (meta_tags_dict : list (str * json))
    (html_code : str) :
  Dict.lookup meta_tags_dict "raw_schema" = Some (JString html_code) ->
  exists html,
    format_meta_tags (Loaded (JObject meta_tags_dict)) = Done html
    /\ Py.find html fence 0 = -1.
Proof.
  intros H. exists (remove_fences html_code). cbn [format_meta_tags].
  rewrite H. split; [reflexivity | apply remove_fences_clean].
Qed.

Lemma format_meta_tags_no_fence_example :
  exists html,
    format_meta_tags
      (Loaded (JObject [("raw_schema" : str,
                         JString ("``" ++ html_fence ++ "`<meta/>" ++ fence))]))
    = Done html
    /\ Py.find html fence 0 = -1.
Proof.
  apply (format_meta_tags_no_fence _ ("``" ++ html_fence ++ "`<meta/>" ++ fence)).
  reflexivity.
Defined.

End MetaTagsFacts.

(** ** Reading the cells *)

Module ExcelFacts.

Import Excel ExcelSpec.

(** *** [strip] *)

Lemma dropwhile_length (p : ascii -> bool) (s : str) :
  (List.length (Py.dropwhile p s) <= List.length s)%nat.
Proof.
  induction s as [|c s IH]; cbn; [lia|]. destruct (p c); cbn; lia.
Qed.

Lemma dropwhile_idem (p : ascii -> bool) (s : str) :
  Py.dropwhile p (Py.dropwhile p s) = Py.dropwhile p s.
Proof.
  induction s as [|c s IH]; [reflexivity|]. cbn [Py.dropwhile].
  destruct (p c) eqn:E; [exact IH|]. cbn [Py.dropwhile]. now rewrite E.
Qed.

Lemma dropwhile_split (p : ascii -> bool) (s : str) :
  s = Py.takewhile p s ++ Py.dropwhile p s.
Proof.
  induction s as [|c s IH]; [reflexivity|]. cbn.
  destruct (p c); [cbn; now f_equal | reflexivity].
Qed.

Lemma dropwhile_fixed_head (p : ascii -> bool) (c : ascii) (r : str) :
  Py.dropwhile p (c :: r) = c :: r -> p c = false.
Proof.
  cbn. destruct (p c); [|reflexivity]. intros H.
  pose proof (dropwhile_length p r) as Hl. rewrite H in Hl. cbn in Hl. lia.
Qed.

Lemma rstrip_idem (s : str) : Py.rstrip (Py.rstrip s) = Py.rstrip s.
Proof.
  unfold Py.rstrip. now rewrite rev_involutive, dropwhile_idem.
Qed.

Lemma lstrip_rstrip (l : str) :
  Py.lstrip l = l -> Py.lstrip (Py.rstrip l) = Py.rstrip l.
Proof.
  unfold Py.lstrip, Py.rstrip. intros H.
  pose proof (dropwhile_split Py.isspace (rev l)) as Hs.
  apply (f_equal (@rev ascii)) in Hs.
  rewrite rev_involutive, rev_app_distr in Hs.
  destruct (rev (Py.dropwhile Py.isspace (rev l))) as [|x q] eqn:E;
    [reflexivity|].
  rewrite Hs in H. cbn [app] in H.
  apply dropwhile_fixed_head in H. cbn. now rewrite H.
Qed.

Lemma strip_idem (s : str) : Py.strip (Py.strip s) = Py.strip s.
Proof.
  unfold Py.strip.
  rewrite (lstrip_rstrip (Py.lstrip s)) by apply dropwhile_idem.
  apply rstrip_idem.
Qed.

Section Sheet.

Variable cell : Type.
Variable isna : cell -> bool.
Variable to_str : cell -> str.

Lemma set_stored (data : list (str * str)) (key v : str) :
  Forall (fun kv => stored (snd kv)) data -> stored v ->
  Forall (fun kv => stored (snd kv)) (Dict.set data key v).
Proof.
  intros H Hv. induction H as [|[k w] d Hk Hd IH]; cbn [Dict.set].
  - now constructor.
  - destruct (Dict.key_eqb k key); constructor; cbn [snd] in *; auto.
Qed.

Lemma read_cells_stored (df : dataframe cell)
    (cell_mapping : list (str * (Z * Z))) (data data' : list (str * str))
    (log log' : Log) :
  read_cells cell isna to_str df cell_mapping data log = (Return data', log') ->
  Forall (fun kv => stored (snd kv)) data ->
  Forall (fun kv => stored (snd kv)) data'.
Proof.
  revert data log. induction cell_mapping as [|[key [r c]] rest IH];
    intros data log; cbn [read_cells].
  - unfold ret. now intros [= <- _].
  - destruct (_ || _); [discriminate|].
    unfold bind at 1, lift.
    destruct (iloc cell df (r - 1) (c - 1)) as [val| |]; try discriminate.
    destruct (if isna val then [] else Py.strip (to_str val)) as [|x t] eqn:E;
      [discriminate|].
    intros H Hd. apply (IH _ _ H). apply set_stored; [exact Hd|].
    destruct (isna val); [discriminate|].
    split; [congruence|]. rewrite <- E. apply strip_idem.
Qed.

(** X23. Every value of the dictionary [read_excel_data] returns is a
    non-empty text without white space at either end. *)
Theorem read_excel_data_values (excel_file sheet_name : str)
    (read : read_result cell) (cell_mapping : list (str * (Z * Z)))
    (data : list (str * str)) (log log' : Log) :
  read_excel_data cell isna to_str excel_file sheet_name read cell_mapping log
  = (Return data, log') ->
  Forall (fun kv => snd kv <> [] /\ Py.strip (snd kv) = snd kv) data.
Proof.
  unfold read_excel_data. destruct read as [e|df]; [discriminate|].
  unfold bind at 1.
  destruct (read_cells cell isna to_str df cell_mapping [] log)
    as [[d| |] l] eqn:E; try discriminate.
  cbn. intros [= <- _]. apply (read_cells_stored _ _ _ _ _ _ E). constructor.
Qed.

(** X24. The bounds of a cell.  A row or column number above the size of
    the sheet ends the script with the out-of-range line in the log.  The
    row number 0 passes the check: [iloc] is given [-1] and the cell is
    taken from the last row. *)
Theorem cell_bounds (df : dataframe cell) (key : str) (r c : Z)
    (rest : list (str * (Z * Z))) (data : list (str * str)) (log : Log) :
  (Z.of_nat (nrows cell df) < r \/ Z.of_nat (ncols cell df) < c ->
   read_cells cell isna to_str df ((key, (r, c)) :: rest) data log
   = (Raise (SystemExit 1), log ++ ["ERROR: " ++ out_of_range_msg key]))
  /\ (r = 0 -> (0 < nrows cell df)%nat ->
      1 <= c <= Z.of_nat (ncols cell df) ->
      forall val,
        val = iat cell df (nrows cell df - 1) (Z.to_nat (c - 1)) ->
        isna val = false ->
        Py.strip (to_str val) <> [] ->
        read_cells cell isna to_str df ((key, (r, c)) :: rest) data log
        = read_cells cell isna to_str df rest
            (Dict.set data key (Py.strip (to_str val))) log).
Proof.
  split.
  - intros H. cbn [read_cells].
    replace ((r - 1 >=? Z.of_nat (nrows cell df))
             || (c - 1 >=? Z.of_nat (ncols cell df))) with true;
      [reflexivity|].
    symmetry. apply orb_true_iff.
    destruct H; [left | right]; apply Z.geb_le; lia.
  - intros -> Hn Hc val Hval Hna Hs. cbn [read_cells].
    replace ((0 - 1 >=? Z.of_nat (nrows cell df))
             || (c - 1 >=? Z.of_nat (ncols cell df))) with false.
    + unfold bind, lift, iloc, position.
      destruct (Z.ltb_spec (0 - 1) 0); [|lia].
      destruct (Z.ltb_spec (0 - 1 + Z.of_nat (nrows cell df)) 0); [lia|].
      destruct (Z.ltb_spec (c - 1) 0); [lia|].
      destruct (Z.ltb_spec (c - 1) (Z.of_nat (ncols cell df))); [|lia].
      replace (Z.to_nat (0 - 1 + Z.of_nat (nrows cell df)))
        with (nrows cell df - 1)%nat by lia.
      rewrite <- Hval, Hna.
      destruct (Py.strip (to_str val)); [congruence | reflexivity].
    + symmetry. apply orb_false_iff.
      split; rewrite Z.geb_leb; apply Z.leb_gt; lia.
Qed.

End Sheet.

(** Row 3 is out of range; row 0 is read as the last row. *)
Lemma cell_bounds_example :
  read_cells str never_na as_text two_rows [("K" : str, (3, 1))] [] []
  = (Raise (SystemExit 1), [] ++ ["ERROR: " ++ out_of_range_msg "K"])
  /\ read_cells str never_na as_text two_rows [("K" : str, (0, 1))] [] []
     = (Return [("K" : str, "last" : str)], []).
Proof.
  split.
  - apply (proj1 (cell_bounds str never_na as_text two_rows
                    "K" 3 1 [] [] [])).
    left. cbn. lia.
  - rewrite (proj2 (cell_bounds str never_na as_text two_rows
                      "K" 0 1 [] [] []) eq_refl ltac:(cbn; lia)
               ltac:(cbn; lia) (" last " : str) eq_refl eq_refl
               ltac:(discriminate)).
    reflexivity.
Defined.

Lemma read_excel_data_values_example :
  Forall (fun kv => snd kv <> [] /\ Py.strip (snd kv) = snd kv)
    [("K" : str, "last" : str)].
Proof.
  apply (read_excel_data_values str never_na as_text
           "book.xlsx" "Sheet" (Sheet str two_rows)
           [("K" : str, (2, 1))] [("K" : str, "last" : str)] []
           ["Successfully read data from Excel file 'book.xlsx', sheet 'Sheet'."
            : str]).
  reflexivity.
Defined.

End ExcelFacts.
